(** * Praya desktop utilities: configuration store, preferences controller,
      status poller and low-spec decision dialog

    A shallow embedding of [praya-preferences.py] and [lowspec-dialog.py].
    Python dictionaries are finite maps, Python lists are lists, Python
    floats are IEEE-754 binary64 values given by their sign, mantissa and
    exponent.  What the operating system, the D-Bus peer, [systemctl] and
    the desktop settings store answer is an explicit input of each
    operation, so that every [try]/[except] of the source has both of its
    branches in the model; so are the way each write of a configuration
    file ends, which no handler of the source covers, and what the toolkit
    emits when the code sets a row that has a handler connected. *)

From Stdlib Require Import ZArith Lia.
From Stdlib Require Import Floats.SpecFloat.
From Stdlib Require Import Strings.Ascii Strings.String.
From stdpp Require Import gmap strings list fin_maps pretty.

Local Open Scope string_scope.

(** ** Python values *)

Set Warnings "-register-all".

(** What [json.load] builds: [None], [bool], [int], [float], [str], [list]
    and [dict].  Nested objects keep the order of their keys; only the
    top-level document is used as a map. *)
Inductive json : Type :=
| JNull
| JBool (b : bool)
| JInt (n : Z)
| JFloat (x : spec_float)
| JStr (s : string)
| JArr (items : list json)
| JObj (fields : list (string * json)).

(** A configuration document: a [dict] with [str] keys.  Equality of maps
    is equality of their lookups, which is Python's [==] on dictionaries. *)
Abbreviation dict := (gmap string json).

(** Exceptions the embedded code can meet. *)
Inductive exn : Type :=
| FileNotFoundError
| PermissionError
| IsADirectoryError
| UnicodeDecodeError
| JSONDecodeError
| TypeError.

(** A call either returns or raises. *)
Inductive outcome (A : Type) : Type :=
| Returned (a : A)
| Raised (e : exn).
Arguments Returned {A} a.
Arguments Raised {A} e.

(** ** Object store

    [dict(defaults)] allocates a new dictionary.  Objects live in a store
    indexed by their identity, so that "a fresh copy" has a meaning: a new
    identity with the same contents. *)
Abbreviation loc := nat (only parsing).
Abbreviation heap := (gmap nat (gmap string json)).

Definition alloc (h : heap) (d : dict) : loc * heap :=
  let l := fresh (dom h) in (l, <[l := d]> h).

(** [m.update(data)]: every key of [data] is written into [m]. *)
Definition dict_update (m data : dict) : dict := data ∪ m.

(** [m.get(key, dflt)] *)
Definition dict_get (m : dict) (key : string) (dflt : json) : json :=
  default dflt (m !! key).

(** ** Config store *)

Module ConfigStore.

(** What [open(path, 'r')] followed by [json.load(f)] does for a path: it
    raises, or it yields the parsed document.  The documents of this type
    are JSON objects, the only ones [_save_json] writes: a file whose text
    is another JSON value (null, a number, a string, a list) is not a
    [read_outcome], and what [merged.update(data)] does with such a value
    is not part of the model. *)
Inductive read_outcome : Type :=
| ReadRaised (e : exn)
| Parsed (data : dict).

Abbreviation filesystem := (string -> read_outcome) (only parsing).

(** The handler [except (FileNotFoundError, json.JSONDecodeError)]. *)
Definition caught (e : exn) : bool :=
  match e with
  | FileNotFoundError | JSONDecodeError => true
  | _ => false
  end.

(** The dictionary built on the success path: [dict(defaults)] then
    [merged.update(data)]. *)
Definition merge (defaults data : dict) : dict := dict_update defaults data.

(** [_load_json(path, defaults)], with [defaults] the identity of the
    defaults dictionary in the store [h]. *)
Definition _load_json (fs : filesystem) (h : heap) (path : string) (defaults : loc)
  : outcome loc * heap :=
  let d := default ∅ (h !! defaults) in
  match fs path with
  | Parsed data =>
      let '(merged, h1) := alloc h d in
      (Returned merged, <[merged := dict_update d data]> h1)
  | ReadRaised e =>
      if caught e then
        let '(copy, h1) := alloc h d in (Returned copy, h1)
      else (Raised e, h)
  end.

Definition DEFAULT_SERVICES_CONFIG : dict :=
  <["ai" := JBool false]>
  (<["posture" := JBool false]>
  (<["appMenuLayout" := JStr "grid"]>
  (<["mainMenuHoverActivate" := JBool false]>
  (<["taskbarHoverActivate" := JBool false]>
  (<["showDesktopHoverActivate" := JBool false]>
  (<["calendarHoverActivate" := JBool false]>
  (<["quickAccessHoverActivate" := JBool false]>
  (<["floatingPanel" := JBool true]>
  (<["panelPosition" := JStr "top"]> ∅))))))))).

Definition DEFAULT_CHATBOT_CONFIG : dict :=
  <["provider" := JStr "anthropic"]>
  (<["model" := JStr "claude-sonnet-4-20250514"]>
  (<["apiKey" := JStr ""]> ∅)).

(** The object the specification states for [services.json]. *)
Definition stated_services_defaults : dict :=
  list_to_map
    [ ("ai", JBool false); ("posture", JBool false); ("appMenuLayout", JStr "grid");
      ("mainMenuHoverActivate", JBool false); ("taskbarHoverActivate", JBool false);
      ("showDesktopHoverActivate", JBool false); ("calendarHoverActivate", JBool false);
      ("quickAccessHoverActivate", JBool false); ("floatingPanel", JBool true);
      ("panelPosition", JStr "top") ].

End ConfigStore.

(** ** Strings

    Text is a string of characters of the ASCII range, which is what
    [systemctl is-active] prints and what the identifiers of the source
    are made of. *)

(** [str.isspace] on one character: tab, line feed, vertical tab, form
    feed, carriage return, the four separators 28 to 31, and space. *)
Definition isspace (c : ascii) : bool :=
  let n := nat_of_ascii c in
  ((9 <=? n)%nat && (n <=? 13)%nat) || ((28 <=? n)%nat && (n <=? 32)%nat).

Fixpoint lstrip (s : string) : string :=
  match s with
  | EmptyString => EmptyString
  | String c rest => if isspace c then lstrip rest else s
  end.

Fixpoint rstrip (s : string) : string :=
  match s with
  | EmptyString => EmptyString
  | String c rest =>
      match rstrip rest with
      | EmptyString => if isspace c then EmptyString else String c EmptyString
      | kept => String c kept
      end
  end.

(** [s.strip()] *)
Definition strip (s : string) : string := rstrip (lstrip s).

(** Text put on a widget: a message identifier passed through gettext's
    [_], or text shown as it is. *)
Inductive label : Type :=
| Msg (msgid : string)
| Text (s : string).

(** The characters on screen under a translation [tr] of the message
    identifiers; [gettext.NullTranslations], the fallback of the source, is
    the identity. *)
Definition rendered (tr : string -> string) (l : label) : string :=
  match l with Msg msgid => tr msgid | Text s => s end.

(** ** Floats

    A Python [float] is a binary64 value: a signed zero, a signed infinity,
    NaN, or [(-1)^s * m * 2^e] with [m] and [e] in the binary64 format.
    Comparisons are those of IEEE 754 ([SFltb], [SFleb]): every comparison
    with NaN is false. *)

Definition float_0_0 : spec_float := S754_zero false.
Definition float_1_0 : spec_float := S754_finite false 4503599627370496 (-52).
(** The doubles nearest to 1.7 and to -0.3: [0x1.b333333333333p+0] and
    [-0x1.3333333333333p-2]. *)
Definition float_1_7 : spec_float := S754_finite false 7656119366529843 (-52).
Definition float_m0_3 : spec_float := S754_finite true 5404319552844595 (-54).

(** [min(a, b)] and [max(a, b)] of the builtins: the first argument is
    kept unless the second is strictly smaller (resp. larger). *)
Definition py_min (a b : spec_float) : spec_float := if SFltb b a then b else a.
Definition py_max (a b : spec_float) : spec_float := if SFltb a b then b else a.

(** Integer nearest to [n / d] for [d > 0], ties to the even one. *)
Definition round_half_even (n d : Z) : Z :=
  let q := (n / d)%Z in
  match (2 * (n mod d) ?= d)%Z with
  | Lt => q
  | Gt => (q + 1)%Z
  | Eq => if Z.even q then q else (q + 1)%Z
  end.

(** [m * 2^e * 100] rounded to an integer. *)
Definition hundredths (m : positive) (e : Z) : Z :=
  if (0 <=? e)%Z then (Z.pos m * 2 ^ e * 100)%Z
  else round_half_even (Z.pos m * 100) (2 ^ (- e)).

Definition two_digits (n : Z) : string :=
  if (n <? 10)%Z then "0" +:+ pretty n else pretty n.

Definition fixed_2 (h : Z) : string :=
  pretty (h / 100)%Z +:+ "." +:+ two_digits (h mod 100)%Z.

Definition sign_prefix (s : bool) : string := if s then "-" else "".

(** [f'{x:.2f}']: two decimals, correctly rounded. *)
Definition format_2f (x : spec_float) : string :=
  match x with
  | S754_nan => "nan"
  | S754_infinity s => sign_prefix s +:+ "inf"
  | S754_zero s => sign_prefix s +:+ "0.00"
  | S754_finite s m e => sign_prefix s +:+ fixed_2 (hundredths m e)
  end.

(** ** Low-spec decision dialog ([lowspec-dialog.py]) *)

Module LowspecDialog.

Record LowspecApp : Type := {
  exit_code : Z;
  running : bool;   (* false once [quit] was called *)
}.

(** [LowspecApp.__init__] *)
Definition __init__ : LowspecApp := {| exit_code := 2; running := true |}.

Definition quit (app : LowspecApp) : LowspecApp :=
  {| exit_code := exit_code app; running := false |}.

(** [LowspecApp._on_response(dialog, response)] *)
Definition _on_response (response : string) (app : LowspecApp) : LowspecApp :=
  let app1 :=
    if decide (response = "ignore") then {| exit_code := 0; running := running app |}
    else if decide (response = "apply") then {| exit_code := 1; running := running app |}
    else app in
  quit app1.

(** [app.run([])]: the dialog's [response] signals reach the handler as
    long as the application runs.  Destroying the window without a
    response ends the run with no signal delivered. *)
Fixpoint run (signals : list string) (app : LowspecApp) : LowspecApp :=
  match signals with
  | [] => quit app
  | response :: later =>
      if running app then run later (_on_response response app) else app
  end.

(** [main()]: the status passed to [sys.exit]. *)
Definition main (signals : list string) : Z := exit_code (run signals __init__).

End LowspecDialog.

(** ** Preferences window ([praya-preferences.py]) *)

Module Preferences.

Record provider : Type := { name : string; models : list string }.

Definition PROVIDERS : list (string * provider) :=
  [ ("anthropic",
     {| name := "Anthropic";
        models := ["claude-sonnet-4-20250514"; "claude-opus-4-20250514";
                   "claude-3-5-haiku-20241022"] |});
    ("openai",
     {| name := "ChatGPT";
        models := ["gpt-4o"; "gpt-4o-mini"; "gpt-4-turbo"] |}) ].

(** [list(PROVIDERS.keys())] *)
Definition PROVIDERS_keys : list string := PROVIDERS.*1.

(** [PROVIDERS[pkey]['models']]; a missing key is a [KeyError] in Python
    and the empty list here.  The keys passed are always present, see
    [current_provider_key_known]. *)
Definition PROVIDERS_models (pkey : string) : list string :=
  match list_find (λ kv, kv.1 = pkey) PROVIDERS with
  | Some (_, (_, p)) => models p
  | None => []
  end.

(** [0 <= idx < len(l)] *)
Definition in_range {A} (idx : Z) (l : list A) : bool :=
  (0 <=? idx)%Z && (idx <? Z.of_nat (length l))%Z.

(** [l[idx]] for an index in range. *)
Definition getitem (l : list string) (idx : Z) : string :=
  nth (Z.to_nat idx) l "".

(** [l.index(x)] for an element of [l]. *)
Definition index (l : list string) (x : string) : Z :=
  match list_find (λ y, y = x) l with
  | Some (i, _) => Z.of_nat i
  | None => 0
  end.

(** [v in l] for a list of strings: only a string can be a member. *)
Definition json_in (v : json) (l : list string) : bool :=
  match v with JStr s => bool_decide (s ∈ l) | _ => false end.

(** [v == s] for a string literal [s]. *)
Definition json_eq_str (v : json) (s : string) : bool :=
  match v with JStr x => bool_decide (x = s) | _ => false end.

(** [Adw.ComboRow]: its string list and the selected position. *)
Record ComboRow : Type := { items : list string; selected : Z }.

Definition GTK_INVALID_LIST_POSITION : Z := 4294967295.

(** [row.set_model(store)]: a row with a new store selects its first
    item, or nothing when the store is empty. *)
Definition set_model (store : list string) (row : ComboRow) : ComboRow :=
  {| items := store;
     selected := match store with [] => GTK_INVALID_LIST_POSITION | _ => 0 end |}.

(** [row.set_selected(position)] *)
Definition set_selected (position : Z) (row : ComboRow) : ComboRow :=
  {| items := items row; selected := position |}.

(** The text the row shows for its selection. *)
Definition selected_item (row : ComboRow) : option string :=
  if in_range (selected row) (items row) then items row !! Z.to_nat (selected row)
  else None.

(** The fields of [PrayaPreferencesWindow] that the callbacks read or
    write.  Widgets are represented by the property the code uses. *)
Record Window : Type := {
  _services : dict;
  _chatbot : dict;
  _dbus : bool;                       (* a session bus connection, or [None] *)
  _posture_poll_id : option nat;
  _service_running : bool;
  _layout_row : Z;                    (* selected position *)
  _provider_row : Z;                  (* selected position *)
  _model_row : ComboRow;
  _service_label : label;
  _posture_status_label : label;
  _posture_level_bar : spec_float;    (* value of the level bar *)
}.

(** How a call of [_save_json] ends: its [with] block runs to its end; or
    [os.makedirs] or [open] raises, and the file is as it was; or
    [json.dump] or [f.write] raises after [open(path, 'w')] has emptied the
    file. *)
Inductive write_outcome : Type :=
| Written
| WriteRaisedBeforeOpen
| WriteRaisedAfterOpen.

(** What lies outside the process: the configuration files, given by the
    calls of [_save_json] so far and how each one ended, the desktop
    settings store and the GLib main context. *)
Record Desktop : Type := {
  written : list (string * dict * write_outcome);
                                      (* [_save_json] calls, latest first *)
  enable_animations : bool;           (* org.gnome.desktop.interface *)
  enabled_extensions : list string;   (* org.gnome.shell *)
  disabled_extensions : list string;  (* org.gnome.shell *)
  sources : gset nat;                 (* live timeout sources *)
}.

Abbreviation State := (Window * Desktop)%type.

Definition set_services (v : dict) (w : Window) : Window :=
  {| _services := v; _chatbot := _chatbot w; _dbus := _dbus w;
     _posture_poll_id := _posture_poll_id w; _service_running := _service_running w;
     _layout_row := _layout_row w; _provider_row := _provider_row w;
     _model_row := _model_row w; _service_label := _service_label w;
     _posture_status_label := _posture_status_label w;
     _posture_level_bar := _posture_level_bar w |}.

Definition set_chatbot (v : dict) (w : Window) : Window :=
  {| _services := _services w; _chatbot := v; _dbus := _dbus w;
     _posture_poll_id := _posture_poll_id w; _service_running := _service_running w;
     _layout_row := _layout_row w; _provider_row := _provider_row w;
     _model_row := _model_row w; _service_label := _service_label w;
     _posture_status_label := _posture_status_label w;
     _posture_level_bar := _posture_level_bar w |}.

Definition set_posture_poll_id (v : option nat) (w : Window) : Window :=
  {| _services := _services w; _chatbot := _chatbot w; _dbus := _dbus w;
     _posture_poll_id := v; _service_running := _service_running w;
     _layout_row := _layout_row w; _provider_row := _provider_row w;
     _model_row := _model_row w; _service_label := _service_label w;
     _posture_status_label := _posture_status_label w;
     _posture_level_bar := _posture_level_bar w |}.

Definition set_service_running (v : bool) (w : Window) : Window :=
  {| _services := _services w; _chatbot := _chatbot w; _dbus := _dbus w;
     _posture_poll_id := _posture_poll_id w; _service_running := v;
     _layout_row := _layout_row w; _provider_row := _provider_row w;
     _model_row := _model_row w; _service_label := _service_label w;
     _posture_status_label := _posture_status_label w;
     _posture_level_bar := _posture_level_bar w |}.

Definition set_layout_row (v : Z) (w : Window) : Window :=
  {| _services := _services w; _chatbot := _chatbot w; _dbus := _dbus w;
     _posture_poll_id := _posture_poll_id w; _service_running := _service_running w;
     _layout_row := v; _provider_row := _provider_row w;
     _model_row := _model_row w; _service_label := _service_label w;
     _posture_status_label := _posture_status_label w;
     _posture_level_bar := _posture_level_bar w |}.

Definition set_provider_row (v : Z) (w : Window) : Window :=
  {| _services := _services w; _chatbot := _chatbot w; _dbus := _dbus w;
     _posture_poll_id := _posture_poll_id w; _service_running := _service_running w;
     _layout_row := _layout_row w; _provider_row := v;
     _model_row := _model_row w; _service_label := _service_label w;
     _posture_status_label := _posture_status_label w;
     _posture_level_bar := _posture_level_bar w |}.

Definition set_model_row (v : ComboRow) (w : Window) : Window :=
  {| _services := _services w; _chatbot := _chatbot w; _dbus := _dbus w;
     _posture_poll_id := _posture_poll_id w; _service_running := _service_running w;
     _layout_row := _layout_row w; _provider_row := _provider_row w;
     _model_row := v; _service_label := _service_label w;
     _posture_status_label := _posture_status_label w;
     _posture_level_bar := _posture_level_bar w |}.

Definition set_service_label (v : label) (w : Window) : Window :=
  {| _services := _services w; _chatbot := _chatbot w; _dbus := _dbus w;
     _posture_poll_id := _posture_poll_id w; _service_running := _service_running w;
     _layout_row := _layout_row w; _provider_row := _provider_row w;
     _model_row := _model_row w; _service_label := v;
     _posture_status_label := _posture_status_label w;
     _posture_level_bar := _posture_level_bar w |}.

Definition set_posture_status_label (v : label) (w : Window) : Window :=
  {| _services := _services w; _chatbot := _chatbot w; _dbus := _dbus w;
     _posture_poll_id := _posture_poll_id w; _service_running := _service_running w;
     _layout_row := _layout_row w; _provider_row := _provider_row w;
     _model_row := _model_row w; _service_label := _service_label w;
     _posture_status_label := v;
     _posture_level_bar := _posture_level_bar w |}.

Definition set_posture_level_bar (v : spec_float) (w : Window) : Window :=
  {| _services := _services w; _chatbot := _chatbot w; _dbus := _dbus w;
     _posture_poll_id := _posture_poll_id w; _service_running := _service_running w;
     _layout_row := _layout_row w; _provider_row := _provider_row w;
     _model_row := _model_row w; _service_label := _service_label w;
     _posture_status_label := _posture_status_label w;
     _posture_level_bar := v |}.

Definition set_written (v : list (string * dict * write_outcome)) (d : Desktop)
  : Desktop :=
  {| written := v; enable_animations := enable_animations d;
     enabled_extensions := enabled_extensions d;
     disabled_extensions := disabled_extensions d; sources := sources d |}.

Definition set_enable_animations (v : bool) (d : Desktop) : Desktop :=
  {| written := written d; enable_animations := v;
     enabled_extensions := enabled_extensions d;
     disabled_extensions := disabled_extensions d; sources := sources d |}.

Definition set_enabled_extensions (v : list string) (d : Desktop) : Desktop :=
  {| written := written d; enable_animations := enable_animations d;
     enabled_extensions := v;
     disabled_extensions := disabled_extensions d; sources := sources d |}.

Definition set_disabled_extensions (v : list string) (d : Desktop) : Desktop :=
  {| written := written d; enable_animations := enable_animations d;
     enabled_extensions := enabled_extensions d;
     disabled_extensions := v; sources := sources d |}.

Definition set_sources (v : gset nat) (d : Desktop) : Desktop :=
  {| written := written d; enable_animations := enable_animations d;
     enabled_extensions := enabled_extensions d;
     disabled_extensions := disabled_extensions d; sources := v |}.

(** Paths, relative to [GLib.get_user_config_dir()]. *)
Definition SERVICES_CONFIG_PATH : string := "praya/services.json".
Definition CHATBOT_CONFIG_PATH : string := "praya/chatbot.json".

(** Whether a call that ended this way returned ([true]) or raised. *)
Definition returned (o : write_outcome) : bool :=
  match o with Written => true | _ => false end.

(** [_save_json(path, data)], for a call that ends as [o] says: the desktop
    after the call, and whether the call returned.  The function has no
    handler of its own: what [os.makedirs], [open], [json.dump] or
    [f.write] raises leaves it. *)
Definition _save_json (o : write_outcome) (path : string) (data : dict) (d : Desktop)
  : Desktop * bool :=
  (set_written ((path, data, o) :: written d) d, returned o).

Definition _save_services (o : write_outcome) (w : Window) (d : Desktop)
  : Desktop * bool :=
  _save_json o SERVICES_CONFIG_PATH (_services w) d.

Definition _save_chatbot (o : write_outcome) (w : Window) (d : Desktop)
  : Desktop * bool :=
  _save_json o CHATBOT_CONFIG_PATH (_chatbot w) d.

(** What a file is after some calls of [_save_json]: no call has opened
    it; or the latest call that opened it wrote its document to the end; or
    that call raised on the way, and the file holds what was written of the
    text until then. *)
Inductive file_state : Type :=
| Untouched
| Holds (doc : dict)
| Incomplete.

Fixpoint state_after (path : string) (calls : list (string * dict * write_outcome))
  : file_state :=
  match calls with
  | [] => Untouched
  | (p, data, o) :: older =>
      if decide (p = path) then
        match o with
        | Written => Holds data
        | WriteRaisedBeforeOpen => state_after path older
        | WriteRaisedAfterOpen => Incomplete
        end
      else state_after path older
  end.

(** The document a path holds after the calls so far, if they left a
    whole one. *)
Definition file_content (path : string) (d : Desktop) : option dict :=
  match state_after path (written d) with
  | Holds doc => Some doc
  | _ => None
  end.

(** The latest call of [_save_json] for a path: its document and how it
    ended. *)
Fixpoint latest (path : string) (calls : list (string * dict * write_outcome))
  : option (dict * write_outcome) :=
  match calls with
  | [] => None
  | (p, data, o) :: older =>
      if decide (p = path) then Some (data, o) else latest path older
  end.

Definition last_save (path : string) (d : Desktop) : option (dict * write_outcome) :=
  latest path (written d).

(** The calls of [_save_json] for a path. *)
Definition saves_of (path : string) (d : Desktop)
  : list (string * dict * write_outcome) :=
  filter (λ c, c.1.1 = path) (written d).

(** *** Helpers: model list *)

(** [_current_provider_key] *)
Definition _current_provider_key (w : Window) : string :=
  let keys := PROVIDERS_keys in
  let idx := _provider_row w in
  if in_range idx keys then getitem keys idx else "anthropic".

(** *** Signals

    The callbacks are run by the toolkit when a signal is emitted.  An
    exception that leaves a callback ends the callback there; it does not
    reach the code that caused the emission, and the window goes on.  So a
    callback is given by the state it leaves.

    When the code itself sets the model or the position of a row whose
    [notify::selected] has a handler connected, it is the toolkit that
    decides whether the signal is emitted.  If it is, the handler runs
    inside the call, before the next statement of the caller. *)
Inductive emission : Type :=
| Silent                          (* no signal *)
| Notified (o : write_outcome).   (* the handler runs; its save ends as [o] *)

Definition emit (handler : write_outcome -> State -> State) (e : emission)
    (st : State) : State :=
  match e with
  | Silent => st
  | Notified o => handler o st
  end.

(** [_on_model_changed], with [row] the model row; [o] is how its save
    ends. *)
Definition _on_model_changed (o : write_outcome) (st : State) : State :=
  let '(w, d) := st in
  let pkey := _current_provider_key w in
  let models := PROVIDERS_models pkey in
  let idx := selected (_model_row w) in
  if in_range idx models then
    let w := set_chatbot (<["model" := JStr (getitem models idx)]> (_chatbot w)) w in
    (w, (_save_chatbot o w d).1)
  else (w, d).

(** [_update_model_list].  [_on_model_changed] is connected to the model
    row (except during the construction of the window, where it is
    connected after this call): [on_set_model] and [on_set_selected] say
    whether [set_model] and [set_selected] notify it. *)
Definition _update_model_list (on_set_model on_set_selected : emission) (st : State)
  : State :=
  let '(w, d) := st in
  let pkey := _current_provider_key w in
  let models := PROVIDERS_models pkey in
  let '(w1, d1) :=
    emit _on_model_changed on_set_model
      (set_model_row (set_model models (_model_row w)) w, d) in
  let current_model := dict_get (_chatbot w1) "model" (JStr "") in
  if json_in current_model models then
    match current_model with
    | JStr s =>
        emit _on_model_changed on_set_selected
          (set_model_row (set_selected (index models s) (_model_row w1)) w1, d1)
    | _ => (w1, d1)
    end
  else
    emit _on_model_changed on_set_selected
      (set_model_row (set_selected 0 (_model_row w1)) w1, d1).

(** The model the provider/model coupling asks for: the previous model
    when the provider lists it, otherwise the provider's first model. *)
Definition resolved_model (models : list string) (previous : json) : string :=
  match previous with
  | JStr s => if decide (s ∈ models) then s else getitem models 0
  | _ => getitem models 0
  end.

(** The position [_update_model_list] selects for a configured model. *)
Definition resolved_position (models : list string) (current : json) : Z :=
  match current with
  | JStr s => if decide (s ∈ models) then index models s else 0
  | _ => 0
  end.

(** *** Callbacks: panel page *)

(** [_on_layout_changed], with [row] the layout row. *)
Definition _on_layout_changed (o : write_outcome) (st : State) : State :=
  let '(w, d) := st in
  let val := if decide (_layout_row w = 0%Z) then "grid" else "list" in
  let w := set_services (<["appMenuLayout" := JStr val]> (_services w)) w in
  (w, (_save_services o w d).1).

(** How a [try] block around desktop settings ends. *)
Inductive settings_access : Type :=
| SettingsOk
| SettingsRaised.

(** How the [try] block on [org.gnome.shell] ends: it runs to its end, or
    it raises before the first [set_strv], or between the two. *)
Inductive shell_access : Type :=
| ShellOk
| ShellRaisedBeforeWrites
| ShellRaisedBetweenWrites.

Definition tiling_id : string := "tilingshell@ferrarodomenico.com".

(** [if tiling_id not in l: l.append(tiling_id)] *)
Definition append_if_absent (l : list string) : list string :=
  if decide (tiling_id ∈ l) then l else l ++ [tiling_id].

(** [[x for x in l if x != tiling_id]] *)
Definition without_tiling (l : list string) : list string :=
  filter (λ x, x ≠ tiling_id) l.

(** Number of entries of [tiling_id] in a list, and the lists that hold
    it at most once. *)
Definition occurrences (l : list string) : nat :=
  length (filter (λ x, x = tiling_id) l).

Definition no_duplicate (l : list string) : Prop := (occurrences l <= 1)%nat.

(** The block "Toggle tilingshell extension". *)
Definition toggle_tilingshell (enabled : bool) (shell : shell_access) (d : Desktop)
  : Desktop :=
  let enabled_exts := enabled_extensions d in
  let disabled_exts := disabled_extensions d in
  let '(enabled_exts, disabled_exts) :=
    if enabled then (without_tiling enabled_exts, append_if_absent disabled_exts)
    else (append_if_absent enabled_exts, without_tiling disabled_exts) in
  match shell with
  | ShellRaisedBeforeWrites => d
  | ShellRaisedBetweenWrites => set_enabled_extensions enabled_exts d
  | ShellOk =>
      set_disabled_extensions disabled_exts (set_enabled_extensions enabled_exts d)
  end.

(** [_on_lowspec_changed], with [enabled] the value of [row.get_active()].
    [_on_layout_changed] is connected to the layout row: [on_set_selected]
    says whether [set_selected] notifies it; [o] is how the save at the
    end goes. *)
Definition _on_lowspec_changed (enabled : bool) (anim : settings_access)
    (shell : shell_access) (on_set_selected : emission) (o : write_outcome)
    (st : State) : State :=
  let '(w, d) := st in
  let w := set_services (<["lowspecEnabled" := JBool enabled]> (_services w)) w in
  let d :=
    match anim with
    | SettingsOk => set_enable_animations (negb enabled) d
    | SettingsRaised => d
    end in
  let d := toggle_tilingshell enabled shell d in
  let new_layout := if enabled then "list" else "grid" in
  let w := set_services (<["appMenuLayout" := JStr new_layout]> (_services w)) w in
  let '(w, d) :=
    emit _on_layout_changed on_set_selected
      (set_layout_row (if decide (new_layout = "grid") then 0 else 1) w, d) in
  (w, (_save_services o w d).1).

(** The switch flipped an arbitrary number of times: for each flip, the
    position of the switch and what the outside answers. *)
Definition lowspec_toggles
    (l : list (bool * settings_access * shell_access * emission * write_outcome))
    (st : State) : State :=
  foldl (λ st t, _on_lowspec_changed t.1.1.1.1 t.1.1.1.2 t.1.1.2 t.1.2 t.2 st) st l.

(** *** Callbacks: services page *)

(** [_on_provider_changed]; [o] is how the save at the end goes. *)
Definition _on_provider_changed (on_set_model on_set_selected : emission)
    (o : write_outcome) (st : State) : State :=
  let '(w, d) := _update_model_list on_set_model on_set_selected st in
  let w := set_chatbot (<["provider" := JStr (_current_provider_key w)]> (_chatbot w)) w in
  (w, (_save_chatbot o w d).1).

(** The user picks position [idx] in the provider row: the property is
    set and [notify::selected] runs [_on_provider_changed]. *)
Definition provider_selected (idx : Z) (on_set_model on_set_selected : emission)
    (o : write_outcome) (st : State) : State :=
  _on_provider_changed on_set_model on_set_selected o (set_provider_row idx st.1, st.2).

(** *** Service status *)

(** How [subprocess.run(['systemctl', '--user', 'is-active', 'praya'],
    capture_output=True, text=True, timeout=5)] ends: with an exception
    ([TimeoutExpired], [FileNotFoundError], ...) or with the captured
    standard output. *)
Inductive run_result : Type :=
| RunRaised
| Completed (stdout : string).

(** [_check_service_status] *)
Definition _check_service_status (r : run_result) (w : Window) : Window :=
  let w := set_service_label (Msg "Checking...") w in
  match r with
  | Completed stdout =>
      let status := strip stdout in
      if decide (status = "active") then
        set_service_running true (set_service_label (Msg "Running") w)
      else if decide (status = "inactive") then
        set_service_running false (set_service_label (Msg "Stopped") w)
      else
        (* [status or _('Unknown')]: the empty string is false *)
        let shown := match status with EmptyString => Msg "Unknown" | _ => Text status end in
        set_service_running false (set_service_label shown w)
  | RunRaised =>
      set_service_running false (set_service_label (Msg "Error checking status") w)
  end.

(** *** Posture polling *)

(** How the [GetUserPosture] call and the decoding of its reply end. *)
Inductive call_result : Type :=
| CallRaised
| Reply (status : string) (score : spec_float).

Definition SOURCE_CONTINUE : bool := true.
Definition SOURCE_REMOVE : bool := false.

(** [max(0.0, min(1.0, score))] *)
Definition clamp (score : spec_float) : spec_float :=
  py_max float_0_0 (py_min float_1_0 score).

(** [_poll_posture]: the new window and the value returned to GLib. *)
Definition _poll_posture (r : call_result) (w : Window) : Window * bool :=
  if negb (_dbus w) then
    (set_posture_status_label (Msg "D-Bus not available") w, SOURCE_CONTINUE)
  else
    let w :=
      match r with
      | Reply status score =>
          let w := set_posture_status_label
                     (Text (status +:+ " (" +:+ format_2f score +:+ ")")) w in
          set_posture_level_bar (clamp score) w
      | CallRaised =>
          let w := set_posture_status_label (Msg "Service unavailable") w in
          set_posture_level_bar float_0_0 w
      end in
    (w, SOURCE_CONTINUE).

(** [GLib.timeout_add]: a new source with a non-zero identifier. *)
Definition timeout_add (d : Desktop) : nat * Desktop :=
  let id := fresh ({[0%nat]} ∪ sources d) in
  (id, set_sources ({[id]} ∪ sources d) d).

(** [_start_posture_polling] *)
Definition _start_posture_polling (st : State) : State :=
  let '(w, d) := st in
  let '(id, d) := timeout_add d in
  (set_posture_poll_id (Some id) w, d).

(** The main loop dispatches the timeout of the window: the callback runs
    if the source is alive, and the source is dropped when the callback
    does not return [SOURCE_CONTINUE]. *)
Definition timeout_fires (r : call_result) (st : State) : State :=
  let '(w, d) := st in
  match _posture_poll_id w with
  | Some id =>
      if decide (id ∈ sources d) then
        let '(w, continue) := _poll_posture r w in
        (w, if continue then d else set_sources (sources d ∖ {[id]}) d)
      else st
  | None => st
  end.

Definition ticks (rs : list call_result) (st : State) : State :=
  foldl (λ st r, timeout_fires r st) st rs.

(** [_on_close]: [if self._posture_poll_id:] is false for [None] and for 0. *)
Definition _on_close (st : State) : State :=
  let '(w, d) := st in
  match _posture_poll_id w with
  | Some id =>
      if decide (id = 0%nat) then st
      else (set_posture_poll_id None w, set_sources (sources d ∖ {[id]}) d)
  | None => st
  end.

(** What holds of the window between two ticks, from its construction to
    its closing: the timeout source is alive, the bus connection is the
    one found at construction, and without a bus the level bar is still
    at its initial value. *)
Definition polling (dbus : bool) (st : State) : Prop :=
  (exists id, _posture_poll_id st.1 = Some id /\ id ∈ sources st.2 /\ id <> 0%nat) /\
  _dbus st.1 = dbus /\
  (dbus = false -> _posture_level_bar st.1 = float_0_0).

(** *** Construction *)

(** The store when the module is loaded: the two default dictionaries. *)
Definition DEFAULT_SERVICES_CONFIG_id : nat := 0.
Definition DEFAULT_CHATBOT_CONFIG_id : nat := 1.
Definition module_heap : heap :=
  <[DEFAULT_SERVICES_CONFIG_id := ConfigStore.DEFAULT_SERVICES_CONFIG]>
  (<[DEFAULT_CHATBOT_CONFIG_id := ConfigStore.DEFAULT_CHATBOT_CONFIG]> ∅).

(** The fields of the window as [__init__], [_build_panel_page] and
    [_build_services_page] set them before the model row is filled. *)
Definition rows (services chatbot : dict) (dbus : bool) : Window :=
  let provider_keys := PROVIDERS_keys in
  let current_provider := dict_get chatbot "provider" (JStr "anthropic") in
  {| _services := services; _chatbot := chatbot; _dbus := dbus;
     _posture_poll_id := None; _service_running := false;
     _layout_row :=
       if json_eq_str (dict_get services "appMenuLayout" (JStr "grid")) "grid"
       then 0 else 1;
     _provider_row :=
       match current_provider with
       | JStr s => if json_in current_provider provider_keys
                   then index provider_keys s else 0
       | _ => 0
       end;
     _model_row := {| items := []; selected := GTK_INVALID_LIST_POSITION |};
     _service_label := Msg "Checking...";
     _posture_status_label := Msg "Waiting for data...";
     _posture_level_bar := float_0_0 |}.

(** The pages as [_build_panel_page] and [_build_services_page] leave
    them, for the given documents.  Every handler is connected after the
    property of its row is set, so nothing is notified.  The text of the
    key row is set last, with [set_text], which takes a [str] only. *)
Definition build_pages (services chatbot : dict) (dbus : bool) (d : Desktop)
  : outcome State :=
  let st := _update_model_list Silent Silent (rows services chatbot dbus, d) in
  match dict_get chatbot "apiKey" (JStr "") with
  | JStr _ => Returned st
  | _ => Raised TypeError
  end.

(** [PrayaPreferencesWindow.__init__]: the two loads, the session bus,
    the pages, the status check and the start of the polling. *)
Definition __init__ (fs : ConfigStore.filesystem) (dbus : bool) (r : run_result)
    (d : Desktop) : outcome State :=
  match ConfigStore._load_json fs module_heap SERVICES_CONFIG_PATH
          DEFAULT_SERVICES_CONFIG_id with
  | (Raised e, _) => Raised e
  | (Returned services, h) =>
      match ConfigStore._load_json fs h CHATBOT_CONFIG_PATH
              DEFAULT_CHATBOT_CONFIG_id with
      | (Raised e, _) => Raised e
      | (Returned chatbot, h) =>
          match build_pages (default ∅ (h !! services)) (default ∅ (h !! chatbot))
                  dbus d with
          | Raised e => Raised e
          | Returned (w, d) =>
              let w := _check_service_status r w in
              Returned (_start_posture_polling (w, d))
          end
      end
  end.

(** A desktop with nothing written, no extension listed and no timeout
    source, and the window built from the two default documents. *)
Definition empty_desktop : Desktop :=
  {| written := []; enable_animations := true; enabled_extensions := [];
     disabled_extensions := []; sources := ∅ |}.

Definition default_window : Window :=
  (_update_model_list Silent Silent
     (rows ConfigStore.DEFAULT_SERVICES_CONFIG ConfigStore.DEFAULT_CHATBOT_CONFIG true,
      empty_desktop)).1.

End Preferences.

(** ** Preferences window: the remaining callbacks and the session *)

Module Callbacks.

Import ConfigStore Preferences.

(** *** Callbacks: panel page *)

(** In each callback that saves, [o] is how the call of [_save_json]
    ends. *)

(** [_on_position_changed], with [selected] the value of [row.get_selected()]. *)
Definition _on_position_changed (selected : Z) (o : write_outcome) (st : State)
  : State :=
  let '(w, d) := st in
  let val := if decide (selected = 0%Z) then "top" else "bottom" in
  let w := set_services (<["panelPosition" := JStr val]> (_services w)) w in
  (w, (_save_services o w d).1).

(** [_on_floating_changed], with [active] the value of [row.get_active()]. *)
Definition _on_floating_changed (active : bool) (o : write_outcome) (st : State)
  : State :=
  let '(w, d) := st in
  let w := set_services (<["floatingPanel" := JBool active]> (_services w)) w in
  (w, (_save_services o w d).1).

(** The five rows of the group "Activate on Hover" and the key each one
    is connected with ([hover_keys]). *)
Inductive hover_row : Type :=
| MainMenu
| Taskbar
| ShowDesktop
| Calendar
| QuickAccess.

Definition hover_key (r : hover_row) : string :=
  match r with
  | MainMenu => "mainMenuHoverActivate"
  | Taskbar => "taskbarHoverActivate"
  | ShowDesktop => "showDesktopHoverActivate"
  | Calendar => "calendarHoverActivate"
  | QuickAccess => "quickAccessHoverActivate"
  end.

(** [_on_hover_changed(row, key)] *)
Definition _on_hover_changed (active : bool) (key : string) (o : write_outcome)
    (st : State) : State :=
  let '(w, d) := st in
  let w := set_services (<[key := JBool active]> (_services w)) w in
  (w, (_save_services o w d).1).

(** *** Callbacks: services page *)

(** A method call sent on the session bus with [call_sync]. *)
Record bus_call : Type := {
  bus_name : string;
  object_path : string;
  interface_name : string;
  method_name : string;
  parameters : list string;
  timeout_msec : Z;
}.

(** How a [call_sync] whose reply is not used ends. *)
Inductive call_end : Type :=
| CallReturned
| CallFailed.

Definition POSTURE_BUS_NAME : string := "com.github.blankon.praya".
Definition POSTURE_MAIN_INTERFACE : string := "com.github.blankon.Praya".
Definition POSTURE_MAIN_PATH : string := "/com/github/blankon/Praya".
Definition POSTURE_SERVICE_INTERFACE : string := "com.github.blankon.Praya.Posture".
Definition POSTURE_SERVICE_PATH : string := "/com/github/blankon/Praya/Posture".

(** [_on_posture_enable_changed]: the new state and the calls sent.  The
    save comes first and has no handler: when it raises, the callback ends
    before the bus is used.  The [try] around the call has
    [except Exception: pass], so the end of the call changes nothing. *)
Definition _on_posture_enable_changed (enabled : bool) (o : write_outcome)
    (reply : call_end) (st : State) : State * list bus_call :=
  let '(w, d) := st in
  let w := set_services (<["posture" := JBool enabled]> (_services w)) w in
  let '(d, saved) := _save_services o w d in
  if negb saved then ((w, d), [])
  else if _dbus w && _service_running w then
    let method := if enabled then "EnableService" else "DisableService" in
    let call := {| bus_name := POSTURE_BUS_NAME; object_path := POSTURE_MAIN_PATH;
                   interface_name := POSTURE_MAIN_INTERFACE; method_name := method;
                   parameters := ["posture"]; timeout_msec := -1 |} in
    match reply with
    | CallReturned => ((w, d), [call])
    | CallFailed => ((w, d), [call])
    end
  else ((w, d), []).

(** [_on_ai_enable_changed] *)
Definition _on_ai_enable_changed (enabled : bool) (o : write_outcome) (st : State)
  : State :=
  let '(w, d) := st in
  let w := set_services (<["ai" := JBool enabled]> (_services w)) w in
  (w, (_save_services o w d).1).

(** [_on_apikey_changed], with [text] the value of [row.get_text()]. *)
Definition _on_apikey_changed (text : string) (o : write_outcome) (st : State)
  : State :=
  let '(w, d) := st in
  let w := set_chatbot (<["apiKey" := JStr text]> (_chatbot w)) w in
  (w, (_save_chatbot o w d).1).

(** [_recalibrate]: the state and the calls sent. *)
Definition _recalibrate (reply : call_end) (st : State) : State * list bus_call :=
  let '(w, d) := st in
  if negb (_dbus w) then (st, [])
  else
    let call := {| bus_name := POSTURE_BUS_NAME; object_path := POSTURE_SERVICE_PATH;
                   interface_name := POSTURE_SERVICE_INTERFACE;
                   method_name := "Recalibrate"; parameters := []; timeout_msec := -1 |} in
    match reply with
    | CallReturned => (st, [call])
    | CallFailed => (st, [call])
    end.

(** *** The session

    Each [connect] of the source ties a signal to a callback.  An event is
    one signal that the user or the main loop causes, with the value of the
    property it reports and with what the outside answers during the
    callback: how its save ends, how the settings store and the bus answer,
    and whether the rows that the callback sets notify their own
    handlers. *)
Inductive event : Type :=
| LayoutSelected (position : Z) (o : write_outcome)
| PositionSelected (position : Z) (o : write_outcome)
| FloatingToggled (active : bool) (o : write_outcome)
| HoverToggled (row : hover_row) (active : bool) (o : write_outcome)
| LowspecToggled (active : bool) (anim : settings_access) (shell : shell_access)
    (on_set_selected : emission) (o : write_outcome)
| PostureEnableToggled (active : bool) (o : write_outcome) (reply : call_end)
| AiEnableToggled (active : bool) (o : write_outcome)
| ProviderSelected (position : Z) (on_set_model on_set_selected : emission)
    (o : write_outcome)
| ModelSelected (position : Z) (o : write_outcome)
| ApiKeyChanged (text : string) (o : write_outcome)
| RefreshClicked (r : run_result)
| RecalibrateClicked (reply : call_end)
| TimeoutFired (r : call_result)
| CloseRequest.

Definition handle (e : event) (st : State) : State :=
  match e with
  | LayoutSelected position o =>
      _on_layout_changed o (set_layout_row position st.1, st.2)
  | PositionSelected position o => _on_position_changed position o st
  | FloatingToggled active o => _on_floating_changed active o st
  | HoverToggled row active o => _on_hover_changed active (hover_key row) o st
  | LowspecToggled active anim shell on_set_selected o =>
      _on_lowspec_changed active anim shell on_set_selected o st
  | PostureEnableToggled active o reply =>
      (_on_posture_enable_changed active o reply st).1
  | AiEnableToggled active o => _on_ai_enable_changed active o st
  | ProviderSelected position on_set_model on_set_selected o =>
      provider_selected position on_set_model on_set_selected o st
  | ModelSelected position o =>
      _on_model_changed o
        (set_model_row (set_selected position (_model_row st.1)) st.1, st.2)
  | ApiKeyChanged text o => _on_apikey_changed text o st
  | RefreshClicked r => (_check_service_status r st.1, st.2)
  | RecalibrateClicked reply => (_recalibrate reply st).1
  | TimeoutFired r => timeout_fires r st
  | CloseRequest => _on_close st
  end.

Definition session (events : list event) (st : State) : State :=
  foldl (λ st e, handle e st) st events.

(** *** Notions used in the statements *)

(** The keys the callbacks write. *)
Definition services_keys : list string :=
  ["ai"; "posture"; "appMenuLayout"; "mainMenuHoverActivate"; "taskbarHoverActivate";
   "showDesktopHoverActivate"; "calendarHoverActivate"; "quickAccessHoverActivate";
   "floatingPanel"; "panelPosition"; "lowspecEnabled"].

Definition chatbot_keys : list string := ["provider"; "model"; "apiKey"].

(** [m'] has every key of [m], and differs from [m] on [keys] only. *)
Definition extends_on (keys : list string) (m m' : dict) : Prop :=
  (forall k, is_Some (m !! k) -> is_Some (m' !! k)) /\
  (forall k, k ∉ keys -> m' !! k = m !! k).

Definition is_bool (v : json) : bool :=
  match v with JBool _ => true | _ => false end.

Definition is_str (v : json) : bool :=
  match v with JStr _ => true | _ => false end.

(** The values the schema of [services.json] allows for a key. *)
Definition services_field_ok (k : string) (v : json) : bool :=
  if decide (k = "appMenuLayout") then json_eq_str v "grid" || json_eq_str v "list"
  else if decide (k = "panelPosition") then json_eq_str v "top" || json_eq_str v "bottom"
  else if decide (k ∈ services_keys) then is_bool v
  else true.

(** The values the schema of [chatbot.json] allows for a key: a known
    provider, a model of the registry, a string. *)
Definition chatbot_field_ok (k : string) (v : json) : bool :=
  if decide (k = "provider") then json_in v PROVIDERS_keys
  else if decide (k = "model") then
    json_in v (PROVIDERS_models "anthropic" ++ PROVIDERS_models "openai")
  else if decide (k = "apiKey") then is_str v
  else true.

Definition well_formed (field_ok : string -> json -> bool) (m : dict) : Prop :=
  map_Forall (λ k v, field_ok k v = true) m.

(** [c'] is [c], or [c] with a model of [models] stored. *)
Definition model_stored (models : list string) (c c' : dict) : Prop :=
  c' = c \/ exists m, m ∈ models /\ c' = <["model" := JStr m]> c.

(** A call of [_save_json] that is given, for one of the two files, the
    configuration of that file in [st] with keys of the callbacks set. *)
Definition saves_configuration (st : State) (call : string * dict * write_outcome)
  : Prop :=
  (call.1.1 = SERVICES_CONFIG_PATH /\
   extends_on services_keys (_services st.1) call.1.2) \/
  (call.1.1 = CHATBOT_CONFIG_PATH /\
   extends_on chatbot_keys (_chatbot st.1) call.1.2).

(** One step keeps a document and its file together: either the document
    is the same and no save was called for the file, or the latest save
    called for the file was given the document. *)
Definition kept_in_step (path : string) (m m' : dict) (d d' : Desktop) : Prop :=
  (m' = m /\ saves_of path d' = saves_of path d) \/
  (exists o, last_save path d' = Some (m', o)).

(** The latest save called for a path, if there was one, ran to its
    end. *)
Definition saved (path : string) (d : Desktop) : Prop :=
  match last_save path d with
  | Some (_, o) => o = Written
  | None => True
  end.

(** The files as a later run can find them after the saves of [d], when
    they were as [fs] says before: a file that no save opened is as it
    was, a file written to its end reads as the document written, and
    nothing is said of a file whose writing broke off. *)
Definition found_later (fs : filesystem) (d : Desktop) (fs' : filesystem) : Prop :=
  forall path,
    match state_after path (written d) with
    | Untouched => fs' path = fs path
    | Holds doc => fs' path = Parsed doc
    | Incomplete => True
    end.

(** One of them: there, a file whose writing broke off does not decode. *)
Definition fs_after (fs : filesystem) (d : Desktop) : filesystem :=
  λ path,
    match state_after path (written d) with
    | Untouched => fs path
    | Holds doc => Parsed doc
    | Incomplete => ReadRaised JSONDecodeError
    end.

(** The layout row shows the layout of the configuration. *)
Definition layout_shown (w : Window) : Prop :=
  _layout_row w = 0%Z <->
  json_eq_str (dict_get (_services w) "appMenuLayout" (JStr "grid")) "grid" = true.

(** The events of the status side: the refresh and recalibrate buttons,
    the timeout and the closing of the window. *)
Definition status_event (e : event) : bool :=
  match e with
  | RefreshClicked _ | RecalibrateClicked _ | TimeoutFired _ | CloseRequest => true
  | _ => false
  end.

(** The events that carry a new text of the API key row. *)
Definition api_key_event (e : event) : bool :=
  match e with ApiKeyChanged _ _ => true | _ => false end.

(** A status query that printed [active]. *)
Definition reports_active (r : run_result) : bool :=
  match r with
  | Completed stdout => bool_decide (strip stdout = "active")
  | RunRaised => false
  end.

(** The last status query of a session, if any. *)
Definition last_refresh (events : list event) : option run_result :=
  foldl (λ acc e, match e with RefreshClicked r => Some r | _ => acc end) None events.

(** Strings made of whitespace only. *)
Fixpoint all_space (s : string) : bool :=
  match s with
  | EmptyString => true
  | String c rest => isspace c && all_space rest
  end.

(** A value of the interval [0, 1]. *)
Definition in_unit_interval (x : spec_float) : Prop :=
  SFleb float_0_0 x = true /\ SFleb x float_1_0 = true.

(** The document [_load_json] returns for a path, or the error it raises. *)
Definition loaded (fs : filesystem) (path : string) (defaults : dict) : outcome dict :=
  match fs path with
  | Parsed data => Returned (merge defaults data)
  | ReadRaised e => if caught e then Returned defaults else Raised e
  end.

End Callbacks.

(** * Properties *)

Import ConfigStore.

(** ** Python builtins on concrete values *)

Example format_2f_1_7 : format_2f float_1_7 = "1.70".
Proof. vm_compute. reflexivity. Qed.

Example format_2f_m0_3 : format_2f float_m0_3 = "-0.30".
Proof. vm_compute. reflexivity. Qed.

(** 0.125 and 0.375 are ties: Python prints 0.12 and 0.38. *)
Example format_2f_ties :
  format_2f (S754_finite false 4503599627370496 (-55)) = "0.12" /\
  format_2f (S754_finite false 6755399441055744 (-54)) = "0.38".
Proof. vm_compute. split; reflexivity. Qed.

Example strip_newline : strip "active
" = "active".
Proof. reflexivity. Qed.

(** ** Lemmas on the merge *)

Lemma lookup_dict_update (m data : dict) (k : string) :
  dict_update m data !! k =
  match data !! k with Some v => Some v | None => m !! k end.
Proof.
  unfold dict_update. rewrite lookup_union.
  destruct (data !! k) as [v|], (m !! k) as [w|]; reflexivity.
Qed.

Lemma lookup_merge (defaults data : dict) (k : string) :
  merge defaults data !! k =
  match data !! k with Some v => Some v | None => defaults !! k end.
Proof. apply lookup_dict_update. Qed.

Lemma merge_empty (defaults : dict) : merge defaults ∅ = defaults.
Proof.
  apply map_eq; intros k. rewrite lookup_merge, lookup_empty. reflexivity.
Qed.


(** ** Config store: loading *)

Lemma load_json_parsed (fs : filesystem) (h : heap) (path : string)
    (defaults : nat) (d data : dict) :
  h !! defaults = Some d -> fs path = Parsed data ->
  _load_json fs h path defaults
  = (Returned (fresh (dom h)), <[fresh (dom h) := merge d data]> h).
Proof.
  intros Hd Hfs. unfold _load_json, alloc. rewrite Hd, Hfs. simpl.
  by rewrite insert_insert_eq.
Qed.

Lemma load_json_caught (fs : filesystem) (h : heap) (path : string)
    (defaults : nat) (d : dict) (e : exn) :
  h !! defaults = Some d -> fs path = ReadRaised e -> caught e = true ->
  _load_json fs h path defaults
  = (Returned (fresh (dom h)), <[fresh (dom h) := d]> h).
Proof.
  intros Hd Hfs He. unfold _load_json, alloc. rewrite Hd, Hfs, He. reflexivity.
Qed.

Lemma load_json_propagates (fs : filesystem) (h : heap) (path : string)
    (defaults : nat) (e : exn) :
  fs path = ReadRaised e -> caught e = false ->
  _load_json fs h path defaults = (Raised e, h).
Proof.
  intros Hfs He. unfold _load_json. rewrite Hfs, He. reflexivity.
Qed.

Lemma fresh_not_allocated (h : heap) : h !! fresh (dom h) = None.
Proof. apply not_elem_of_dom, is_fresh. Qed.

(** C2, as stated, fails: a file that exists but cannot be opened makes
    [_load_json] raise [PermissionError]; no copy of the defaults is
    returned. *)
Lemma load_json_permission_error_propagates :
  _load_json (fun _ => ReadRaised PermissionError) Preferences.module_heap
    Preferences.SERVICES_CONFIG_PATH Preferences.DEFAULT_SERVICES_CONFIG_id
  = (Raised PermissionError, Preferences.module_heap)
  /\ ~ (exists l h',
         _load_json (fun _ => ReadRaised PermissionError) Preferences.module_heap
           Preferences.SERVICES_CONFIG_PATH Preferences.DEFAULT_SERVICES_CONFIG_id
         = (Returned l, h')).
Proof.
  split; [reflexivity|]. intros (l & h' & H). discriminate H.
Qed.

(** C2, amended: [_load_json] absorbs exactly [FileNotFoundError] and
    [JSONDecodeError], for which it returns a new dictionary (an identity
    not in use before) holding the contents of [defaults]; when the file
    parses it returns a new dictionary holding the shallow merge, parsed
    values first; the defaults object itself is never modified; every
    other failure of the read is raised to the caller. *)
Theorem load_json_absorbs_missing_and_corrupt (fs : filesystem) (h : heap)
    (path : string) (defaults : nat) (d : dict) :
  h !! defaults = Some d ->
  match fs path with
  | ReadRaised FileNotFoundError | ReadRaised JSONDecodeError =>
      exists l, h !! l = None /\ l <> defaults /\
        _load_json fs h path defaults = (Returned l, <[l := d]> h) /\
        (<[l := d]> h) !! defaults = Some d
  | ReadRaised e => _load_json fs h path defaults = (Raised e, h)
  | Parsed data =>
      exists l, h !! l = None /\ l <> defaults /\
        _load_json fs h path defaults = (Returned l, <[l := merge d data]> h) /\
        (<[l := merge d data]> h) !! defaults = Some d /\
        forall k, merge d data !! k
                  = match data !! k with Some v => Some v | None => d !! k end
  end.
Proof.
  intros Hd.
  assert (Hne : fresh (dom h) <> defaults).
  { intros Heq. pose proof (fresh_not_allocated h) as Hf. rewrite Heq in Hf. congruence. }
  destruct (fs path) as [e|data] eqn:Hfs.
  - destruct e;
      try (apply load_json_propagates; [exact Hfs | reflexivity]);
      (exists (fresh (dom h)); split; [apply fresh_not_allocated|]; split; [exact Hne|];
       split; [eapply load_json_caught; eauto | by rewrite lookup_insert_ne]).
  - exists (fresh (dom h)). split; [apply fresh_not_allocated|]. split; [exact Hne|].
    split; [by apply load_json_parsed|]. split; [by rewrite lookup_insert_ne|].
    intros k. apply lookup_merge.
Qed.

Lemma load_json_absorbs_missing_and_corrupt_witness :
  exists l, Preferences.module_heap !! l = None /\ l <> Preferences.DEFAULT_CHATBOT_CONFIG_id /\
    _load_json (fun _ => ReadRaised FileNotFoundError) Preferences.module_heap
      Preferences.CHATBOT_CONFIG_PATH Preferences.DEFAULT_CHATBOT_CONFIG_id
    = (Returned l, <[l := DEFAULT_CHATBOT_CONFIG]> Preferences.module_heap) /\
    (<[l := DEFAULT_CHATBOT_CONFIG]> Preferences.module_heap)
      !! Preferences.DEFAULT_CHATBOT_CONFIG_id = Some DEFAULT_CHATBOT_CONFIG.
Proof.
  apply (load_json_absorbs_missing_and_corrupt
           (fun _ => ReadRaised FileNotFoundError) Preferences.module_heap
           Preferences.CHATBOT_CONFIG_PATH Preferences.DEFAULT_CHATBOT_CONFIG_id
           DEFAULT_CHATBOT_CONFIG).
  reflexivity.
Defined.

Lemma stated_services_defaults_eq :
  stated_services_defaults = DEFAULT_SERVICES_CONFIG.
Proof. reflexivity. Qed.

(** C5: whatever JSON object the file holds (empty, with keys missing, with
    keys the schema does not know), the configuration returned by the load
    has every key of the defaults, takes the value of the file for every
    key the file has, known or not, and the default for the others; and an
    empty object in [services.json] gives exactly the stated defaults. *)
Theorem load_json_backfills_defaults (fs : filesystem) (h : heap)
    (path : string) (defaults : nat) (d data : dict) :
  h !! defaults = Some d -> fs path = Parsed data ->
  (exists l h' config,
     _load_json fs h path defaults = (Returned l, h') /\ h' !! l = Some config /\
     (forall k, is_Some (d !! k) -> is_Some (config !! k)) /\
     (forall k v, data !! k = Some v -> config !! k = Some v) /\
     (forall k, data !! k = None -> config !! k = d !! k))
  /\ (d = DEFAULT_SERVICES_CONFIG -> data = ∅ ->
      exists l h',
        _load_json fs h path defaults = (Returned l, h') /\
        h' !! l = Some stated_services_defaults).
Proof.
  intros Hd Hfs. rewrite (load_json_parsed fs h path defaults d data Hd Hfs). split.
  - exists (fresh (dom h)), (<[fresh (dom h) := merge d data]> h), (merge d data).
    split; [reflexivity|]. split; [apply lookup_insert_eq|].
    split; [|split].
    + intros k Hk. rewrite lookup_merge. destruct (data !! k); [eauto | exact Hk].
    + intros k v Hk. by rewrite lookup_merge, Hk.
    + intros k Hk. by rewrite lookup_merge, Hk.
  - intros -> ->. eexists _, _. split; [reflexivity|].
    rewrite lookup_insert_eq, merge_empty, stated_services_defaults_eq. reflexivity.
Qed.

Lemma load_json_backfills_defaults_witness :
  (exists l h' config,
     _load_json (fun _ => Parsed (<["foo" := JStr "bar"]> (<["ai" := JBool true]> ∅)))
       Preferences.module_heap Preferences.SERVICES_CONFIG_PATH
       Preferences.DEFAULT_SERVICES_CONFIG_id = (Returned l, h') /\
     h' !! l = Some config /\
     (forall k, is_Some (DEFAULT_SERVICES_CONFIG !! k) -> is_Some (config !! k)) /\
     (forall k v, (<["foo" := JStr "bar"]> (<["ai" := JBool true]> ∅) : dict) !! k = Some v ->
                  config !! k = Some v) /\
     (forall k, (<["foo" := JStr "bar"]> (<["ai" := JBool true]> ∅) : dict) !! k = None ->
                config !! k = DEFAULT_SERVICES_CONFIG !! k)).
Proof.
  apply (load_json_backfills_defaults
           (fun _ => Parsed (<["foo" := JStr "bar"]> (<["ai" := JBool true]> ∅)))
           Preferences.module_heap Preferences.SERVICES_CONFIG_PATH
           Preferences.DEFAULT_SERVICES_CONFIG_id DEFAULT_SERVICES_CONFIG
           (<["foo" := JStr "bar"]> (<["ai" := JBool true]> ∅))); reflexivity.
Defined.

(** C9: merging the defaults into an already merged document changes
    nothing, whatever keys the partial document has or lacks. *)
Theorem merge_idempotent (defaults partial : dict) :
  merge defaults (merge defaults partial) = merge defaults partial.
Proof.
  apply map_eq; intros k. rewrite !lookup_merge.
  destruct (partial !! k), (defaults !! k); reflexivity.
Qed.

(** ** Low-spec decision dialog *)

(** C1: the process exits with 0 when the response is [ignore], with 1
    when it is [apply], and with 2 when the run ends without a response
    (any other response identifier leaves the 2 as well). *)
Theorem lowspec_exit_codes :
  (forall later, LowspecDialog.main ("ignore" :: later) = 0%Z) /\
  (forall later, LowspecDialog.main ("apply" :: later) = 1%Z) /\
  LowspecDialog.main [] = 2%Z /\
  (forall response later, response <> "ignore" -> response <> "apply" ->
     LowspecDialog.main (response :: later) = 2%Z).
Proof.
  split; [|split; [|split]].
  - intros later. unfold LowspecDialog.main. simpl. destruct later; reflexivity.
  - intros later. unfold LowspecDialog.main. simpl. destruct later; reflexivity.
  - reflexivity.
  - intros response later Hi Ha. unfold LowspecDialog.main. simpl.
    unfold LowspecDialog._on_response.
    rewrite decide_False by exact Hi. rewrite decide_False by exact Ha.
    destruct later; reflexivity.
Qed.

Lemma lowspec_exit_codes_witness : LowspecDialog.main ["close"] = 2%Z.
Proof.
  apply (proj2 (proj2 (proj2 lowspec_exit_codes)) "close" []); discriminate.
Defined.

(** ** Preferences window: positions of the rows *)

Import Preferences.

Lemma index_spec (l : list string) (s : string) :
  s ∈ l -> l !! Z.to_nat (index l s) = Some s /\ in_range (index l s) l = true.
Proof.
  intros Hin. unfold index, in_range.
  destruct (list_find (λ y, y = s) l) as [[i y]|] eqn:Hfind.
  - apply list_find_Some in Hfind as (Hi & -> & _).
    rewrite Nat2Z.id. split; [exact Hi|].
    apply lookup_lt_Some in Hi.
    apply andb_true_iff. split; [apply Z.leb_le | apply Z.ltb_lt]; lia.
  - exfalso. apply list_find_None in Hfind.
    rewrite Forall_forall in Hfind. by apply (Hfind s).
Qed.

Lemma in_range_spec {A} (idx : Z) (l : list A) :
  in_range idx l = true <-> (0 <= idx < Z.of_nat (length l))%Z.
Proof.
  unfold in_range. rewrite andb_true_iff, Z.leb_le, Z.ltb_lt. reflexivity.
Qed.

Lemma in_range_false {A} (idx : Z) (l : list A) :
  ~ (0 <= idx < Z.of_nat (length l))%Z -> in_range idx l = false.
Proof.
  intros H. destruct (in_range idx l) eqn:E; [|reflexivity].
  apply in_range_spec in E. contradiction.
Qed.

(** The provider key is always a key of [PROVIDERS]. *)
Lemma current_provider_key_known (w : Window) :
  _current_provider_key w = "anthropic" \/ _current_provider_key w = "openai".
Proof.
  unfold _current_provider_key.
  destruct (in_range (_provider_row w) PROVIDERS_keys) eqn:E; [|by left].
  apply in_range_spec in E. simpl in E. unfold getitem.
  destruct (Z.to_nat (_provider_row w)) as [|[|n]] eqn:Hn; simpl; [by left|by right|lia].
Qed.

Lemma provider_models_nonempty (w : Window) :
  exists m rest, PROVIDERS_models (_current_provider_key w) = m :: rest.
Proof.
  destruct (current_provider_key_known w) as [-> | ->]; vm_compute; eauto.
Qed.

(** C10: a position of the model row outside the model list of the
    current provider makes [_on_model_changed] return the state it was
    given (same [_chatbot], no call of [_save_json]), and a position of the
    provider row outside the provider list gives the key [anthropic]. *)
Theorem out_of_range_selection_is_ignored (w : Window) (d : Desktop)
    (o : write_outcome) :
  (~ (0 <= selected (_model_row w)
        < Z.of_nat (length (PROVIDERS_models (_current_provider_key w))))%Z ->
   _on_model_changed o (w, d) = (w, d) /\
   _chatbot (_on_model_changed o (w, d)).1 = _chatbot w /\
   written (_on_model_changed o (w, d)).2 = written d) /\
  (~ (0 <= _provider_row w < Z.of_nat (length PROVIDERS_keys))%Z ->
   _current_provider_key w = "anthropic").
Proof.
  split.
  - intros H. apply in_range_false in H.
    assert (E : _on_model_changed o (w, d) = (w, d)).
    { unfold _on_model_changed. rewrite H. reflexivity. }
    rewrite E. auto.
  - intros H. apply in_range_false in H.
    unfold _current_provider_key. rewrite H. reflexivity.
Qed.

Lemma out_of_range_selection_is_ignored_witness :
  _on_model_changed Written
    (set_provider_row 7 (set_model_row (set_selected GTK_INVALID_LIST_POSITION
                                          (_model_row default_window)) default_window),
     empty_desktop)
  = (set_provider_row 7 (set_model_row (set_selected GTK_INVALID_LIST_POSITION
                                          (_model_row default_window)) default_window),
     empty_desktop)
  /\ _current_provider_key
       (set_provider_row 7 (set_model_row (set_selected GTK_INVALID_LIST_POSITION
                                             (_model_row default_window)) default_window))
     = "anthropic".
Proof.
  destruct (out_of_range_selection_is_ignored
              (set_provider_row 7 (set_model_row (set_selected GTK_INVALID_LIST_POSITION
                                                    (_model_row default_window)) default_window))
              empty_desktop Written) as [Hmodel Hprovider].
  split.
  - apply Hmodel. vm_compute. intros [_ H]. discriminate H.
  - apply Hprovider. vm_compute. intros [_ H]. discriminate H.
Defined.

(** ** Saving and the state of the files *)

(** A save that runs to its end leaves its document in the file; one that
    raises before the file is opened leaves the file as it was; one that
    raises later leaves no whole document. *)
Lemma file_content_save (path : string) (data : dict) (d : Desktop) :
  file_content path (_save_json Written path data d).1 = Some data /\
  file_content path (_save_json WriteRaisedBeforeOpen path data d).1 = file_content path d /\
  file_content path (_save_json WriteRaisedAfterOpen path data d).1 = None.
Proof.
  unfold file_content, _save_json. simpl. rewrite !decide_True by reflexivity.
  repeat split; reflexivity.
Qed.

(** The file holds the document of the latest save when that save ran to
    its end. *)
Lemma latest_written (path : string) (data : dict)
    (calls : list (string * dict * write_outcome)) :
  latest path calls = Some (data, Written) -> state_after path calls = Holds data.
Proof.
  induction calls as [|[[p x] o] calls IH]; [discriminate|]. simpl.
  destruct (decide (p = path)) as [->|Hne]; [|exact IH].
  intros [= -> ->]. reflexivity.
Qed.

Lemma last_save_written (path : string) (data : dict) (d : Desktop) :
  last_save path d = Some (data, Written) -> file_content path d = Some data.
Proof.
  unfold last_save, file_content. intros H. by rewrite (latest_written _ _ _ H).
Qed.

(** ** Preferences window: the model row *)

Lemma on_model_changed_eq (o : write_outcome) (w : Window) (d : Desktop) :
  _on_model_changed o (w, d) =
  if in_range (selected (_model_row w)) (PROVIDERS_models (_current_provider_key w))
  then
    (set_chatbot
       (<["model" := JStr (getitem (PROVIDERS_models (_current_provider_key w))
                                   (selected (_model_row w)))]> (_chatbot w)) w,
     set_written
       ((CHATBOT_CONFIG_PATH,
         <["model" := JStr (getitem (PROVIDERS_models (_current_provider_key w))
                                    (selected (_model_row w)))]> (_chatbot w), o)
          :: written d) d)
  else (w, d).
Proof. reflexivity. Qed.

Lemma resolved_position_spec (models : list string) (previous : json) :
  models <> [] ->
  in_range (resolved_position models previous) models = true /\
  models !! Z.to_nat (resolved_position models previous)
  = Some (resolved_model models previous) /\
  getitem models (resolved_position models previous) = resolved_model models previous.
Proof.
  intros Hne. destruct models as [|m rest]; [congruence|].
  unfold resolved_position, resolved_model.
  destruct previous as [| | | |s| |]; try (split; [reflexivity|split; reflexivity]).
  destruct (decide (s ∈ m :: rest)) as [Hin|Hnot];
    [|split; [reflexivity|split; reflexivity]].
  destruct (index_spec (m :: rest) s Hin) as [Hlk Hrange].
  split; [exact Hrange|]. split; [exact Hlk|].
  unfold getitem. by apply nth_lookup_Some.
Qed.

Lemma provider_models_not_nil (w : Window) :
  PROVIDERS_models (_current_provider_key w) <> [].
Proof. destruct (provider_models_nonempty w) as (m & rest & ->). discriminate. Qed.

(** The position selected by lines 364 to 368 of [_update_model_list]. *)
Lemma json_in_position (models : list string) (current : json) (A : Type)
    (f : Z -> A) (other : A) :
  (if json_in current models
   then match current with JStr s => f (index models s) | _ => other end
   else f 0%Z)
  = f (resolved_position models current).
Proof.
  unfold json_in, resolved_position.
  destruct current as [| | | |s| |]; try reflexivity.
  case_bool_decide as Hin; [rewrite decide_True | rewrite decide_False]; done.
Qed.

(** [_update_model_list], statement by statement: the row gets the models
    of the provider; if that notifies the handler, the first model is
    stored and saved; the position of the model stored by then is
    selected; if that notifies the handler, the model selected is stored
    and saved. *)
Lemma update_model_list_eq (on_set_model on_set_selected : emission)
    (w : Window) (d : Desktop) :
  _update_model_list on_set_model on_set_selected (w, d) =
  let models := PROVIDERS_models (_current_provider_key w) in
  let c1 :=
    match on_set_model with
    | Silent => _chatbot w
    | Notified _ => <["model" := JStr (getitem models 0)]> (_chatbot w)
    end in
  let calls1 :=
    match on_set_model with
    | Silent => []
    | Notified o1 => [(CHATBOT_CONFIG_PATH, c1, o1)]
    end in
  let pos := resolved_position models (dict_get c1 "model" (JStr "")) in
  let c2 :=
    match on_set_selected with
    | Silent => c1
    | Notified _ => <["model" := JStr (getitem models pos)]> c1
    end in
  let calls2 :=
    match on_set_selected with
    | Silent => []
    | Notified o2 => [(CHATBOT_CONFIG_PATH, c2, o2)]
    end in
  (set_chatbot c2 (set_model_row {| items := models; selected := pos |} w),
   set_written (calls2 ++ calls1 ++ written d) d).
Proof.
  cbv zeta.
  pose proof (provider_models_nonempty w) as (m & rest & Hm).
  unfold _update_model_list.
  set (models := PROVIDERS_models (_current_provider_key w)) in *.
  assert (Hstep1 :
    emit _on_model_changed on_set_model
      (set_model_row (set_model models (_model_row w)) w, d)
    = (set_chatbot
         match on_set_model with
         | Silent => _chatbot w
         | Notified _ => <["model" := JStr (getitem models 0)]> (_chatbot w)
         end
         (set_model_row {| items := models; selected := 0 |} w),
       set_written
         (match on_set_model with
          | Silent => []
          | Notified o1 =>
              [(CHATBOT_CONFIG_PATH,
                <["model" := JStr (getitem models 0)]> (_chatbot w), o1)]
          end ++ written d) d)).
  { destruct on_set_model as [|o1]; unfold emit.
    - unfold set_model. rewrite Hm. destruct w, d; reflexivity.
    - rewrite on_model_changed_eq.
      change (_current_provider_key (set_model_row _ w)) with (_current_provider_key w).
      fold models. unfold set_model. rewrite Hm. cbn [_model_row set_model_row selected].
      change (in_range 0 (m :: rest)) with true. cbv iota.
      destruct w, d; reflexivity. }
  rewrite Hstep1. clear Hstep1.
  cbn [_chatbot set_chatbot].
  match goal with
  | |- context [dict_get ?c "model" (JStr "")] =>
      rewrite (json_in_position models (dict_get c "model" (JStr "")) State
                 (fun i => emit _on_model_changed on_set_selected
                             (set_model_row (set_selected i _) _, _)));
      destruct (resolved_position_spec models (dict_get c "model" (JStr "")))
        as (Hrange & _); [unfold models; apply provider_models_not_nil|]
  end.
  destruct on_set_selected as [|o2]; unfold emit.
  - destruct on_set_model, w, d; reflexivity.
  - rewrite on_model_changed_eq.
    change (_current_provider_key (set_model_row _ (set_chatbot _ (set_model_row _ w))))
      with (_current_provider_key w).
    fold models. cbn [_model_row set_model_row set_chatbot selected set_selected].
    rewrite Hrange. destruct on_set_model, w, d; reflexivity.
Qed.

Lemma update_model_list_silent (w : Window) (d : Desktop) :
  _update_model_list Silent Silent (w, d)
  = (set_model_row
       {| items := PROVIDERS_models (_current_provider_key w);
          selected := resolved_position (PROVIDERS_models (_current_provider_key w))
                        (dict_get (_chatbot w) "model" (JStr "")) |} w, d).
Proof. rewrite update_model_list_eq. destruct w, d; reflexivity. Qed.




(** ** Preferences window: provider and model *)

(** The state that a change of the provider row leaves. *)
Lemma provider_selected_eq (idx : Z) (on_set_model on_set_selected : emission)
    (o : write_outcome) (w : Window) (d : Desktop) :
  provider_selected idx on_set_model on_set_selected o (w, d) =
  let pkey := _current_provider_key (set_provider_row idx w) in
  let models := PROVIDERS_models pkey in
  let c1 :=
    match on_set_model with
    | Silent => _chatbot w
    | Notified _ => <["model" := JStr (getitem models 0)]> (_chatbot w)
    end in
  let calls1 :=
    match on_set_model with
    | Silent => []
    | Notified o1 => [(CHATBOT_CONFIG_PATH, c1, o1)]
    end in
  let pos := resolved_position models (dict_get c1 "model" (JStr "")) in
  let c2 :=
    match on_set_selected with
    | Silent => c1
    | Notified _ => <["model" := JStr (getitem models pos)]> c1
    end in
  let calls2 :=
    match on_set_selected with
    | Silent => []
    | Notified o2 => [(CHATBOT_CONFIG_PATH, c2, o2)]
    end in
  (set_chatbot (<["provider" := JStr pkey]> c2)
     (set_model_row {| items := models; selected := pos |} (set_provider_row idx w)),
   set_written
     ((CHATBOT_CONFIG_PATH, <["provider" := JStr pkey]> c2, o)
        :: calls2 ++ calls1 ++ written d) d).
Proof.
  unfold provider_selected, _on_provider_changed. cbn [fst snd].
  rewrite update_model_list_eq. destruct w, d; reflexivity.
Qed.




(** ** Preferences window: low-spec mode *)

Lemma occurrences_without (l : list string) : occurrences (without_tiling l) = 0%nat.
Proof.
  unfold occurrences, without_tiling. induction l as [|x l IH]; [reflexivity|].
  rewrite filter_cons. destruct (decide (x ≠ tiling_id)) as [Hne|Heq]; [|exact IH].
  rewrite filter_cons. rewrite decide_False by exact Hne. exact IH.
Qed.

Lemma not_elem_of_without (l : list string) : tiling_id ∉ without_tiling l.
Proof.
  unfold without_tiling. intros Hin. apply list_elem_of_filter in Hin as [Hne _].
  by apply Hne.
Qed.

Lemma elem_of_append_if_absent (l : list string) : tiling_id ∈ append_if_absent l.
Proof.
  unfold append_if_absent. destruct (decide (tiling_id ∈ l)) as [Hin|Hnot]; [exact Hin|].
  apply elem_of_app. right. apply list_elem_of_singleton. reflexivity.
Qed.

Lemma occurrences_absent (l : list string) : tiling_id ∉ l -> occurrences l = 0%nat.
Proof.
  unfold occurrences. induction l as [|x l IH]; intros Hnot; [reflexivity|].
  rewrite filter_cons. destruct (decide (x = tiling_id)) as [->|Hne].
  - exfalso. apply Hnot. left.
  - apply IH. intros Hin. apply Hnot. by right.
Qed.

Lemma occurrences_app (l1 l2 : list string) :
  occurrences (l1 ++ l2) = (occurrences l1 + occurrences l2)%nat.
Proof. unfold occurrences. by rewrite filter_app, length_app. Qed.

Lemma no_duplicate_append_if_absent (l : list string) :
  no_duplicate l -> no_duplicate (append_if_absent l).
Proof.
  unfold no_duplicate, append_if_absent. intros H.
  destruct (decide (tiling_id ∈ l)) as [Hin|Hnot]; [exact H|].
  rewrite occurrences_app, (occurrences_absent l Hnot). reflexivity.
Qed.

Lemma no_duplicate_without (l : list string) : no_duplicate (without_tiling l).
Proof. unfold no_duplicate. rewrite occurrences_without. lia. Qed.

(** The state that [_on_lowspec_changed] leaves.  The handler of the
    layout row, when it is notified, stores the layout that the callback
    has just stored and saves. *)
Lemma on_lowspec_changed_eq (enabled : bool) (anim : settings_access)
    (shell : shell_access) (on_set_selected : emission) (o : write_outcome)
    (w : Window) (d : Desktop) :
  _on_lowspec_changed enabled anim shell on_set_selected o (w, d) =
  let services :=
    <["appMenuLayout" := JStr (if enabled then "list" else "grid")]>
      (<["lowspecEnabled" := JBool enabled]> (_services w)) in
  let calls :=
    match on_set_selected with
    | Silent => []
    | Notified o' => [(SERVICES_CONFIG_PATH, services, o')]
    end in
  (set_layout_row (if enabled then 1 else 0)%Z (set_services services w),
   set_written ((SERVICES_CONFIG_PATH, services, o) :: calls ++ written d)
     (set_disabled_extensions (disabled_extensions (toggle_tilingshell enabled shell d))
        (set_enabled_extensions (enabled_extensions (toggle_tilingshell enabled shell d))
           (set_enable_animations
              match anim with
              | SettingsOk => negb enabled
              | SettingsRaised => enable_animations d
              end d)))).
Proof.
  destruct d as [wr an en dis src].
  destruct on_set_selected as [|o'].
  - destruct enabled, anim, shell; reflexivity.
  - unfold _on_lowspec_changed, emit, _on_layout_changed, _save_services, _save_json.
    destruct enabled, anim, shell; cbn; rewrite insert_insert_eq; reflexivity.
Qed.

(** One run of the callback keeps both lists free of duplicates of the
    identifier, however the accesses to the settings end. *)
Lemma on_lowspec_changed_no_duplicate (enabled : bool) (anim : settings_access)
    (shell : shell_access) (on_set_selected : emission) (o : write_outcome)
    (st : State) :
  no_duplicate (enabled_extensions st.2) -> no_duplicate (disabled_extensions st.2) ->
  no_duplicate
    (enabled_extensions (_on_lowspec_changed enabled anim shell on_set_selected o st).2) /\
  no_duplicate
    (disabled_extensions (_on_lowspec_changed enabled anim shell on_set_selected o st).2).
Proof.
  destruct st as [w d]. rewrite on_lowspec_changed_eq. cbn [fst snd]. intros He Hd.
  destruct d as [wr an en dis src].
  destruct enabled, shell; simpl in *;
    auto using no_duplicate_append_if_absent, no_duplicate_without.
Qed.

Lemma lowspec_toggles_no_duplicate
    (l : list (bool * settings_access * shell_access * emission * write_outcome))
    (st : State) :
  no_duplicate (enabled_extensions st.2) -> no_duplicate (disabled_extensions st.2) ->
  no_duplicate (enabled_extensions (lowspec_toggles l st).2) /\
  no_duplicate (disabled_extensions (lowspec_toggles l st).2).
Proof.
  revert st. induction l as [|[[[[enabled anim] shell] layout] o] l IH]; intros st He Hd.
  - split; assumption.
  - unfold lowspec_toggles. simpl. apply IH;
      apply on_lowspec_changed_no_duplicate; assumption.
Qed.

Lemma on_lowspec_changed_config (enabled : bool) (anim : settings_access)
    (shell : shell_access) (on_set_selected : emission) (o : write_outcome)
    (st : State) :
  let st' := _on_lowspec_changed enabled anim shell on_set_selected o st in
  _services st'.1 !! "appMenuLayout" = Some (JStr (if enabled then "list" else "grid")) /\
  _services st'.1 !! "lowspecEnabled" = Some (JBool enabled) /\
  _layout_row st'.1 = (if enabled then 1 else 0)%Z /\
  last_save SERVICES_CONFIG_PATH st'.2 = Some (_services st'.1, o).
Proof.
  destruct st as [w d]. cbv zeta. rewrite on_lowspec_changed_eq. cbv zeta.
  cbn [fst snd _services _layout_row set_layout_row set_services].
  split; [apply lookup_insert_eq|].
  split; [rewrite lookup_insert_ne by done; apply lookup_insert_eq|].
  split; [reflexivity|].
  unfold last_save. cbn [written set_written latest].
  rewrite decide_True by reflexivity. reflexivity.
Qed.

Lemma on_lowspec_changed_lists (enabled : bool) (anim : settings_access)
    (on_set_selected : emission) (o : write_outcome) (st : State) :
  let st' := _on_lowspec_changed enabled anim ShellOk on_set_selected o st in
  (if enabled then tiling_id ∈ disabled_extensions st'.2
   else tiling_id ∈ enabled_extensions st'.2) /\
  (if enabled then tiling_id ∉ enabled_extensions st'.2
   else tiling_id ∉ disabled_extensions st'.2).
Proof.
  destruct st as [w d]. cbv zeta. rewrite on_lowspec_changed_eq. cbv zeta.
  destruct d as [wr an en dis src].
  destruct enabled; simpl; split;
    auto using elem_of_append_if_absent, not_elem_of_without.
Qed.

(** C4, as stated, fails: with the identifier twice in the disabled list
    (layout [grid], low-spec mode off), switching low-spec mode on leaves
    both entries there. *)
Lemma lowspec_toggle_keeps_existing_duplicates :
  _services default_window !! "appMenuLayout" = Some (JStr "grid") /\
  dict_get (_services default_window) "lowspecEnabled" (JBool false) = JBool false /\
  disabled_extensions
    (_on_lowspec_changed true SettingsOk ShellOk Silent Written
       (default_window,
        set_disabled_extensions [tiling_id; tiling_id] empty_desktop)).2
  = [tiling_id; tiling_id] /\
  ~ no_duplicate
      (disabled_extensions
         (_on_lowspec_changed true SettingsOk ShellOk Silent Written
            (default_window,
             set_disabled_extensions [tiling_id; tiling_id] empty_desktop)).2).
Proof.
  split; [reflexivity|]. split; [reflexivity|]. split; [reflexivity|].
  unfold no_duplicate. vm_compute. lia.
Qed.

(** C4, amended: from any state (in particular layout [grid] with low-spec
    mode off), switching low-spec mode on forces [appMenuLayout] to [list]
    and, when the shell settings are written, leaves the tiling extension
    in the disabled list and out of the enabled list; switching it back
    off forces [grid] and puts the extension back in the enabled list and
    out of the disabled one; and if neither list holds the identifier more
    than once at the start, neither does after any number of toggles,
    however the accesses to the settings end, whether or not the layout
    row notifies its handler, and however the saves end. *)
Theorem lowspec_toggle_symmetry (w : Window) (d : Desktop)
    (anim1 anim2 : settings_access) (layout1 layout2 : emission)
    (o1 o2 : write_outcome) :
  let st_on := _on_lowspec_changed true anim1 ShellOk layout1 o1 (w, d) in
  let st_off := _on_lowspec_changed false anim2 ShellOk layout2 o2 st_on in
  (_services st_on.1 !! "appMenuLayout" = Some (JStr "list") /\
   tiling_id ∈ disabled_extensions st_on.2 /\
   tiling_id ∉ enabled_extensions st_on.2) /\
  (_services st_off.1 !! "appMenuLayout" = Some (JStr "grid") /\
   tiling_id ∈ enabled_extensions st_off.2 /\
   tiling_id ∉ disabled_extensions st_off.2) /\
  (forall shell layout o,
     _services (_on_lowspec_changed true anim1 shell layout o (w, d)).1 !! "appMenuLayout"
     = Some (JStr "list") /\
     _services (_on_lowspec_changed false anim2 shell layout o (w, d)).1 !! "appMenuLayout"
     = Some (JStr "grid")) /\
  (no_duplicate (enabled_extensions d) -> no_duplicate (disabled_extensions d) ->
   forall toggles,
     no_duplicate (enabled_extensions (lowspec_toggles toggles (w, d)).2) /\
     no_duplicate (disabled_extensions (lowspec_toggles toggles (w, d)).2)).
Proof.
  intros st_on st_off.
  split; [|split; [|split]].
  - split; [apply (on_lowspec_changed_config true anim1 ShellOk layout1 o1 (w, d))|].
    apply (on_lowspec_changed_lists true anim1 layout1 o1 (w, d)).
  - split; [apply (on_lowspec_changed_config false anim2 ShellOk layout2 o2 st_on)|].
    apply (on_lowspec_changed_lists false anim2 layout2 o2 st_on).
  - intros shell layout o. split.
    + apply (on_lowspec_changed_config true anim1 shell layout o (w, d)).
    + apply (on_lowspec_changed_config false anim2 shell layout o (w, d)).
  - intros He Hd toggles. apply (lowspec_toggles_no_duplicate toggles (w, d)); assumption.
Qed.

Lemma lowspec_toggle_symmetry_witness :
  no_duplicate (enabled_extensions
                  (lowspec_toggles
                     [(true, SettingsOk, ShellOk, Silent, Written);
                      (false, SettingsRaised, ShellOk, Notified Written,
                       WriteRaisedBeforeOpen);
                      (false, SettingsOk, ShellRaisedBetweenWrites, Silent,
                       WriteRaisedAfterOpen);
                      (true, SettingsOk, ShellOk, Notified WriteRaisedAfterOpen, Written)]
                     (default_window,
                      set_enabled_extensions [tiling_id; "other@example.org"]
                        empty_desktop)).2) /\
  no_duplicate (disabled_extensions
                  (lowspec_toggles
                     [(true, SettingsOk, ShellOk, Silent, Written);
                      (false, SettingsRaised, ShellOk, Notified Written,
                       WriteRaisedBeforeOpen);
                      (false, SettingsOk, ShellRaisedBetweenWrites, Silent,
                       WriteRaisedAfterOpen);
                      (true, SettingsOk, ShellOk, Notified WriteRaisedAfterOpen, Written)]
                     (default_window,
                      set_enabled_extensions [tiling_id; "other@example.org"]
                        empty_desktop)).2).
Proof.
  apply (lowspec_toggle_symmetry default_window
           (set_enabled_extensions [tiling_id; "other@example.org"] empty_desktop)
           SettingsOk SettingsOk Silent Silent Written Written).
  - unfold no_duplicate. vm_compute. lia.
  - unfold no_duplicate. vm_compute. lia.
Defined.

(** ** Preferences window: service status *)

(** C6, as stated, fails: when [systemctl] prints nothing, the trimmed
    output is neither [active] nor [inactive], and the label is the message
    [Unknown], not the (empty) trimmed output. *)
Lemma empty_status_output_shows_unknown :
  strip "" <> "active" /\ strip "" <> "inactive" /\
  _service_label (_check_service_status (Completed "") default_window) = Msg "Unknown" /\
  _service_label (_check_service_status (Completed "") default_window) <> Text (strip "") /\
  rendered (fun msgid => msgid)
    (_service_label (_check_service_status (Completed "") default_window)) = "Unknown" /\
  rendered (fun msgid => msgid)
    (_service_label (_check_service_status (Completed "") default_window)) <> strip "".
Proof. repeat split; try discriminate; reflexivity. Qed.

(** C6, amended: the trimmed output [active] gives the label [Running] and
    [inactive] gives [Stopped]; any other output that is not empty is shown
    as it is, and an empty one is shown as [Unknown]; a query that raises
    (time-out included) gives the label [Error checking status].  Only
    [active] marks the service as running. *)
Theorem service_status_classification (r : run_result) (w : Window) :
  let w' := _check_service_status r w in
  match r with
  | RunRaised =>
      _service_label w' = Msg "Error checking status" /\ _service_running w' = false
  | Completed stdout =>
      let status := strip stdout in
      (status = "active" ->
       _service_label w' = Msg "Running" /\ _service_running w' = true) /\
      (status = "inactive" ->
       _service_label w' = Msg "Stopped" /\ _service_running w' = false) /\
      (status <> "active" -> status <> "inactive" -> status <> "" ->
       _service_label w' = Text status /\ _service_running w' = false) /\
      (status = "" ->
       _service_label w' = Msg "Unknown" /\ _service_running w' = false)
  end.
Proof.
  destruct r as [|stdout]; simpl; [split; reflexivity|].
  unfold _check_service_status.
  destruct (decide (strip stdout = "active")) as [Ha|Ha].
  { rewrite Ha. repeat split; intros; try reflexivity; try congruence; discriminate. }
  destruct (decide (strip stdout = "inactive")) as [Hi|Hi].
  { rewrite Hi. repeat split; intros; try reflexivity; try congruence; discriminate. }
  destruct (strip stdout) as [|c rest] eqn:Hs.
  - repeat split; intros; try reflexivity; congruence.
  - repeat split; intros; try reflexivity; congruence.
Qed.

Lemma service_status_classification_witness :
  _service_label (_check_service_status (Completed "activating
") default_window) = Text "activating" /\
  _service_running (_check_service_status (Completed "activating
") default_window) = false.
Proof.
  apply (service_status_classification (Completed "activating
") default_window); vm_compute; discriminate.
Defined.

(** ** Floats: order lemmas *)

Lemma SFcompare_antisym (x y : spec_float) :
  SFcompare y x = option_map CompOpp (SFcompare x y).
Proof.
  destruct x as [sx|sx| |sx mx ex], y as [sy|sy| |sy my ey]; simpl;
    try reflexivity; try (destruct sx; reflexivity); try (destruct sy; reflexivity);
    try (destruct sx, sy; reflexivity).
  destruct sx, sy; simpl; try reflexivity; f_equal;
    rewrite (Z.compare_antisym ex ey); destruct (ex ?= ey)%Z; simpl; try reflexivity.
  - f_equal. symmetry. apply (Pos.compare_cont_antisym mx my Eq).
  - symmetry. apply (Pos.compare_cont_antisym mx my Eq).
Qed.

Lemma SFcompare_refl (x : spec_float) : x <> S754_nan -> SFcompare x x = Some Eq.
Proof.
  destruct x as [s|s| |s m e]; intros Hx; simpl; try congruence.
  - destruct s; reflexivity.
  - destruct s; rewrite Z.compare_refl; f_equal;
      change (Pos.compare_cont Eq m m) with (Pos.compare m m);
      rewrite Pos.compare_refl; reflexivity.
Qed.

Lemma SFltb_asym (x y : spec_float) : SFltb x y = true -> SFltb y x = false.
Proof.
  unfold SFltb. rewrite (SFcompare_antisym x y).
  destruct (SFcompare x y) as [[| |]|]; simpl; congruence.
Qed.

(** Below zero is below every positive number. *)
Lemma SFltb_zero_pos (x : spec_float) (m : positive) (e : Z) :
  SFltb x float_0_0 = true -> SFltb x (S754_finite false m e) = true.
Proof.
  destruct x as [s|s| |s m' e']; simpl; try discriminate; destruct s;
    try discriminate; reflexivity.
Qed.

(** [clamp] spelled out: the two comparisons of [min] and [max]. *)
Lemma clamp_cases (score : spec_float) :
  clamp score =
  if SFltb score float_1_0
  then (if SFltb float_0_0 score then score else float_0_0)
  else float_1_0.
Proof.
  unfold clamp, py_min, py_max. destruct (SFltb score float_1_0); reflexivity.
Qed.

Lemma clamp_bounds (score : spec_float) :
  SFleb float_0_0 (clamp score) = true /\ SFleb (clamp score) float_1_0 = true.
Proof.
  rewrite clamp_cases.
  destruct (SFltb score float_1_0) eqn:H1; [|split; reflexivity].
  destruct (SFltb float_0_0 score) eqn:H0; [|split; reflexivity].
  unfold SFltb in H0, H1. unfold SFleb. split.
  - destruct (SFcompare float_0_0 score) as [[| |]|]; congruence.
  - destruct (SFcompare score float_1_0) as [[| |]|]; congruence.
Qed.

Lemma clamp_above (score : spec_float) :
  SFltb float_1_0 score = true -> clamp score = float_1_0.
Proof.
  intros H. rewrite clamp_cases. by rewrite (SFltb_asym _ _ H).
Qed.

Lemma clamp_below (score : spec_float) :
  SFltb score float_0_0 = true -> clamp score = float_0_0.
Proof.
  intros H. rewrite clamp_cases.
  unfold float_1_0. rewrite (SFltb_zero_pos score _ _ H).
  by rewrite (SFltb_asym _ _ H).
Qed.

Lemma clamp_inside (score : spec_float) :
  SFleb float_0_0 score = true -> SFleb score float_1_0 = true ->
  SFeqb (clamp score) score = true.
Proof.
  intros H0 H1. rewrite clamp_cases.
  assert (Hnan : score <> S754_nan) by (intros ->; discriminate H0).
  destruct (SFltb score float_1_0) eqn:Hlt1.
  - destruct (SFltb float_0_0 score) eqn:Hlt0.
    + unfold SFeqb. by rewrite SFcompare_refl.
    + unfold SFeqb. unfold SFleb in H0. unfold SFltb in Hlt0.
      destruct (SFcompare float_0_0 score) as [[| |]|]; congruence.
  - unfold SFeqb. rewrite (SFcompare_antisym score float_1_0).
    unfold SFleb in H1. unfold SFltb in Hlt1.
    destruct (SFcompare score float_1_0) as [[| |]|]; simpl; congruence.
Qed.

(** ** Preferences window: posture polling *)

(** C8: on a successful poll the level bar receives
    [max(0.0, min(1.0, score))], a value of [0, 1] for every score: 1.0
    for a score above 1 (1.7 gives 1.0), 0.0 for a score below 0 (-0.3
    gives 0.0), the score itself inside the interval; the status text is
    built from the score as received, with two decimals. *)
Theorem gauge_is_clamped_score (w : Window) (status : string) (score : spec_float) :
  _dbus w = true ->
  let w' := (_poll_posture (Reply status score) w).1 in
  _posture_level_bar w' = clamp score /\
  SFleb float_0_0 (_posture_level_bar w') = true /\
  SFleb (_posture_level_bar w') float_1_0 = true /\
  (SFltb float_1_0 score = true -> _posture_level_bar w' = float_1_0) /\
  (SFltb score float_0_0 = true -> _posture_level_bar w' = float_0_0) /\
  (SFleb float_0_0 score = true -> SFleb score float_1_0 = true ->
   SFeqb (_posture_level_bar w') score = true) /\
  _posture_status_label w' = Text (status +:+ " (" +:+ format_2f score +:+ ")") /\
  (score = float_1_7 ->
   _posture_level_bar w' = float_1_0 /\
   _posture_status_label w' = Text (status +:+ " (1.70)")) /\
  (score = float_m0_3 ->
   _posture_level_bar w' = float_0_0 /\
   _posture_status_label w' = Text (status +:+ " (-0.30)")).
Proof.
  intros Hdbus. unfold _poll_posture. rewrite Hdbus. simpl.
  split; [reflexivity|].
  split; [apply clamp_bounds|]. split; [apply clamp_bounds|].
  split; [apply clamp_above|]. split; [apply clamp_below|].
  split; [apply clamp_inside|]. split; [reflexivity|].
  split; intros ->; split; reflexivity.
Qed.

Lemma gauge_is_clamped_score_witness :
  _posture_level_bar (_poll_posture (Reply "good" float_1_7) default_window).1 = float_1_0 /\
  _posture_status_label (_poll_posture (Reply "good" float_1_7) default_window).1
  = Text "good (1.70)".
Proof.
  apply (gauge_is_clamped_score default_window "good" float_1_7); reflexivity.
Defined.

Lemma poll_posture_continue (r : call_result) (w : Window) :
  (_poll_posture r w).2 = SOURCE_CONTINUE.
Proof. unfold _poll_posture. destruct (negb (_dbus w)); reflexivity. Qed.

Lemma poll_posture_frame (r : call_result) (w : Window) :
  _dbus (_poll_posture r w).1 = _dbus w /\
  _posture_poll_id (_poll_posture r w).1 = _posture_poll_id w.
Proof.
  unfold _poll_posture. destruct (negb (_dbus w)); [split; reflexivity|].
  destruct r; split; reflexivity.
Qed.

Lemma timeout_fires_alive (r : call_result) (w : Window) (d : Desktop) (id : nat) :
  _posture_poll_id w = Some id -> id ∈ sources d ->
  timeout_fires r (w, d) = ((_poll_posture r w).1, d).
Proof.
  intros Hid Hin. unfold timeout_fires. rewrite Hid. rewrite decide_True by exact Hin.
  pose proof (poll_posture_continue r w) as Hc.
  destruct (_poll_posture r w) as [w' c]. simpl in Hc. rewrite Hc. reflexivity.
Qed.

Lemma timeout_fires_polling (dbus : bool) (r : call_result) (st : State) :
  polling dbus st -> polling dbus (timeout_fires r st).
Proof.
  destruct st as [w d]. intros ((id & Hid & Hin & Hne) & Hdbus & Hbar).
  simpl in Hid, Hin, Hdbus, Hbar.
  rewrite (timeout_fires_alive r w d id Hid Hin).
  destruct (poll_posture_frame r w) as [Hd Hp].
  split; [|split]; simpl.
  - exists id. rewrite Hp. auto.
  - congruence.
  - intros ->. unfold _poll_posture. rewrite Hdbus. simpl. auto.
Qed.

Lemma ticks_polling (dbus : bool) (rs : list call_result) (st : State) :
  polling dbus st -> polling dbus (ticks rs st).
Proof.
  revert st. induction rs as [|r rs IH]; intros st H; [exact H|].
  unfold ticks. simpl. apply IH. by apply timeout_fires_polling.
Qed.

(** What [build_pages] returns, and when it raises. *)
Lemma build_pages_eq (services chatbot : dict) (dbus : bool) (d : Desktop) :
  build_pages services chatbot dbus d =
  match dict_get chatbot "apiKey" (JStr "") with
  | JStr _ =>
      Returned
        (set_model_row
           {| items := PROVIDERS_models
                         (_current_provider_key (rows services chatbot dbus));
              selected := resolved_position
                            (PROVIDERS_models
                               (_current_provider_key (rows services chatbot dbus)))
                            (dict_get chatbot "model" (JStr "")) |}
           (rows services chatbot dbus), d)
  | _ => Raised TypeError
  end.
Proof. unfold build_pages. rewrite update_model_list_silent. reflexivity. Qed.

(** The window that [__init__] returns: the documents loaded, the rows of
    [build_pages], the status found, and a new timeout source. *)
Lemma init_window (fs : filesystem) (dbus : bool) (r : run_result)
    (d : Desktop) (st : State) :
  __init__ fs dbus r d = Returned st ->
  exists services chatbot row,
    st = _start_posture_polling
           (_check_service_status r
              (set_model_row row (rows services chatbot dbus)), d).
Proof.
  unfold __init__.
  destruct (_load_json fs module_heap SERVICES_CONFIG_PATH DEFAULT_SERVICES_CONFIG_id)
    as [[services|e] h]; [|discriminate].
  destruct (_load_json fs h CHATBOT_CONFIG_PATH DEFAULT_CHATBOT_CONFIG_id)
    as [[chatbot|e] h']; [|discriminate].
  rewrite build_pages_eq.
  destruct (dict_get _ "apiKey" _); try discriminate.
  intros [= <-]. eauto.
Qed.

Lemma check_service_status_frame (r : run_result) (w : Window) :
  _dbus (_check_service_status r w) = _dbus w /\
  _posture_level_bar (_check_service_status r w) = _posture_level_bar w.
Proof.
  unfold _check_service_status. destruct r as [|stdout]; [split; reflexivity|].
  destruct (decide _); [split; reflexivity|].
  destruct (decide _); split; reflexivity.
Qed.

Lemma init_polling (fs : filesystem) (dbus : bool) (r : run_result)
    (d : Desktop) (st : State) :
  __init__ fs dbus r d = Returned st -> polling dbus st.
Proof.
  intros Hinit. apply init_window in Hinit as (services & chatbot & row & ->).
  set (w := _check_service_status r (set_model_row row (rows services chatbot dbus))).
  pose proof (is_fresh ({[0%nat]} ∪ sources d)) as Hfresh.
  unfold _start_posture_polling, timeout_add, polling. cbn [fst snd].
  split; [|split].
  - eexists. split; [reflexivity|]. simpl. split; set_solver.
  - change (_dbus w = dbus). unfold w.
    rewrite (proj1 (check_service_status_frame r _)). reflexivity.
  - intros _. change (_posture_level_bar w = float_0_0). unfold w.
    rewrite (proj2 (check_service_status_frame r _)). reflexivity.
Qed.

Lemma ticks_closed (rs : list call_result) (st : State) :
  _posture_poll_id st.1 = None -> ticks rs st = st.
Proof.
  intros Hnone. induction rs as [|r rs IH]; [reflexivity|].
  unfold ticks in *. simpl. destruct st as [w d]. simpl in Hnone.
  unfold timeout_fires at 2. rewrite Hnone. exact IH.
Qed.

(** C7: at any moment of a run of the window (built by [__init__], after
    any number of ticks), the timeout source is alive and a tick runs the
    poll, which always answers [SOURCE_CONTINUE] and leaves the source
    alive, whatever its outcome.  With a bus, a tick whose call fails sets
    the status to [Service unavailable] and the level bar to 0.0, whatever
    was shown before, and a later success shows its own values; without a
    bus the status is [D-Bus not available] and the bar is at 0.0.  Closing
    the window removes the source, and nothing fires after that. *)
Theorem failed_poll_resets_display_and_timer_continues
    (fs : filesystem) (dbus : bool) (r : run_result) (d0 : Desktop) (st : State)
    (rs : list call_result) :
  __init__ fs dbus r d0 = Returned st ->
  let st_n := ticks rs st in
  (exists id, _posture_poll_id st_n.1 = Some id /\ id ∈ sources st_n.2) /\
  (forall res,
     timeout_fires res st_n = ((_poll_posture res st_n.1).1, st_n.2) /\
     (_poll_posture res st_n.1).2 = SOURCE_CONTINUE /\
     exists id, _posture_poll_id (timeout_fires res st_n).1 = Some id /\
                id ∈ sources (timeout_fires res st_n).2) /\
  (dbus = true ->
   _posture_status_label (timeout_fires CallRaised st_n).1 = Msg "Service unavailable" /\
   _posture_level_bar (timeout_fires CallRaised st_n).1 = float_0_0) /\
  (dbus = true -> forall status score,
   _posture_status_label
     (timeout_fires (Reply status score) (timeout_fires CallRaised st_n)).1
   = Text (status +:+ " (" +:+ format_2f score +:+ ")") /\
   _posture_level_bar
     (timeout_fires (Reply status score) (timeout_fires CallRaised st_n)).1
   = clamp score) /\
  (dbus = false -> forall res,
   _posture_status_label (timeout_fires res st_n).1 = Msg "D-Bus not available" /\
   _posture_level_bar (timeout_fires res st_n).1 = float_0_0) /\
  (_posture_poll_id (_on_close st_n).1 = None /\
   (forall id, _posture_poll_id st_n.1 = Some id -> id ∉ sources (_on_close st_n).2) /\
   forall later, ticks later (_on_close st_n) = _on_close st_n).
Proof.
  intros Hinit st_n.
  pose proof (ticks_polling dbus rs st (init_polling fs dbus r d0 st Hinit)) as Hn.
  fold st_n in Hn.
  assert (Hstep : forall res st1, polling dbus st1 ->
            timeout_fires res st1 = ((_poll_posture res st1.1).1, st1.2)).
  { intros res [w1 d1] ((id & Hid & Hin & _) & _). by apply (timeout_fires_alive res w1 d1 id). }
  split; [|split; [|split; [|split; [|split]]]].
  - destruct Hn as ((id & Hid & Hin & _) & _). eauto.
  - intros res. split; [by apply Hstep|]. split; [apply poll_posture_continue|].
    destruct (timeout_fires_polling dbus res st_n Hn) as ((id & Hid & Hin & _) & _). eauto.
  - intros ->. rewrite (Hstep CallRaised st_n Hn). simpl.
    destruct Hn as (_ & Hdbus & _). unfold _poll_posture. rewrite Hdbus. simpl. auto.
  - intros -> status score.
    pose proof (timeout_fires_polling true CallRaised st_n Hn) as H1.
    rewrite (Hstep (Reply status score) _ H1).
    destruct H1 as (_ & Hdbus & _).
    set (w1 := (timeout_fires CallRaised st_n).1) in *. cbn [fst].
    unfold _poll_posture. rewrite Hdbus. simpl. auto.
  - intros -> res. rewrite (Hstep res st_n Hn). simpl.
    destruct Hn as (_ & Hdbus & Hbar). unfold _poll_posture. rewrite Hdbus. simpl. auto.
  - destruct Hn as ((id & Hid & Hin & Hne) & _). destruct st_n as [w d].
    simpl in Hid, Hin. unfold _on_close. rewrite Hid. rewrite decide_False by exact Hne.
    simpl. split; [reflexivity|]. split.
    + intros id' Hid'. simpl in Hid'. assert (id' = id) as -> by congruence.
      rewrite elem_of_difference, elem_of_singleton. intros [_ Hnot]. by apply Hnot.
    + intros later. by apply ticks_closed.
Qed.

Lemma failed_poll_resets_display_and_timer_continues_witness :
  _posture_status_label
    (timeout_fires CallRaised
       (ticks [Reply "good" float_1_7]
          (_start_posture_polling
             (_check_service_status RunRaised default_window, empty_desktop)))).1
  = Msg "Service unavailable" /\
  _posture_level_bar
    (timeout_fires CallRaised
       (ticks [Reply "good" float_1_7]
          (_start_posture_polling
             (_check_service_status RunRaised default_window, empty_desktop)))).1
  = float_0_0.
Proof.
  apply (failed_poll_resets_display_and_timer_continues
           (fun _ => ReadRaised FileNotFoundError) true RunRaised empty_desktop
           (_start_posture_polling
              (_check_service_status RunRaised default_window, empty_desktop))
           [Reply "good" float_1_7]).
  - vm_compute. reflexivity.
  - reflexivity.
Defined.

(** * Further properties of the code *)

Import Callbacks.

(** ** The shape of the state after each callback *)

Lemma check_service_status_shape (r : run_result) (w : Window) :
  exists running l,
    _check_service_status r w = set_service_running running (set_service_label l w).
Proof.
  unfold _check_service_status. destruct r as [|stdout]; [do 2 eexists; reflexivity|].
  destruct (decide _); [do 2 eexists; reflexivity|].
  destruct (decide _); do 2 eexists; reflexivity.
Qed.

Lemma timeout_fires_shape (r : call_result) (w : Window) (d : Desktop) :
  exists l bar,
    timeout_fires r (w, d)
    = (set_posture_level_bar bar (set_posture_status_label l w), d).
Proof.
  unfold timeout_fires, _poll_posture.
  destruct w as [s c b p sr lr pr mr sl pl bar]. simpl.
  destruct p as [id|]; [|exists pl, bar; reflexivity].
  destruct (decide _); [|exists pl, bar; reflexivity].
  destruct b; simpl; [destruct r as [|status score]|].
  - exists (Msg "Service unavailable"), float_0_0. reflexivity.
  - exists (Text (status +:+ " (" +:+ format_2f score +:+ ")")), (clamp score).
    reflexivity.
  - exists (Msg "D-Bus not available"), bar. reflexivity.
Qed.

Lemma on_close_shape (w : Window) (d : Desktop) :
  exists id s, _on_close (w, d) = (set_posture_poll_id id w, set_sources s d).
Proof.
  unfold _on_close. destruct w as [s c b p sr lr pr mr sl pl bar], d as [wr an en dis src].
  simpl. destruct p as [id|]; [|exists None, src; reflexivity].
  destruct (decide _); [exists (Some id), src; reflexivity|].
  exists None, (src ∖ {[id]}). reflexivity.
Qed.

Lemma on_posture_enable_changed_state (enabled : bool) (o : write_outcome)
    (reply : call_end) (w : Window) (d : Desktop) :
  (_on_posture_enable_changed enabled o reply (w, d)).1
  = (set_services (<["posture" := JBool enabled]> (_services w)) w,
     set_written ((SERVICES_CONFIG_PATH, <["posture" := JBool enabled]> (_services w), o)
                    :: written d) d).
Proof.
  unfold _on_posture_enable_changed. cbn [_save_services _save_json returned].
  destruct o; cbn [negb _dbus _service_running set_services]; try reflexivity.
  destruct (_dbus w && _service_running w); [destruct reply|]; reflexivity.
Qed.

Lemma recalibrate_state (reply : call_end) (st : State) : (_recalibrate reply st).1 = st.
Proof.
  unfold _recalibrate. destruct st as [w d].
  destruct (negb (_dbus w)); [|destruct reply]; reflexivity.
Qed.

Lemma model_stored_insert (models : list string) (c c' : dict) (m : string) :
  m ∈ models -> model_stored models c c' ->
  model_stored models c (<["model" := JStr m]> c').
Proof.
  intros Hm [->|(m' & _ & ->)]; right; exists m; split; try exact Hm; try reflexivity.
  apply insert_insert_eq.
Qed.

Lemma getitem_in_range (l : list string) (position : Z) :
  in_range position l = true -> getitem l position ∈ l.
Proof.
  intros Hin. apply in_range_spec in Hin. unfold getitem.
  apply list_elem_of_lookup. exists (Z.to_nat position).
  destruct (lookup_lt_is_Some_2 l (Z.to_nat position)) as [x Hx]; [lia|].
  rewrite (nth_lookup_Some _ _ "" _ Hx). exact Hx.
Qed.

(** A change of the provider row: the model row is replaced, the provider
    is stored on top of the model that the handler of the model row may
    have stored, and every save is given a configuration of that kind. *)
Lemma provider_selected_shape (position : Z) (on_set_model on_set_selected : emission)
    (o : write_outcome) (w : Window) (d : Desktop) :
  exists row c calls,
    provider_selected position on_set_model on_set_selected o (w, d)
    = (set_chatbot
         (<["provider" := JStr (_current_provider_key (set_provider_row position w))]> c)
         (set_model_row row (set_provider_row position w)),
       set_written
         ((CHATBOT_CONFIG_PATH,
           <["provider" := JStr (_current_provider_key (set_provider_row position w))]> c,
           o) :: calls ++ written d) d) /\
    model_stored
      (PROVIDERS_models (_current_provider_key (set_provider_row position w)))
      (_chatbot w) c /\
    Forall (λ call,
              call.1.1 = CHATBOT_CONFIG_PATH /\
              model_stored
                (PROVIDERS_models (_current_provider_key (set_provider_row position w)))
                (_chatbot w) call.1.2) calls.
Proof.
  rewrite provider_selected_eq. cbv zeta.
  set (models := PROVIDERS_models (_current_provider_key (set_provider_row position w))).
  assert (Hne : models <> []) by apply provider_models_not_nil.
  assert (Hfirst : getitem models 0 ∈ models).
  { apply getitem_in_range. destruct models; [congruence|reflexivity]. }
  set (c1 := match on_set_model with
             | Silent => _chatbot w
             | Notified _ => <["model" := JStr (getitem models 0)]> (_chatbot w)
             end).
  assert (H1 : model_stored models (_chatbot w) c1).
  { unfold c1. destruct on_set_model; [by left|]. right. eauto. }
  set (pos := resolved_position models (dict_get c1 "model" (JStr ""))).
  assert (Hpos : getitem models pos ∈ models).
  { apply getitem_in_range. by apply resolved_position_spec. }
  set (c2 := match on_set_selected with
             | Silent => c1
             | Notified _ => <["model" := JStr (getitem models pos)]> c1
             end).
  assert (H2 : model_stored models (_chatbot w) c2).
  { unfold c2. destruct on_set_selected; [exact H1|]. by apply model_stored_insert. }
  rewrite app_assoc.
  eexists _, c2, _. split; [reflexivity|]. split; [exact H2|].
  apply Forall_app. split.
  - destruct on_set_selected; [apply Forall_nil_2|].
    apply Forall_cons. split; [|apply Forall_nil_2]. split; [reflexivity | exact H2].
  - destruct on_set_model; [apply Forall_nil_2|].
    apply Forall_cons. split; [|apply Forall_nil_2]. split; [reflexivity | exact H1].
Qed.

Lemma model_selected_shape (position : Z) (o : write_outcome) (w : Window)
    (d : Desktop) :
  _on_model_changed o (set_model_row (set_selected position (_model_row w)) w, d)
  = if in_range position (PROVIDERS_models (_current_provider_key w))
    then (set_chatbot
            (<["model" := JStr (getitem (PROVIDERS_models (_current_provider_key w))
                                        position)]> (_chatbot w))
            (set_model_row (set_selected position (_model_row w)) w),
          set_written
            ((CHATBOT_CONFIG_PATH,
              <["model" := JStr (getitem (PROVIDERS_models (_current_provider_key w))
                                         position)]> (_chatbot w), o) :: written d) d)
    else (set_model_row (set_selected position (_model_row w)) w, d).
Proof.
  rewrite on_model_changed_eq.
  change (_current_provider_key (set_model_row _ w)) with (_current_provider_key w).
  cbn [selected set_selected _model_row set_model_row].
  destruct (in_range _ _); reflexivity.
Qed.

(** Brings the state after an event into the shape given above. *)
Ltac event_shape w d :=
  unfold handle; cbn [fst snd];
  unfold _on_layout_changed, _on_position_changed, _on_floating_changed,
    _on_hover_changed, _on_ai_enable_changed, _on_apikey_changed,
    _save_services, _save_chatbot, _save_json;
  cbn [fst snd];
  try match goal with
  | |- context [_on_posture_enable_changed ?a ?o ?r (w, d)] =>
      rewrite (on_posture_enable_changed_state a o r w d)
  | |- context [_recalibrate ?r (w, d)] => rewrite (recalibrate_state r (w, d))
  | |- context [timeout_fires ?r (w, d)] =>
      destruct (timeout_fires_shape r w d) as (? & ? & ->)
  | |- context [_on_close (w, d)] => destruct (on_close_shape w d) as (? & ? & ->)
  | |- context [_check_service_status ?r w] =>
      destruct (check_service_status_shape r w) as (? & ? & ->)
  | |- context [provider_selected ?p ?e1 ?e2 ?o (w, d)] =>
      destruct (provider_selected_shape p e1 e2 o w d) as (? & ? & ? & -> & ? & ?)
  | |- context [_on_model_changed ?o (set_model_row (set_selected ?p _) w, d)] =>
      rewrite (model_selected_shape p o w d);
      destruct (in_range p (PROVIDERS_models (_current_provider_key w))) eqn:?
  | |- context [_on_lowspec_changed ?a ?an ?sh ?l ?o (w, d)] =>
      rewrite (on_lowspec_changed_eq a an sh l o w d); cbv zeta
  end.

Lemma session_snoc (events : list event) (e : event) (st : State) :
  session (events ++ [e]) st = handle e (session events st).
Proof. unfold session. by rewrite foldl_app. Qed.

Lemma session_invariant (P : State -> Prop) :
  (forall e st, P st -> P (handle e st)) ->
  forall events st, P st -> P (session events st).
Proof.
  intros Hstep events. induction events as [|e events IH]; intros st H; [exact H|].
  unfold session. simpl. apply IH. by apply Hstep.
Qed.

(** The configuration of the services after one event. *)
Lemma handle_services (e : event) (st : State) :
  _services (handle e st).1 =
  match e with
  | LayoutSelected position _ =>
      <["appMenuLayout" := JStr (if decide (position = 0%Z) then "grid" else "list")]>
        (_services st.1)
  | PositionSelected position _ =>
      <["panelPosition" := JStr (if decide (position = 0%Z) then "top" else "bottom")]>
        (_services st.1)
  | FloatingToggled active _ => <["floatingPanel" := JBool active]> (_services st.1)
  | HoverToggled row active _ => <[hover_key row := JBool active]> (_services st.1)
  | LowspecToggled active _ _ _ _ =>
      <["appMenuLayout" := JStr (if active then "list" else "grid")]>
        (<["lowspecEnabled" := JBool active]> (_services st.1))
  | PostureEnableToggled active _ _ => <["posture" := JBool active]> (_services st.1)
  | AiEnableToggled active _ => <["ai" := JBool active]> (_services st.1)
  | _ => _services st.1
  end.
Proof. destruct st as [w d]. destruct e; event_shape w d; reflexivity. Qed.

(** The configuration of the chatbot after one event. *)
Lemma handle_chatbot (e : event) (st : State) :
  match e with
  | ProviderSelected position _ _ _ =>
      exists c,
        model_stored
          (PROVIDERS_models (_current_provider_key (set_provider_row position st.1)))
          (_chatbot st.1) c /\
        _chatbot (handle e st).1
        = <["provider" := JStr (_current_provider_key (set_provider_row position st.1))]> c
  | ModelSelected position _ =>
      _chatbot (handle e st).1 =
      if in_range position (PROVIDERS_models (_current_provider_key st.1))
      then <["model" := JStr (getitem (PROVIDERS_models (_current_provider_key st.1))
                                       position)]> (_chatbot st.1)
      else _chatbot st.1
  | ApiKeyChanged text _ =>
      _chatbot (handle e st).1 = <["apiKey" := JStr text]> (_chatbot st.1)
  | _ => _chatbot (handle e st).1 = _chatbot st.1
  end.
Proof. destruct st as [w d]. destruct e; event_shape w d; eauto. Qed.

(** ** Keys of the configurations *)

Lemma extends_on_refl (keys : list string) (m : dict) : extends_on keys m m.
Proof. split; auto. Qed.

Lemma extends_on_trans (keys : list string) (m1 m2 m3 : dict) :
  extends_on keys m1 m2 -> extends_on keys m2 m3 -> extends_on keys m1 m3.
Proof.
  intros [H1 H2] [H3 H4]. split; [auto|].
  intros k Hk. rewrite H4, H2; auto.
Qed.

Lemma extends_on_insert (keys : list string) (m : dict) (k : string) (v : json) :
  k ∈ keys -> extends_on keys m (<[k := v]> m).
Proof.
  intros Hk. split.
  - intros k' Hsome. destruct (decide (k = k')) as [->|Hne].
    + rewrite lookup_insert_eq. eauto.
    + by rewrite lookup_insert_ne.
  - intros k' Hnot. rewrite lookup_insert_ne; [reflexivity|]. intros ->. contradiction.
Qed.

(** Membership and non-membership in a list of string literals. *)
Ltac in_strings :=
  solve [repeat first [apply list_elem_of_here | apply list_elem_of_further]].

Ltac not_in_strings :=
  let H := fresh "Hin" in
  intros H; repeat (apply elem_of_cons in H as [H|H]; [discriminate H|]);
  by apply elem_of_nil in H.

Lemma hover_key_in_services_keys (row : hover_row) : hover_key row ∈ services_keys.
Proof. destruct row; unfold services_keys; simpl; in_strings. Qed.

Lemma extends_on_model_stored (models : list string) (c c' : dict) :
  model_stored models c c' -> extends_on chatbot_keys c c'.
Proof.
  intros [->|(m & _ & ->)]; [apply extends_on_refl|].
  apply extends_on_insert. unfold chatbot_keys. in_strings.
Qed.

Lemma handle_extends_services (e : event) (st : State) :
  extends_on services_keys (_services st.1) (_services (handle e st).1).
Proof.
  rewrite handle_services.
  destruct e; try apply extends_on_refl;
    try (apply extends_on_insert; unfold services_keys; in_strings).
  - apply extends_on_insert, hover_key_in_services_keys.
  - eapply extends_on_trans; apply extends_on_insert; unfold services_keys; in_strings.
Qed.

Lemma handle_extends_chatbot (e : event) (st : State) :
  extends_on chatbot_keys (_chatbot st.1) (_chatbot (handle e st).1).
Proof.
  pose proof (handle_chatbot e st) as H.
  destruct e; try (rewrite H; apply extends_on_refl).
  - destruct H as (c & Hc & ->).
    eapply extends_on_trans; [by eapply extends_on_model_stored|].
    apply extends_on_insert. unfold chatbot_keys. in_strings.
  - rewrite H. destruct (in_range _ _); [|apply extends_on_refl].
    apply extends_on_insert; unfold chatbot_keys; in_strings.
  - rewrite H. apply extends_on_insert; unfold chatbot_keys; in_strings.
Qed.

Lemma session_extends (events : list event) (st : State) :
  extends_on services_keys (_services st.1) (_services (session events st).1) /\
  extends_on chatbot_keys (_chatbot st.1) (_chatbot (session events st).1).
Proof.
  revert st. induction events as [|e events IH]; intros st.
  - split; apply extends_on_refl.
  - unfold session. simpl. destruct (IH (handle e st)) as [Hs Hc]. split.
    + eapply extends_on_trans; [apply handle_extends_services | exact Hs].
    + eapply extends_on_trans; [apply handle_extends_chatbot | exact Hc].
Qed.

(** ** Construction *)

Lemma load_json_result (fs : filesystem) (h : heap) (path : string)
    (defaults : nat) (d : dict) :
  h !! defaults = Some d ->
  _load_json fs h path defaults =
  match fs path with
  | Parsed data => (Returned (fresh (dom h)), <[fresh (dom h) := merge d data]> h)
  | ReadRaised e =>
      if caught e then (Returned (fresh (dom h)), <[fresh (dom h) := d]> h)
      else (Raised e, h)
  end.
Proof.
  intros Hd. destruct (fs path) as [e|data] eqn:Hfs.
  - destruct (caught e) eqn:He.
    + by apply load_json_caught with (e := e).
    + by apply load_json_propagates.
  - by apply load_json_parsed.
Qed.

(** [__init__] in terms of the documents loaded. *)
Lemma init_unfold (fs : filesystem) (dbus : bool) (r : run_result) (d : Desktop) :
  __init__ fs dbus r d =
  match loaded fs SERVICES_CONFIG_PATH DEFAULT_SERVICES_CONFIG with
  | Raised e => Raised e
  | Returned services =>
      match loaded fs CHATBOT_CONFIG_PATH DEFAULT_CHATBOT_CONFIG with
      | Raised e => Raised e
      | Returned chatbot =>
          match dict_get chatbot "apiKey" (JStr "") with
          | JStr _ =>
              Returned
                (_start_posture_polling
                   (_check_service_status r
                      (_update_model_list Silent Silent
                         (rows services chatbot dbus, d)).1, d))
          | _ => Raised TypeError
          end
      end
  end.
Proof.
  assert (Hpages : forall services chatbot : dict,
    match build_pages services chatbot dbus d with
    | Raised e => Raised e
    | Returned (w, d') => Returned (_start_posture_polling (_check_service_status r w, d'))
    end =
    match dict_get chatbot "apiKey" (JStr "") with
    | JStr _ =>
        Returned
          (_start_posture_polling
             (_check_service_status r
                (_update_model_list Silent Silent (rows services chatbot dbus, d)).1, d))
    | _ => Raised TypeError
    end).
  { intros services chatbot. unfold build_pages. rewrite update_model_list_silent.
    destruct (dict_get chatbot "apiKey" (JStr "")); reflexivity. }
  unfold __init__, loaded.
  rewrite (load_json_result fs module_heap SERVICES_CONFIG_PATH
             DEFAULT_SERVICES_CONFIG_id DEFAULT_SERVICES_CONFIG) by reflexivity.
  assert (Hne1 : fresh (dom module_heap) <> DEFAULT_CHATBOT_CONFIG_id).
  { intros Heq. pose proof (fresh_not_allocated module_heap) as Hf.
    rewrite Heq in Hf. discriminate Hf. }
  assert (Hstep : forall services : dict,
    match _load_json fs (<[fresh (dom module_heap) := services]> module_heap)
            CHATBOT_CONFIG_PATH DEFAULT_CHATBOT_CONFIG_id with
    | (Returned chatbot, h) =>
        match build_pages (default ∅ (h !! fresh (dom module_heap)))
                (default ∅ (h !! chatbot)) dbus d with
        | Raised e => Raised e
        | Returned (w, d') =>
            Returned (_start_posture_polling (_check_service_status r w, d'))
        end
    | (Raised e, _) => Raised e
    end =
    match loaded fs CHATBOT_CONFIG_PATH DEFAULT_CHATBOT_CONFIG with
    | Raised e => Raised e
    | Returned chatbot =>
        match dict_get chatbot "apiKey" (JStr "") with
        | JStr _ =>
            Returned
              (_start_posture_polling
                 (_check_service_status r
                    (_update_model_list Silent Silent
                       (rows services chatbot dbus, d)).1, d))
        | _ => Raised TypeError
        end
    end).
  { intros services.
    set (h := <[fresh (dom module_heap) := services]> module_heap).
    assert (Hd2 : h !! DEFAULT_CHATBOT_CONFIG_id = Some DEFAULT_CHATBOT_CONFIG).
    { unfold h. rewrite lookup_insert_ne by exact Hne1. reflexivity. }
    assert (Hne2 : fresh (dom h) <> fresh (dom module_heap)).
    { intros Heq. pose proof (fresh_not_allocated h) as Hf.
      rewrite Heq in Hf. unfold h in Hf. rewrite lookup_insert_eq in Hf. discriminate Hf. }
    rewrite (load_json_result fs h CHATBOT_CONFIG_PATH DEFAULT_CHATBOT_CONFIG_id
               DEFAULT_CHATBOT_CONFIG Hd2).
    unfold loaded.
    destruct (fs CHATBOT_CONFIG_PATH) as [e|data]; [destruct (caught e)|];
      try reflexivity;
      rewrite lookup_insert_eq, lookup_insert_ne by exact Hne2;
      unfold h; rewrite lookup_insert_eq; cbn [default]; apply Hpages. }
  destruct (fs SERVICES_CONFIG_PATH) as [e|data]; [destruct (caught e)|];
    try reflexivity; apply Hstep.
Qed.

Lemma init_returned (fs : filesystem) (dbus : bool) (r : run_result)
    (d : Desktop) (st : State) :
  __init__ fs dbus r d = Returned st ->
  exists services chatbot text,
    loaded fs SERVICES_CONFIG_PATH DEFAULT_SERVICES_CONFIG = Returned services /\
    loaded fs CHATBOT_CONFIG_PATH DEFAULT_CHATBOT_CONFIG = Returned chatbot /\
    dict_get chatbot "apiKey" (JStr "") = JStr text /\
    st = _start_posture_polling
           (_check_service_status r
              (_update_model_list Silent Silent (rows services chatbot dbus, d)).1, d).
Proof.
  rewrite init_unfold.
  destruct (loaded fs SERVICES_CONFIG_PATH _) as [services|e]; [|discriminate].
  destruct (loaded fs CHATBOT_CONFIG_PATH _) as [chatbot|e]; [|discriminate].
  destruct (dict_get chatbot "apiKey" (JStr "")) as [| | | |text| |] eqn:Hkey;
    try discriminate.
  intros [= <-]. exists services, chatbot, text. auto.
Qed.

Lemma check_service_status_running (r : run_result) (w : Window) :
  _service_running (_check_service_status r w) = reports_active r.
Proof.
  unfold _check_service_status, reports_active. destruct r as [|stdout]; [reflexivity|].
  destruct (decide (strip stdout = "active")) as [Ha|Ha].
  - rewrite bool_decide_eq_true_2 by exact Ha. reflexivity.
  - rewrite bool_decide_eq_false_2 by exact Ha. destruct (decide _); reflexivity.
Qed.

(** The window and the desktop that the constructor leaves. *)
Lemma started_window (services chatbot : dict) (dbus : bool) (r : run_result)
    (d : Desktop) :
  let st := _start_posture_polling
              (_check_service_status r
                 (_update_model_list Silent Silent (rows services chatbot dbus, d)).1,
               d) in
  _services st.1 = services /\ _chatbot st.1 = chatbot /\ _dbus st.1 = dbus /\
  _service_running st.1 = reports_active r /\
  _posture_level_bar st.1 = float_0_0 /\
  _layout_row st.1
  = (if json_eq_str (dict_get services "appMenuLayout" (JStr "grid")) "grid"
     then 0 else 1)%Z /\
  written st.2 = written d /\ enable_animations st.2 = enable_animations d /\
  enabled_extensions st.2 = enabled_extensions d /\
  disabled_extensions st.2 = disabled_extensions d /\
  _posture_poll_id st.1 = Some (fresh ({[0%nat]} ∪ sources d)) /\
  sources st.2 = {[fresh ({[0%nat]} ∪ sources d)]} ∪ sources d.
Proof.
  intros st. subst st. unfold _start_posture_polling, timeout_add. cbn [fst snd].
  rewrite update_model_list_silent. cbn [fst].
  match goal with
  | |- context [_check_service_status r ?w0] =>
      pose proof (check_service_status_running r w0) as Hrun;
      destruct (check_service_status_shape r w0) as (running & l & Hcheck)
  end.
  rewrite Hcheck in Hrun |- *. cbn in Hrun. subst running.
  repeat split; reflexivity.
Qed.

Lemma loaded_has_defaults (fs : filesystem) (path : string) (defaults config : dict) :
  loaded fs path defaults = Returned config ->
  forall k, is_Some (defaults !! k) -> is_Some (config !! k).
Proof.
  unfold loaded. destruct (fs path) as [e|data].
  - destruct (caught e); [|discriminate]. intros [= <-]. auto.
  - intros [= <-] k Hk. rewrite lookup_merge. destruct (data !! k); eauto.
Qed.

Lemma session_keeps_default_keys_aux (fs : filesystem) (dbus : bool) (r : run_result)
    (d0 : Desktop) (st : State) (events : list event) :
  __init__ fs dbus r d0 = Returned st ->
  (forall k, is_Some (DEFAULT_SERVICES_CONFIG !! k) ->
             is_Some (_services (session events st).1 !! k)) /\
  (forall k, is_Some (DEFAULT_CHATBOT_CONFIG !! k) ->
             is_Some (_chatbot (session events st).1 !! k)).
Proof.
  intros Hinit. apply init_returned in Hinit as (s & c & text & Hs & Hc & _ & ->).
  destruct (started_window s c dbus r d0) as (Hs0 & Hc0 & _).
  match goal with
  | |- context [session events ?st0] =>
      destruct (session_extends events st0) as [[Hes _] [Hec _]]
  end.
  split; intros k Hk.
  - apply Hes. rewrite Hs0. by eapply loaded_has_defaults.
  - apply Hec. rewrite Hc0. by eapply loaded_has_defaults.
Qed.

(** X1: from the construction of the window on, whatever the events, and
    whether their saves fail or not, the two configurations in memory have
    every key of their defaults. *)
Theorem session_keeps_default_keys (fs : filesystem) (dbus : bool) (r : run_result)
    (d0 : Desktop) (st : State) (events : list event) :
  __init__ fs dbus r d0 = Returned st ->
  (forall k, is_Some (DEFAULT_SERVICES_CONFIG !! k) ->
             is_Some (_services (session events st).1 !! k)) /\
  (forall k, is_Some (DEFAULT_CHATBOT_CONFIG !! k) ->
             is_Some (_chatbot (session events st).1 !! k)).
Proof. apply session_keeps_default_keys_aux. Qed.

Lemma session_keeps_default_keys_witness :
  is_Some (_services
             (session [FloatingToggled false WriteRaisedBeforeOpen;
                       ApiKeyChanged "secret" Written; CloseRequest]
                (_start_posture_polling
                   (_check_service_status RunRaised default_window, empty_desktop))).1
             !! "panelPosition").
Proof.
  apply (session_keeps_default_keys (fun _ => ReadRaised FileNotFoundError) true
           RunRaised empty_desktop
           (_start_posture_polling
              (_check_service_status RunRaised default_window, empty_desktop))
           [FloatingToggled false WriteRaisedBeforeOpen;
            ApiKeyChanged "secret" Written; CloseRequest]).
  - vm_compute. reflexivity.
  - vm_compute. eauto.
Defined.

(** ** Saving *)

Lemma latest_filter (path : string) (calls : list (string * dict * write_outcome)) :
  latest path calls = latest path (filter (λ c, c.1.1 = path) calls).
Proof.
  induction calls as [|[[p x] o] calls IH]; [reflexivity|].
  rewrite filter_cons. cbn [fst snd latest].
  destruct (decide (p = path)) as [->|Hne]; [|exact IH].
  cbn [latest]. by rewrite decide_True.
Qed.

Lemma state_after_filter (path : string) (calls : list (string * dict * write_outcome)) :
  state_after path calls = state_after path (filter (λ c, c.1.1 = path) calls).
Proof.
  induction calls as [|[[p x] o] calls IH]; [reflexivity|].
  rewrite filter_cons. cbn [fst snd state_after].
  destruct (decide (p = path)) as [->|Hne]; [|exact IH].
  cbn [state_after]. rewrite decide_True by reflexivity. by rewrite IH.
Qed.

(** What a file holds depends on the saves called for it only. *)
Lemma same_saves (path : string) (d d' : Desktop) :
  saves_of path d' = saves_of path d ->
  last_save path d' = last_save path d /\
  state_after path (written d') = state_after path (written d) /\
  file_content path d' = file_content path d.
Proof.
  unfold saves_of, last_save, file_content. intros H.
  rewrite (latest_filter path (written d')), (state_after_filter path (written d')), H.
  rewrite <- latest_filter, <- state_after_filter. auto.
Qed.

Lemma state_after_holds (path : string) (doc : dict)
    (calls : list (string * dict * write_outcome)) :
  state_after path calls = Holds doc -> (path, doc, Written) ∈ calls.
Proof.
  induction calls as [|[[p x] o] calls IH]; [discriminate|]. cbn [state_after].
  destruct (decide (p = path)) as [->|Hne].
  - destruct o; try discriminate.
    + intros [= ->]. left.
    + intros H. right. by apply IH.
  - intros H. right. by apply IH.
Qed.

Lemma file_content_written (path : string) (doc : dict) (d : Desktop) :
  file_content path d = Some doc -> (path, doc, Written) ∈ written d.
Proof.
  unfold file_content. destruct (state_after path (written d)) eqn:H; try discriminate.
  intros [= ->]. by apply state_after_holds.
Qed.

Lemma state_after_untouched (path : string)
    (calls : list (string * dict * write_outcome)) :
  filter (λ c, c.1.1 = path) calls = [] -> state_after path calls = Untouched.
Proof. intros H. rewrite state_after_filter, H. reflexivity. Qed.

Lemma filter_other_path (path : string) (calls rest : list (string * dict * write_outcome))
    (P : dict -> Prop) (path' : string) :
  path <> path' ->
  Forall (λ call, call.1.1 = path' /\ P call.1.2) calls ->
  filter (λ c, c.1.1 = path) (calls ++ rest)%list = filter (λ c, c.1.1 = path) rest.
Proof.
  intros Hne Hall. induction Hall as [|[[p x] o] calls [Hp _] _ IH]; [reflexivity|].
  simpl in Hp. subst p. simpl. rewrite filter_cons.
  rewrite decide_False by (simpl; congruence). exact IH.
Qed.

Lemma kept_in_step_refl (path : string) (m : dict) (d : Desktop) :
  kept_in_step path m m d d.
Proof. left. split; reflexivity. Qed.

Lemma kept_in_step_trans (path : string) (m1 m2 m3 : dict) (d1 d2 d3 : Desktop) :
  kept_in_step path m1 m2 d1 d2 -> kept_in_step path m2 m3 d2 d3 ->
  kept_in_step path m1 m3 d1 d3.
Proof.
  intros [[-> H1]|H1] [[-> H2]|H2].
  - left. split; [reflexivity | congruence].
  - by right.
  - right. destruct (same_saves path d2 d3 H2) as (-> & _). exact H1.
  - by right.
Qed.

(** Closes a goal [kept_in_step] on states in their shape. *)
Ltac kept_step :=
  unfold kept_in_step, saves_of, last_save;
  cbn [fst snd written set_written _services _chatbot set_services set_chatbot
       set_layout_row set_model_row set_provider_row latest];
  first
    [ left; split; reflexivity
    | right; eexists; rewrite decide_True by reflexivity; reflexivity
    | left; split; [reflexivity|];
      rewrite filter_cons; rewrite decide_False by discriminate; reflexivity ].

Lemma handle_kept (e : event) (st : State) :
  kept_in_step SERVICES_CONFIG_PATH (_services st.1) (_services (handle e st).1)
    st.2 (handle e st).2 /\
  kept_in_step CHATBOT_CONFIG_PATH (_chatbot st.1) (_chatbot (handle e st).1)
    st.2 (handle e st).2.
Proof.
  destruct st as [w d]. destruct e; event_shape w d; split; try kept_step.
  - (* low-spec mode: the chatbot file *)
    left. split; [reflexivity|]. unfold saves_of. cbn [snd written set_written].
    rewrite filter_cons. rewrite decide_False by discriminate.
    destruct on_set_selected; [reflexivity|].
    cbn [app]. rewrite filter_cons. rewrite decide_False by discriminate. reflexivity.
  - (* provider: the services file *)
    left. split; [reflexivity|]. unfold saves_of. cbn [snd written set_written].
    rewrite filter_cons. rewrite decide_False by discriminate.
    eapply filter_other_path; [|eassumption]. discriminate.
Qed.

Lemma session_kept (events : list event) (st : State) :
  kept_in_step SERVICES_CONFIG_PATH (_services st.1) (_services (session events st).1)
    st.2 (session events st).2 /\
  kept_in_step CHATBOT_CONFIG_PATH (_chatbot st.1) (_chatbot (session events st).1)
    st.2 (session events st).2.
Proof.
  revert st. induction events as [|e events IH]; intros st.
  - split; apply kept_in_step_refl.
  - unfold session. simpl. destruct (handle_kept e st) as [Hs Hc].
    destruct (IH (handle e st)) as [Hs' Hc'].
    split; eapply kept_in_step_trans; eassumption.
Qed.

(** When the latest save of a file ran to its end, a configuration kept
    with its file is in the file, unless nothing happened to either. *)
Lemma kept_saved (path : string) (m m' : dict) (d d' : Desktop) :
  kept_in_step path m m' d d' -> saved path d' ->
  (m' = m /\ saves_of path d' = saves_of path d) \/ file_content path d' = Some m'.
Proof.
  intros [Hsame|[o Hlast]] Hsaved; [by left|]. right.
  unfold saved in Hsaved. rewrite Hlast in Hsaved. subst o.
  by apply last_save_written.
Qed.

(** X2: no change of a configuration is left without a save.  After any
    events, however the saves end and whatever the rows notify, each of
    the two configurations in memory is either the one the session started
    with, no save having been called for its file, or the document given
    to the latest save called for its file; once memory and latest save
    agree they do so after every later event.  So a file falls behind the
    memory only when the latest save called for it failed: if that save ran
    to its end, the file holds the configuration in memory. *)
Theorem session_saves_every_change (events : list event) (st : State) :
  (_services (session events st).1 = _services st.1 /\
   saves_of SERVICES_CONFIG_PATH (session events st).2
   = saves_of SERVICES_CONFIG_PATH st.2
   \/ exists o, last_save SERVICES_CONFIG_PATH (session events st).2
                = Some (_services (session events st).1, o)) /\
  (_chatbot (session events st).1 = _chatbot st.1 /\
   saves_of CHATBOT_CONFIG_PATH (session events st).2
   = saves_of CHATBOT_CONFIG_PATH st.2
   \/ exists o, last_save CHATBOT_CONFIG_PATH (session events st).2
                = Some (_chatbot (session events st).1, o)) /\
  ((exists o, last_save SERVICES_CONFIG_PATH st.2 = Some (_services st.1, o)) ->
   exists o, last_save SERVICES_CONFIG_PATH (session events st).2
             = Some (_services (session events st).1, o)) /\
  ((exists o, last_save CHATBOT_CONFIG_PATH st.2 = Some (_chatbot st.1, o)) ->
   exists o, last_save CHATBOT_CONFIG_PATH (session events st).2
             = Some (_chatbot (session events st).1, o)) /\
  (saved SERVICES_CONFIG_PATH (session events st).2 ->
   file_content SERVICES_CONFIG_PATH st.2 = Some (_services st.1) ->
   file_content SERVICES_CONFIG_PATH (session events st).2
   = Some (_services (session events st).1)) /\
  (saved CHATBOT_CONFIG_PATH (session events st).2 ->
   file_content CHATBOT_CONFIG_PATH st.2 = Some (_chatbot st.1) ->
   file_content CHATBOT_CONFIG_PATH (session events st).2
   = Some (_chatbot (session events st).1)).
Proof.
  destruct (session_kept events st) as [Hs Hc].
  split; [exact Hs|]. split; [exact Hc|].
  split; [|split; [|split]].
  - intros H0. destruct Hs as [[-> Hsame]|Hs]; [|exact Hs].
    by rewrite (proj1 (same_saves _ _ _ Hsame)).
  - intros H0. destruct Hc as [[-> Hsame]|Hc]; [|exact Hc].
    by rewrite (proj1 (same_saves _ _ _ Hsame)).
  - intros Hsaved H0.
    destruct (kept_saved _ _ _ _ _ Hs Hsaved) as [[-> Hsame]|H]; [|exact H].
    by rewrite (proj2 (proj2 (same_saves _ _ _ Hsame))).
  - intros Hsaved H0.
    destruct (kept_saved _ _ _ _ _ Hc Hsaved) as [[-> Hsame]|H]; [|exact H].
    by rewrite (proj2 (proj2 (same_saves _ _ _ Hsame))).
Qed.

Lemma session_saves_every_change_witness :
  file_content SERVICES_CONFIG_PATH
    (session [AiEnableToggled true WriteRaisedAfterOpen; ApiKeyChanged "secret" Written;
              TimeoutFired CallRaised; PositionSelected 1 Written; CloseRequest]
       (handle (FloatingToggled false Written) (default_window, empty_desktop))).2
  = Some (_services
            (session [AiEnableToggled true WriteRaisedAfterOpen;
                      ApiKeyChanged "secret" Written;
                      TimeoutFired CallRaised; PositionSelected 1 Written; CloseRequest]
               (handle (FloatingToggled false Written) (default_window, empty_desktop))).1).
Proof.
  apply (session_saves_every_change
           [AiEnableToggled true WriteRaisedAfterOpen; ApiKeyChanged "secret" Written;
            TimeoutFired CallRaised; PositionSelected 1 Written; CloseRequest]
           (handle (FloatingToggled false Written) (default_window, empty_desktop))).
  - reflexivity.
  - reflexivity.
Defined.

Lemma merge_complete (defaults config : dict) :
  (forall k, is_Some (defaults !! k) -> is_Some (config !! k)) ->
  merge defaults config = config.
Proof.
  intros Hall. apply map_eq; intros k. rewrite lookup_merge.
  destruct (config !! k) as [v|] eqn:Hk; [reflexivity|].
  destruct (defaults !! k) as [v|] eqn:Hd; [|reflexivity].
  destruct (Hall k) as [v' Hv']; [by rewrite Hd|]. congruence.
Qed.

Lemma saves_of_nothing_written (path : string) (d : Desktop) :
  written d = [] -> saves_of path d = [].
Proof. intros H. unfold saves_of. rewrite H. reflexivity. Qed.

(** What a later load finds for a configuration that the session kept
    together with its file, when the latest save of the file ran to its
    end. *)
Lemma loaded_after (fs fs' : filesystem) (path : string) (defaults m0 m : dict)
    (d0 d : Desktop) :
  loaded fs path defaults = Returned m0 ->
  saves_of path d0 = [] ->
  kept_in_step path m0 m d0 d ->
  saved path d ->
  found_later fs d fs' ->
  (forall k, is_Some (defaults !! k) -> is_Some (m !! k)) ->
  loaded fs' path defaults = Returned m.
Proof.
  intros Hload Hnone Hkept Hsaved Hlater Hkeys. specialize (Hlater path).
  unfold loaded. destruct Hkept as [[-> Hsame]|[o Hlast]].
  - rewrite Hnone in Hsame. unfold saves_of in Hsame.
    rewrite (state_after_untouched _ _ Hsame) in Hlater. rewrite Hlater. exact Hload.
  - unfold saved in Hsaved. rewrite Hlast in Hsaved. subst o.
    unfold last_save in Hlast. rewrite (latest_written _ _ _ Hlast) in Hlater.
    rewrite Hlater. by rewrite merge_complete.
Qed.

Lemma found_later_fs_after (fs : filesystem) (d : Desktop) :
  found_later fs d (fs_after fs d).
Proof.
  intros path. unfold fs_after. destruct (state_after path (written d)); done.
Qed.

(** ** The API key *)

Lemma lookup_model_stored (models : list string) (c c' : dict) (k : string) :
  k <> "model" -> model_stored models c c' -> c' !! k = c !! k.
Proof.
  intros Hk [->|(m & _ & ->)]; [reflexivity|]. by rewrite lookup_insert_ne.
Qed.

Lemma handle_api_key (e : event) (st : State) :
  _chatbot (handle e st).1 !! "apiKey" =
  match e with
  | ApiKeyChanged text _ => Some (JStr text)
  | _ => _chatbot st.1 !! "apiKey"
  end.
Proof.
  pose proof (handle_chatbot e st) as H.
  destruct e; try (by rewrite H).
  - destruct H as (c & Hc & ->). rewrite lookup_insert_ne by done.
    by eapply lookup_model_stored.
  - rewrite H. destruct (in_range _ _); [by rewrite lookup_insert_ne | reflexivity].
  - rewrite H. apply lookup_insert_eq.
Qed.

(** The key stays a string. *)
Lemma session_api_key_is_str (events : list event) (st : State) :
  is_str (dict_get (_chatbot st.1) "apiKey" (JStr "")) = true ->
  is_str (dict_get (_chatbot (session events st).1) "apiKey" (JStr "")) = true.
Proof.
  apply (session_invariant
           (fun st => is_str (dict_get (_chatbot st.1) "apiKey" (JStr "")) = true)).
  intros e st1 H. unfold dict_get in *. rewrite handle_api_key.
  destruct e; try exact H. reflexivity.
Qed.

(** X3: settings survive closing and reopening whenever the latest save of
    each file ran to its end.  A window constructed later, on files that
    are as the saves of a session left them, holds the two configurations
    that session ended with, whatever its events were and however its
    earlier saves ended. *)
Theorem reopening_restores_configuration (fs fs' : filesystem) (dbus dbus' : bool)
    (r r' : run_result) (d0 d1 : Desktop) (st : State) (events : list event) :
  __init__ fs dbus r d0 = Returned st ->
  written d0 = [] ->
  saved SERVICES_CONFIG_PATH (session events st).2 ->
  saved CHATBOT_CONFIG_PATH (session events st).2 ->
  found_later fs (session events st).2 fs' ->
  exists st',
    __init__ fs' dbus' r' d1 = Returned st' /\
    _services st'.1 = _services (session events st).1 /\
    _chatbot st'.1 = _chatbot (session events st).1.
Proof.
  intros Hinit Hnew Hsaved_s Hsaved_c Hlater.
  pose proof (session_keeps_default_keys_aux fs dbus r d0 st events Hinit) as [Hks Hkc].
  apply init_returned in Hinit as (s & c & text & Hs & Hc & Hkey & ->).
  destruct (started_window s c dbus r d0)
    as (Hs0 & Hc0 & _ & _ & _ & _ & Hw & _).
  set (st0 := _start_posture_polling
                (_check_service_status r
                   (_update_model_list Silent Silent (rows s c dbus, d0)).1, d0)) in *.
  destruct (session_kept events st0) as [Hkept_s Hkept_c].
  rewrite Hs0 in Hkept_s. rewrite Hc0 in Hkept_c.
  assert (Hnone : forall path, saves_of path st0.2 = []).
  { intros path. apply saves_of_nothing_written. by rewrite Hw. }
  pose proof (loaded_after fs fs' SERVICES_CONFIG_PATH _ _ _ _ _ Hs (Hnone _)
                Hkept_s Hsaved_s Hlater Hks) as Hs'.
  pose proof (loaded_after fs fs' CHATBOT_CONFIG_PATH _ _ _ _ _ Hc (Hnone _)
                Hkept_c Hsaved_c Hlater Hkc) as Hc'.
  pose proof (session_api_key_is_str events st0) as Hstr.
  rewrite Hc0, Hkey in Hstr. specialize (Hstr eq_refl).
  eexists. split.
  - rewrite init_unfold, Hs', Hc'.
    destruct (dict_get (_chatbot (session events st0).1) "apiKey" (JStr ""));
      try discriminate Hstr. reflexivity.
  - destruct (started_window (_services (session events st0).1)
                (_chatbot (session events st0).1) dbus' r' d1) as (H1 & H2 & _).
    split; assumption.
Qed.

Lemma reopening_restores_configuration_witness :
  exists st',
    __init__
      (fs_after (fun _ => ReadRaised FileNotFoundError)
         (session [FloatingToggled false WriteRaisedAfterOpen;
                   ProviderSelected 1 (Notified WriteRaisedBeforeOpen) Silent Written;
                   AiEnableToggled true Written]
            (_start_posture_polling
               (_check_service_status RunRaised default_window, empty_desktop))).2)
      false (Completed "active") empty_desktop = Returned st' /\
    _services st'.1
    = _services
        (session [FloatingToggled false WriteRaisedAfterOpen;
                  ProviderSelected 1 (Notified WriteRaisedBeforeOpen) Silent Written;
                  AiEnableToggled true Written]
           (_start_posture_polling
              (_check_service_status RunRaised default_window, empty_desktop))).1 /\
    _chatbot st'.1
    = _chatbot
        (session [FloatingToggled false WriteRaisedAfterOpen;
                  ProviderSelected 1 (Notified WriteRaisedBeforeOpen) Silent Written;
                  AiEnableToggled true Written]
           (_start_posture_polling
              (_check_service_status RunRaised default_window, empty_desktop))).1.
Proof.
  apply (reopening_restores_configuration (fun _ => ReadRaised FileNotFoundError)
           (fs_after (fun _ => ReadRaised FileNotFoundError)
              (session [FloatingToggled false WriteRaisedAfterOpen;
                        ProviderSelected 1 (Notified WriteRaisedBeforeOpen) Silent Written;
                        AiEnableToggled true Written]
                 (_start_posture_polling
                    (_check_service_status RunRaised default_window, empty_desktop))).2)
           true false RunRaised (Completed "active") empty_desktop empty_desktop
           (_start_posture_polling
              (_check_service_status RunRaised default_window, empty_desktop))
           [FloatingToggled false WriteRaisedAfterOpen;
            ProviderSelected 1 (Notified WriteRaisedBeforeOpen) Silent Written;
            AiEnableToggled true Written]).
  - vm_compute. reflexivity.
  - reflexivity.
  - reflexivity.
  - reflexivity.
  - apply found_later_fs_after.
Defined.

(** ** Documents given to the saves *)

Lemma saves_services (st : State) (k : string) (v : json) (o : write_outcome) :
  k ∈ services_keys ->
  saves_configuration st (SERVICES_CONFIG_PATH, <[k := v]> (_services st.1), o).
Proof. intros Hk. left. split; [reflexivity|]. by apply extends_on_insert. Qed.

Lemma saves_chatbot (st : State) (k : string) (v : json) (o : write_outcome) :
  k ∈ chatbot_keys ->
  saves_configuration st (CHATBOT_CONFIG_PATH, <[k := v]> (_chatbot st.1), o).
Proof. intros Hk. right. split; [reflexivity|]. by apply extends_on_insert. Qed.

(** The saves called during one event. *)
Lemma handle_calls (e : event) (st : State) :
  exists calls,
    written (handle e st).2 = (calls ++ written st.2)%list /\
    Forall (saves_configuration st) calls.
Proof.
  destruct st as [w d].
  destruct e; event_shape w d;
    cbn [snd written set_written set_sources set_disabled_extensions
         set_enabled_extensions set_enable_animations];
    try (exists []; split; [reflexivity | apply Forall_nil_2]);
    try (eexists [_]; split; [reflexivity|]; apply Forall_cons; split;
         [|apply Forall_nil_2];
         first [ apply (saves_services (w, d)) | apply (saves_chatbot (w, d)) ];
         first [ apply hover_key_in_services_keys
               | unfold services_keys, chatbot_keys; in_strings ]).
  - (* low-spec mode *)
    assert (Hdoc : forall o',
              saves_configuration (w, d)
                (SERVICES_CONFIG_PATH,
                 <["appMenuLayout" := JStr (if active then "list" else "grid")]>
                   (<["lowspecEnabled" := JBool active]> (_services w)), o')).
    { intros o'. left. split; [reflexivity|]. cbn [fst snd].
      eapply extends_on_trans; apply extends_on_insert; unfold services_keys; in_strings. }
    eexists (_ :: _). split; [reflexivity|].
    apply Forall_cons. split; [apply Hdoc|].
    destruct on_set_selected; [apply Forall_nil_2|].
    apply Forall_cons. split; [apply Hdoc | apply Forall_nil_2].
  - (* provider *)
    match goal with
    | Hc : model_stored _ _ ?c, Hall : Forall _ ?calls |- _ =>
        eexists (_ :: calls); split; [reflexivity|];
        apply Forall_cons; split;
        [ right; split; [reflexivity|]; cbn [fst snd];
          eapply extends_on_trans; [by eapply extends_on_model_stored|];
          apply extends_on_insert; unfold chatbot_keys; in_strings
        | eapply Forall_impl; [exact Hall|];
          intros call [Hpath Hstored]; right; split; [exact Hpath|];
          by eapply extends_on_model_stored ]
    end.
Qed.

(** A key that the callbacks do not set has, in every document given to a
    save of its file, the value it has in memory. *)
Lemma session_unknown_key (keys : list string) (path : string)
    (config : Window -> dict) (k : string) (v : json) :
  (forall st call, saves_configuration st call -> call.1.1 = path ->
                   extends_on keys (config st.1) call.1.2) ->
  (forall e st, extends_on keys (config st.1) (config (handle e st).1)) ->
  k ∉ keys ->
  forall events st,
    config st.1 !! k = Some v ->
    (forall doc o, (path, doc, o) ∈ written st.2 -> doc !! k = Some v) ->
    config (session events st).1 !! k = Some v /\
    (forall doc o, (path, doc, o) ∈ written (session events st).2 -> doc !! k = Some v).
Proof.
  intros Hdocs Hstep Hk events st Hmem Hlog.
  apply (session_invariant
           (fun st => config st.1 !! k = Some v /\
                      forall doc o, (path, doc, o) ∈ written st.2 -> doc !! k = Some v));
    [|by split].
  clear st Hmem Hlog. intros e st [Hmem Hlog]. split.
  - destruct (Hstep e st) as [_ Hsame]. by rewrite Hsame.
  - destruct (handle_calls e st) as (calls & -> & Hall).
    intros doc o Hin. apply elem_of_app in Hin as [Hin|Hin]; [|by eapply Hlog].
    rewrite Forall_forall in Hall. specialize (Hall _ Hin).
    destruct (Hdocs st _ Hall eq_refl) as [_ Hsame]. simpl in Hsame.
    by rewrite Hsame.
Qed.

(** X4: a key of the file that the callbacks do not know keeps its value:
    it is in the configuration in memory after any events, in every
    document the session gives to a save of that file, whether the save
    fails or not, and so in every document the file holds. *)
Theorem unknown_keys_survive (fs : filesystem) (dbus : bool) (r : run_result)
    (d0 : Desktop) (st : State) (events : list event)
    (path : string) (data : dict) (k : string) (v : json) :
  __init__ fs dbus r d0 = Returned st ->
  written d0 = [] ->
  fs path = Parsed data -> data !! k = Some v ->
  (path = SERVICES_CONFIG_PATH -> k ∉ services_keys ->
   _services (session events st).1 !! k = Some v /\
   (forall doc o, (SERVICES_CONFIG_PATH, doc, o) ∈ written (session events st).2 ->
                  doc !! k = Some v) /\
   forall doc, file_content SERVICES_CONFIG_PATH (session events st).2 = Some doc ->
               doc !! k = Some v) /\
  (path = CHATBOT_CONFIG_PATH -> k ∉ chatbot_keys ->
   _chatbot (session events st).1 !! k = Some v /\
   (forall doc o, (CHATBOT_CONFIG_PATH, doc, o) ∈ written (session events st).2 ->
                  doc !! k = Some v) /\
   forall doc, file_content CHATBOT_CONFIG_PATH (session events st).2 = Some doc ->
               doc !! k = Some v).
Proof.
  intros Hinit Hnew Hfs Hk.
  apply init_returned in Hinit as (s & c & text & Hs & Hc & _ & ->).
  destruct (started_window s c dbus r d0)
    as (Hs0 & Hc0 & _ & _ & _ & _ & Hw & _).
  set (st0 := _start_posture_polling
                (_check_service_status r
                   (_update_model_list Silent Silent (rows s c dbus, d0)).1, d0)) in *.
  assert (Hlog : forall p doc o, (p, doc, o) ∈ written st0.2 -> doc !! k = Some v).
  { intros p doc o Hin. rewrite Hw, Hnew in Hin. by apply elem_of_nil in Hin. }
  split; intros -> Hnot.
  - assert (Hmem : _services st0.1 !! k = Some v).
    { rewrite Hs0. unfold loaded in Hs. rewrite Hfs in Hs.
      injection Hs as <-. by rewrite lookup_merge, Hk. }
    assert (Hdocs : forall st1 call, saves_configuration st1 call ->
              call.1.1 = SERVICES_CONFIG_PATH ->
              extends_on services_keys (_services st1.1) call.1.2).
    { intros st1 call [[_ H]|[Hp _]] Hpath; [exact H|]. rewrite Hp in Hpath.
      discriminate Hpath. }
    destruct (session_unknown_key services_keys SERVICES_CONFIG_PATH _services k v
                Hdocs handle_extends_services Hnot events st0 Hmem (Hlog _))
      as [H1 H2].
    split; [exact H1|]. split; [exact H2|].
    intros doc Hdoc. eapply H2. by apply file_content_written.
  - assert (Hmem : _chatbot st0.1 !! k = Some v).
    { rewrite Hc0. unfold loaded in Hc. rewrite Hfs in Hc.
      injection Hc as <-. by rewrite lookup_merge, Hk. }
    assert (Hdocs : forall st1 call, saves_configuration st1 call ->
              call.1.1 = CHATBOT_CONFIG_PATH ->
              extends_on chatbot_keys (_chatbot st1.1) call.1.2).
    { intros st1 call [[Hp _]|[_ H]] Hpath; [|exact H]. rewrite Hp in Hpath.
      discriminate Hpath. }
    destruct (session_unknown_key chatbot_keys CHATBOT_CONFIG_PATH _chatbot k v
                Hdocs handle_extends_chatbot Hnot events st0 Hmem (Hlog _))
      as [H1 H2].
    split; [exact H1|]. split; [exact H2|].
    intros doc Hdoc. eapply H2. by apply file_content_written.
Qed.

Lemma unknown_keys_survive_witness :
  _services
    (session [LowspecToggled true SettingsOk ShellOk (Notified Written)
                WriteRaisedBeforeOpen;
              AiEnableToggled true Written]
       (_start_posture_polling
          (_check_service_status RunRaised
             (_update_model_list Silent Silent
                (rows (merge DEFAULT_SERVICES_CONFIG (<["foo" := JStr "bar"]> ∅))
                   (merge DEFAULT_CHATBOT_CONFIG (<["foo" := JStr "bar"]> ∅)) true,
                 empty_desktop)).1,
           empty_desktop))).1 !! "foo" = Some (JStr "bar").
Proof.
  assert (Hnot : "foo" ∉ services_keys) by (unfold services_keys; not_in_strings).
  refine (proj1 (proj1 (unknown_keys_survive
                          (fun _ => Parsed (<["foo" := JStr "bar"]> ∅)) true
                          RunRaised empty_desktop _
                          [LowspecToggled true SettingsOk ShellOk (Notified Written)
                             WriteRaisedBeforeOpen;
                           AiEnableToggled true Written]
                          SERVICES_CONFIG_PATH (<["foo" := JStr "bar"]> ∅) "foo"
                          (JStr "bar") _ _ _ _) eq_refl Hnot)).
  - vm_compute. reflexivity.
  - reflexivity.
  - reflexivity.
  - reflexivity.
Defined.

(** ** Values of the configurations *)

Lemma well_formed_insert (field_ok : string -> json -> bool) (m : dict)
    (k : string) (v : json) :
  field_ok k v = true -> well_formed field_ok m -> well_formed field_ok (<[k := v]> m).
Proof. intros Hv Hm. by apply map_Forall_insert_2. Qed.

Lemma well_formed_merge (field_ok : string -> json -> bool) (defaults data : dict) :
  well_formed field_ok defaults -> well_formed field_ok data ->
  well_formed field_ok (merge defaults data).
Proof. intros Hd Hdata. unfold merge, dict_update. by apply map_Forall_union_2. Qed.

Lemma default_services_well_formed : well_formed services_field_ok DEFAULT_SERVICES_CONFIG.
Proof.
  unfold DEFAULT_SERVICES_CONFIG.
  repeat (apply well_formed_insert; [reflexivity|]). apply map_Forall_empty.
Qed.

Lemma default_chatbot_well_formed : well_formed chatbot_field_ok DEFAULT_CHATBOT_CONFIG.
Proof.
  unfold DEFAULT_CHATBOT_CONFIG.
  repeat (apply well_formed_insert; [reflexivity|]). apply map_Forall_empty.
Qed.

Lemma loaded_well_formed (field_ok : string -> json -> bool) (fs : filesystem)
    (path : string) (defaults config : dict) :
  well_formed field_ok defaults ->
  (forall data, fs path = Parsed data -> well_formed field_ok data) ->
  loaded fs path defaults = Returned config -> well_formed field_ok config.
Proof.
  intros Hd Hfile. unfold loaded. destruct (fs path) as [e|data].
  - destruct (caught e); [|discriminate]. by intros [= <-].
  - intros [= <-]. apply well_formed_merge; auto.
Qed.

Lemma chatbot_model_ok (x : string) :
  x ∈ (PROVIDERS_models "anthropic" ++ PROVIDERS_models "openai")%list ->
  chatbot_field_ok "model" (JStr x) = true.
Proof.
  intros Hx. unfold chatbot_field_ok.
  destruct (decide ("model" = "provider")) as [Heq|_]; [discriminate Heq|].
  destruct (decide ("model" = "model")) as [_|Hne]; [|congruence].
  unfold json_in. by apply bool_decide_eq_true_2.
Qed.

(** A model of the provider shown is a model of the registry. *)
Lemma provider_model_ok (w : Window) (m : string) :
  m ∈ PROVIDERS_models (_current_provider_key w) ->
  chatbot_field_ok "model" (JStr m) = true.
Proof.
  intros Hm. apply chatbot_model_ok.
  destruct (current_provider_key_known w) as [Hkey | Hkey];
    rewrite Hkey in Hm; apply elem_of_app; [left | right]; exact Hm.
Qed.

Lemma handle_well_formed (e : event) (st : State) :
  (well_formed services_field_ok (_services st.1) ->
   well_formed services_field_ok (_services (handle e st).1)) /\
  (well_formed chatbot_field_ok (_chatbot st.1) ->
   well_formed chatbot_field_ok (_chatbot (handle e st).1)).
Proof.
  split; intros Hwf.
  - rewrite handle_services.
    destruct e; try exact Hwf; try (apply well_formed_insert; [reflexivity | exact Hwf]).
    + apply well_formed_insert; [|exact Hwf]. destruct (decide _); reflexivity.
    + apply well_formed_insert; [|exact Hwf]. destruct (decide _); reflexivity.
    + apply well_formed_insert; [|exact Hwf]. destruct row; reflexivity.
    + apply well_formed_insert; [destruct active; reflexivity|].
      apply well_formed_insert; [reflexivity | exact Hwf].
  - pose proof (handle_chatbot e st) as H.
    destruct e; try (rewrite H; exact Hwf).
    + destruct H as (c & Hc & ->). apply well_formed_insert.
      * destruct (current_provider_key_known (set_provider_row position st.1))
          as [-> | ->]; reflexivity.
      * destruct Hc as [->|(m & Hm & ->)]; [exact Hwf|].
        apply well_formed_insert; [|exact Hwf]. by eapply provider_model_ok.
    + rewrite H. destruct (in_range _ _) eqn:Hin; [|exact Hwf].
      apply well_formed_insert; [|exact Hwf].
      eapply provider_model_ok. by apply getitem_in_range.
    + rewrite H. apply well_formed_insert; [reflexivity | exact Hwf].
Qed.

(** X5: values stay in the schema.  If the two files, where they parse,
    hold only values their schema allows (one of the two layouts and of the
    two positions, booleans for the toggles, a provider and a model of the
    registry, a string for the key), then so do the configurations in
    memory after the construction and after any events, however the saves
    end and whatever the rows notify. *)
Theorem session_keeps_schema_values (fs : filesystem) (dbus : bool) (r : run_result)
    (d0 : Desktop) (st : State) (events : list event) :
  __init__ fs dbus r d0 = Returned st ->
  ((forall data, fs SERVICES_CONFIG_PATH = Parsed data ->
                 well_formed services_field_ok data) ->
   well_formed services_field_ok (_services (session events st).1)) /\
  ((forall data, fs CHATBOT_CONFIG_PATH = Parsed data ->
                 well_formed chatbot_field_ok data) ->
   well_formed chatbot_field_ok (_chatbot (session events st).1)).
Proof.
  intros Hinit. apply init_returned in Hinit as (s & c & text & Hs & Hc & _ & ->).
  destruct (started_window s c dbus r d0) as (Hs0 & Hc0 & _).
  set (st0 := _start_posture_polling
                (_check_service_status r
                   (_update_model_list Silent Silent (rows s c dbus, d0)).1, d0)) in *.
  split; intros Hfile.
  - apply (session_invariant (fun st => well_formed services_field_ok (_services st.1))).
    + intros e st1. apply handle_well_formed.
    + rewrite Hs0.
      eapply loaded_well_formed; [apply default_services_well_formed | exact Hfile | exact Hs].
  - apply (session_invariant (fun st => well_formed chatbot_field_ok (_chatbot st.1))).
    + intros e st1. apply handle_well_formed.
    + rewrite Hc0.
      eapply loaded_well_formed; [apply default_chatbot_well_formed | exact Hfile | exact Hc].
Qed.

Lemma session_keeps_schema_values_witness :
  well_formed chatbot_field_ok
    (_chatbot
       (session [ProviderSelected 1 (Notified Written) (Notified WriteRaisedAfterOpen)
                   Written;
                 ModelSelected 7 Written; ProviderSelected 5 Silent Silent Written]
          (_start_posture_polling
             (_check_service_status RunRaised default_window, empty_desktop))).1).
Proof.
  refine (proj2 (session_keeps_schema_values (fun _ => ReadRaised FileNotFoundError)
                   true RunRaised empty_desktop _
                   [ProviderSelected 1 (Notified Written) (Notified WriteRaisedAfterOpen)
                      Written;
                    ModelSelected 7 Written; ProviderSelected 5 Silent Silent Written] _) _).
  - vm_compute. reflexivity.
  - intros data Hdata. discriminate Hdata.
Defined.

(** ** Low-spec mode and the extension lists *)

Lemma without_tiling_absent (l : list string) : tiling_id ∉ l -> without_tiling l = l.
Proof.
  unfold without_tiling. induction l as [|x l IH]; intros Hnot; [reflexivity|].
  apply not_elem_of_cons in Hnot as [Hne Hnot].
  rewrite filter_cons. rewrite decide_True by congruence. by rewrite IH.
Qed.

Lemma without_tiling_idem (l : list string) :
  without_tiling (without_tiling l) = without_tiling l.
Proof. apply without_tiling_absent, not_elem_of_without. Qed.

Lemma without_tiling_app (l1 l2 : list string) :
  without_tiling (l1 ++ l2) = (without_tiling l1 ++ without_tiling l2)%list.
Proof. unfold without_tiling. apply filter_app. Qed.

Lemma without_append_if_absent (l : list string) :
  without_tiling (append_if_absent l) = without_tiling l.
Proof.
  unfold append_if_absent. destruct (decide _); [reflexivity|].
  rewrite without_tiling_app. unfold without_tiling at 2.
  rewrite filter_cons. rewrite decide_False by (intros H; by apply H).
  rewrite filter_nil. apply app_nil_r.
Qed.

Lemma append_if_absent_present (l : list string) :
  tiling_id ∈ l -> append_if_absent l = l.
Proof. intros Hin. unfold append_if_absent. by rewrite decide_True. Qed.

Lemma append_if_absent_idem (l : list string) :
  append_if_absent (append_if_absent l) = append_if_absent l.
Proof. apply append_if_absent_present, elem_of_append_if_absent. Qed.

Lemma append_if_absent_without (l : list string) :
  append_if_absent (without_tiling l) = (without_tiling l ++ [tiling_id])%list.
Proof.
  unfold append_if_absent. rewrite decide_False by apply not_elem_of_without. reflexivity.
Qed.

Lemma toggle_tilingshell_others (enabled : bool) (shell : shell_access) (d : Desktop) :
  without_tiling (enabled_extensions (toggle_tilingshell enabled shell d))
  = without_tiling (enabled_extensions d) /\
  without_tiling (disabled_extensions (toggle_tilingshell enabled shell d))
  = without_tiling (disabled_extensions d).
Proof.
  destruct d as [wr an en dis src].
  destruct enabled, shell; simpl; split;
    rewrite ?without_tiling_idem, ?without_append_if_absent; reflexivity.
Qed.

Lemma handle_other_extensions (e : event) (st : State) :
  without_tiling (enabled_extensions (handle e st).2)
  = without_tiling (enabled_extensions st.2) /\
  without_tiling (disabled_extensions (handle e st).2)
  = without_tiling (disabled_extensions st.2).
Proof.
  destruct st as [w d]. destruct e; event_shape w d;
    try (split; reflexivity).
  cbn [snd enabled_extensions disabled_extensions set_written set_disabled_extensions
       set_enabled_extensions].
  apply toggle_tilingshell_others.
Qed.

(** X6: the session never touches another extension.  After any events,
    with any failures of the settings store and of the saves, the entries
    of the enabled and of the disabled list other than the tiling
    extension are the same, in the same order, as before. *)
Theorem session_keeps_other_extensions (events : list event) (st : State) :
  without_tiling (enabled_extensions (session events st).2)
  = without_tiling (enabled_extensions st.2) /\
  without_tiling (disabled_extensions (session events st).2)
  = without_tiling (disabled_extensions st.2).
Proof.
  revert st. induction events as [|e events IH]; intros st; [split; reflexivity|].
  unfold session. simpl. destruct (IH (handle e st)) as [He Hd].
  destruct (handle_other_extensions e st) as [He' Hd'].
  unfold session in He, Hd. split; congruence.
Qed.

(** X7: the two settings writes of the low-spec callback are best effort
    and independent.  The window and the configuration do not depend on
    how the two accesses end, nor on the layout row notifying its handler,
    nor on how the saves end; the documents given to the saves do not
    depend on the two accesses; the extension lists do not depend on the
    access to the animation setting, nor the animation setting on the
    access to the extension lists, and neither depends on the saves.  An
    access that succeeds sets the animations to the opposite of the switch;
    one that raises at once leaves its settings as they were. *)
Theorem lowspec_settings_are_independent (enabled : bool)
    (anim anim' : settings_access) (shell shell' : shell_access)
    (layout layout' : emission) (o o' : write_outcome)
    (w : Window) (d : Desktop) :
  (_on_lowspec_changed enabled anim shell layout o (w, d)).1
  = (_on_lowspec_changed enabled anim' shell' layout' o' (w, d)).1 /\
  written (_on_lowspec_changed enabled anim shell layout o (w, d)).2
  = written (_on_lowspec_changed enabled anim' shell' layout o (w, d)).2 /\
  enabled_extensions (_on_lowspec_changed enabled anim shell layout o (w, d)).2
  = enabled_extensions (_on_lowspec_changed enabled anim' shell layout' o' (w, d)).2 /\
  disabled_extensions (_on_lowspec_changed enabled anim shell layout o (w, d)).2
  = disabled_extensions (_on_lowspec_changed enabled anim' shell layout' o' (w, d)).2 /\
  enable_animations (_on_lowspec_changed enabled anim shell layout o (w, d)).2
  = enable_animations (_on_lowspec_changed enabled anim shell' layout' o' (w, d)).2 /\
  enable_animations (_on_lowspec_changed enabled SettingsOk shell layout o (w, d)).2
  = negb enabled /\
  enable_animations (_on_lowspec_changed enabled SettingsRaised shell layout o (w, d)).2
  = enable_animations d /\
  enabled_extensions
    (_on_lowspec_changed enabled anim ShellRaisedBeforeWrites layout o (w, d)).2
  = enabled_extensions d /\
  disabled_extensions
    (_on_lowspec_changed enabled anim ShellRaisedBeforeWrites layout o (w, d)).2
  = disabled_extensions d.
Proof.
  rewrite !on_lowspec_changed_eq. cbn.
  destruct d as [wr an en dis src]. destruct enabled; repeat split; reflexivity.
Qed.

Lemma on_lowspec_changed_extensions (enabled : bool) (anim : settings_access)
    (shell : shell_access) (layout : emission) (o : write_outcome) (st : State) :
  enabled_extensions (_on_lowspec_changed enabled anim shell layout o st).2
  = enabled_extensions (toggle_tilingshell enabled shell st.2) /\
  disabled_extensions (_on_lowspec_changed enabled anim shell layout o st).2
  = disabled_extensions (toggle_tilingshell enabled shell st.2).
Proof.
  destruct st as [w d]. rewrite on_lowspec_changed_eq. split; reflexivity.
Qed.

Lemma toggle_tilingshell_ok (enabled : bool) (d : Desktop) :
  enabled_extensions (toggle_tilingshell enabled ShellOk d)
  = (if enabled then without_tiling (enabled_extensions d)
     else append_if_absent (enabled_extensions d)) /\
  disabled_extensions (toggle_tilingshell enabled ShellOk d)
  = (if enabled then append_if_absent (disabled_extensions d)
     else without_tiling (disabled_extensions d)).
Proof. destruct d as [wr an en dis src]. destruct enabled; split; reflexivity. Qed.

Lemma occurrences_zero_absent (l : list string) : occurrences l = 0%nat -> tiling_id ∉ l.
Proof.
  unfold occurrences. induction l as [|x l IH]; intros Hocc; [apply not_elem_of_nil|].
  rewrite filter_cons in Hocc. destruct (decide (x = tiling_id)) as [->|Hne].
  - discriminate Hocc.
  - apply not_elem_of_cons. split; [congruence | by apply IH].
Qed.

Lemma once_permutation (l : list string) :
  occurrences l = 1%nat -> l ≡ₚ (without_tiling l ++ [tiling_id])%list.
Proof.
  induction l as [|x l IH]; intros Hocc; [discriminate Hocc|].
  unfold occurrences in Hocc. rewrite filter_cons in Hocc.
  unfold without_tiling. rewrite filter_cons.
  destruct (decide (x = tiling_id)) as [->|Hne].
  - rewrite decide_False by (intros H; by apply H).
    simpl in Hocc. injection Hocc as Hocc.
    fold (without_tiling l).
    rewrite (without_tiling_absent l) by (by apply occurrences_zero_absent).
    apply Permutation_cons_append.
  - rewrite decide_True by exact Hne. simpl. apply Permutation_skip.
    apply IH. exact Hocc.
Qed.

(** X8: switching low-spec mode on and off again, with the extension
    lists written both times, is a round trip when the tiling extension
    was enabled once and not disabled: the disabled list is the one before,
    the enabled list is the one before with the tiling extension moved to
    its end, the layout is [grid] and low-spec mode is off, however the
    saves end. *)
Theorem lowspec_on_off_round_trip (w : Window) (d : Desktop)
    (anim1 anim2 : settings_access) (layout1 layout2 : emission)
    (o1 o2 : write_outcome) :
  occurrences (enabled_extensions d) = 1%nat ->
  tiling_id ∉ disabled_extensions d ->
  let st := _on_lowspec_changed false anim2 ShellOk layout2 o2
              (_on_lowspec_changed true anim1 ShellOk layout1 o1 (w, d)) in
  disabled_extensions st.2 = disabled_extensions d /\
  enabled_extensions st.2
  = (without_tiling (enabled_extensions d) ++ [tiling_id])%list /\
  enabled_extensions st.2 ≡ₚ enabled_extensions d /\
  _services st.1 !! "appMenuLayout" = Some (JStr "grid") /\
  _services st.1 !! "lowspecEnabled" = Some (JBool false).
Proof.
  intros Honce Habsent st. subst st.
  set (st1 := _on_lowspec_changed true anim1 ShellOk layout1 o1 (w, d)).
  destruct (on_lowspec_changed_extensions false anim2 ShellOk layout2 o2 st1) as [He2 Hd2].
  destruct (toggle_tilingshell_ok false st1.2) as [He2' Hd2'].
  destruct (on_lowspec_changed_extensions true anim1 ShellOk layout1 o1 (w, d))
    as [He1 Hd1].
  destruct (toggle_tilingshell_ok true d) as [He1' Hd1'].
  fold st1 in He1, Hd1. cbn [snd] in He1, Hd1.
  rewrite He2, He2', Hd2, Hd2', He1, He1', Hd1, Hd1'.
  rewrite without_append_if_absent, append_if_absent_without.
  rewrite (without_tiling_absent _ Habsent).
  split; [reflexivity|]. split; [reflexivity|].
  split; [symmetry; by apply once_permutation|].
  destruct (on_lowspec_changed_config false anim2 ShellOk layout2 o2 st1) as (Hl & Hs & _).
  split; assumption.
Qed.

Lemma lowspec_on_off_round_trip_witness :
  disabled_extensions
    (_on_lowspec_changed false SettingsOk ShellOk (Notified Written) Written
       (_on_lowspec_changed true SettingsOk ShellOk Silent WriteRaisedBeforeOpen
          (default_window,
           set_disabled_extensions ["old@example.org"]
             (set_enabled_extensions ["a@example.org"; tiling_id; "b@example.org"]
                empty_desktop)))).2
  = ["old@example.org"] /\
  enabled_extensions
    (_on_lowspec_changed false SettingsOk ShellOk (Notified Written) Written
       (_on_lowspec_changed true SettingsOk ShellOk Silent WriteRaisedBeforeOpen
          (default_window,
           set_disabled_extensions ["old@example.org"]
             (set_enabled_extensions ["a@example.org"; tiling_id; "b@example.org"]
                empty_desktop)))).2
  = ["a@example.org"; "b@example.org"; tiling_id].
Proof.
  destruct (lowspec_on_off_round_trip default_window
              (set_disabled_extensions ["old@example.org"]
                 (set_enabled_extensions ["a@example.org"; tiling_id; "b@example.org"]
                    empty_desktop))
              SettingsOk SettingsOk Silent (Notified Written) WriteRaisedBeforeOpen
              Written) as (Hd & He & _).
  - vm_compute. reflexivity.
  - cbn. unfold tiling_id. not_in_strings.
  - split; [exact Hd | exact He].
Defined.

Lemma insert_pair_idem (m : dict) (k1 k2 : string) (v1 v2 : json) :
  <[k1 := v1]> (<[k2 := v2]> (<[k1 := v1]> (<[k2 := v2]> m)))
  = <[k1 := v1]> (<[k2 := v2]> m).
Proof.
  apply map_eq; intros k. rewrite !lookup_insert.
  destruct (decide (k1 = k)); [reflexivity|]. destruct (decide (k2 = k)); reflexivity.
Qed.

Lemma toggle_tilingshell_repeat (enabled : bool) (shell : shell_access) (d : Desktop) :
  enabled_extensions
    (toggle_tilingshell enabled shell (toggle_tilingshell enabled ShellOk d))
  = enabled_extensions (toggle_tilingshell enabled ShellOk d) /\
  disabled_extensions
    (toggle_tilingshell enabled shell (toggle_tilingshell enabled ShellOk d))
  = disabled_extensions (toggle_tilingshell enabled ShellOk d).
Proof.
  destruct d as [wr an en dis src].
  destruct enabled, shell; cbn -[without_tiling append_if_absent];
    rewrite ?without_tiling_idem, ?append_if_absent_idem; split; reflexivity.
Qed.

(** What a file holds after one more save. *)
Lemma file_content_cons (path : string) (data : dict) (o : write_outcome)
    (calls : list (string * dict * write_outcome)) (d : Desktop) :
  file_content path (set_written ((path, data, o) :: calls) d) =
  match o with
  | Written => Some data
  | WriteRaisedBeforeOpen => file_content path (set_written calls d)
  | WriteRaisedAfterOpen => None
  end.
Proof.
  unfold file_content. cbn [written set_written state_after].
  rewrite decide_True by reflexivity. destruct o; reflexivity.
Qed.

(** X9: the low-spec callback is idempotent.  After it ran once with both
    settings written, running it again for the same position of the
    switch, however the accesses and the saves end this time, changes
    neither the window, nor the animation setting, nor the extension
    lists, and every save it calls is given the document of the first
    run.  So, when the save of the first run ran to its end, the services
    file holds no other document afterwards, and holds that one unless a
    save of the second run breaks off after it opened the file: the
    contents of the file are then the same as after the first run. *)
Theorem lowspec_repeat_changes_nothing (enabled : bool) (anim : settings_access)
    (shell : shell_access) (layout1 layout2 : emission) (o1 o2 : write_outcome)
    (w : Window) (d : Desktop) :
  let st1 := _on_lowspec_changed enabled SettingsOk ShellOk layout1 o1 (w, d) in
  let st2 := _on_lowspec_changed enabled anim shell layout2 o2 st1 in
  st2.1 = st1.1 /\
  enable_animations st2.2 = enable_animations st1.2 /\
  enabled_extensions st2.2 = enabled_extensions st1.2 /\
  disabled_extensions st2.2 = disabled_extensions st1.2 /\
  (exists calls,
     written st2.2 = (calls ++ written st1.2)%list /\
     Forall (λ call, call.1.1 = SERVICES_CONFIG_PATH /\ call.1.2 = _services st1.1)
       calls) /\
  (o1 = Written ->
   file_content SERVICES_CONFIG_PATH st1.2 = Some (_services st1.1) /\
   (forall doc, file_content SERVICES_CONFIG_PATH st2.2 = Some doc ->
                doc = _services st1.1) /\
   (o2 <> WriteRaisedAfterOpen -> layout2 <> Notified WriteRaisedAfterOpen ->
    file_content SERVICES_CONFIG_PATH st2.2 = file_content SERVICES_CONFIG_PATH st1.2)).
Proof.
  intros st1 st2.
  destruct (on_lowspec_changed_extensions enabled anim shell layout2 o2 st1) as [He2 Hd2].
  destruct (on_lowspec_changed_extensions enabled SettingsOk ShellOk layout1 o1 (w, d))
    as [He1 Hd1].
  fold st1 in He1, Hd1. fold st2 in He2, Hd2.
  assert (Hlists :
    enabled_extensions (toggle_tilingshell enabled shell st1.2)
    = enabled_extensions (toggle_tilingshell enabled ShellOk d) /\
    disabled_extensions (toggle_tilingshell enabled shell st1.2)
    = disabled_extensions (toggle_tilingshell enabled ShellOk d)).
  { destruct (toggle_tilingshell_repeat enabled shell d) as [H1 H2].
    unfold st1. rewrite on_lowspec_changed_eq. cbn [snd].
    destruct d as [wr an en dis src]. destruct enabled, shell; split; assumption. }
  destruct Hlists as [Hle Hld].
  set (services1 := <["appMenuLayout" := JStr (if enabled then "list" else "grid")]>
                      (<["lowspecEnabled" := JBool enabled]> (_services w))).
  assert (Hst1 : _services st1.1 = services1)
    by (unfold st1; rewrite on_lowspec_changed_eq; reflexivity).
  assert (Hst2 : st2 =
    (st1.1,
     set_written
       ((SERVICES_CONFIG_PATH, services1, o2)
          :: match layout2 with
             | Silent => []
             | Notified o' => [(SERVICES_CONFIG_PATH, services1, o')]
             end ++ written st1.2)
       (set_disabled_extensions
          (disabled_extensions (toggle_tilingshell enabled shell st1.2))
          (set_enabled_extensions
             (enabled_extensions (toggle_tilingshell enabled shell st1.2))
             (set_enable_animations
                match anim with
                | SettingsOk => negb enabled
                | SettingsRaised => enable_animations st1.2
                end st1.2))))).
  { unfold st2. destruct st1 as [w1 d1] eqn:Hw1. rewrite on_lowspec_changed_eq. cbv zeta.
    cbn [fst snd] in Hst1 |- *. rewrite Hst1. unfold services1 at 1 2 3.
    rewrite insert_pair_idem. fold services1. f_equal.
    unfold st1 in Hw1. rewrite on_lowspec_changed_eq in Hw1. cbv zeta in Hw1.
    injection Hw1 as <- _. destruct w; reflexivity. }
  assert (Hfirst : o1 = Written ->
                   file_content SERVICES_CONFIG_PATH st1.2 = Some services1).
  { intros ->. unfold st1. rewrite on_lowspec_changed_eq. cbv zeta. cbn [snd].
    apply file_content_cons. }
  assert (Hanim : enable_animations st1.2 = negb enabled)
    by (unfold st1; rewrite on_lowspec_changed_eq; reflexivity).
  split; [by rewrite Hst2|].
  split; [rewrite Hst2; cbn [snd]; destruct anim; [by rewrite Hanim | reflexivity]|].
  split; [cbn [snd] in He1; congruence|].
  split; [cbn [snd] in Hd1; congruence|].
  split.
  { rewrite Hst2, Hst1. cbn [snd written set_written].
    eexists (_ :: _). split; [reflexivity|].
    apply Forall_cons. split; [by split|].
    destruct layout2; [apply Forall_nil_2|].
    apply Forall_cons. split; [by split | apply Forall_nil_2]. }
  intros Ho1. specialize (Hfirst Ho1). rewrite Hst1.
  split; [exact Hfirst|]. rewrite Hfirst, Hst2. cbn [snd].
  assert (Hrest : forall calls,
            file_content SERVICES_CONFIG_PATH
              (set_written calls
                 (set_disabled_extensions
                    (disabled_extensions (toggle_tilingshell enabled shell st1.2))
                    (set_enabled_extensions
                       (enabled_extensions (toggle_tilingshell enabled shell st1.2))
                       (set_enable_animations
                          match anim with
                          | SettingsOk => negb enabled
                          | SettingsRaised => enable_animations st1.2
                          end st1.2))))
            = file_content SERVICES_CONFIG_PATH (set_written calls st1.2))
    by reflexivity.
  assert (Hback : file_content SERVICES_CONFIG_PATH (set_written (written st1.2) st1.2)
                  = Some services1) by exact Hfirst.
  split.
  - intros doc. rewrite Hrest, file_content_cons.
    destruct o2; [by intros [= <-] | | discriminate].
    destruct layout2 as [|o']; [cbn [app]; rewrite Hback; by intros [= <-]|].
    cbn [app]. rewrite file_content_cons.
    destruct o'; [by intros [= <-] | | discriminate].
    rewrite Hback. by intros [= <-].
  - intros Ho2 Hlayout. rewrite Hrest, file_content_cons.
    destruct o2; [reflexivity | | congruence].
    destruct layout2 as [|o']; [exact Hback|].
    cbn [app]. rewrite file_content_cons.
    destruct o'; [reflexivity | exact Hback | congruence].
Qed.

Lemma lowspec_repeat_changes_nothing_witness :
  file_content SERVICES_CONFIG_PATH
    (_on_lowspec_changed true SettingsRaised ShellRaisedBetweenWrites
       (Notified Written) WriteRaisedBeforeOpen
       (_on_lowspec_changed true SettingsOk ShellOk Silent Written
          (default_window, empty_desktop))).2
  = Some (_services
            (_on_lowspec_changed true SettingsOk ShellOk Silent Written
               (default_window, empty_desktop)).1).
Proof.
  pose proof (lowspec_repeat_changes_nothing true SettingsRaised ShellRaisedBetweenWrites
                Silent (Notified Written) Written WriteRaisedBeforeOpen
                default_window empty_desktop) as (_ & _ & _ & _ & _ & Hfile).
  destruct (Hfile eq_refl) as (Hfirst & _ & Hsame).
  rewrite Hsame; [exact Hfirst | discriminate | discriminate].
Defined.

(** ** The timeout source *)

Lemma on_close_closed (st : State) :
  _posture_poll_id st.1 = None -> _on_close st = st.
Proof. destruct st as [w d]. simpl. intros H. unfold _on_close. by rewrite H. Qed.

(** X10: tearing the polling down.  Closing twice is closing once; and
    starting the polling and then closing the window leaves the main
    context with the sources it had before, the identifier forgotten. *)
Theorem polling_teardown (w : Window) (d : Desktop) (st : State) :
  _on_close (_on_close st) = _on_close st /\
  sources (_on_close (_start_posture_polling (w, d))).2 = sources d /\
  _posture_poll_id (_on_close (_start_posture_polling (w, d))).1 = None.
Proof.
  split.
  - destruct st as [w1 d1]. unfold _on_close at 2 3.
    destruct (_posture_poll_id w1) as [id|] eqn:Hid.
    + destruct (decide (id = 0%nat)) as [->|Hne].
      * unfold _on_close. rewrite Hid. reflexivity.
      * apply on_close_closed. reflexivity.
    + unfold _on_close. rewrite Hid. reflexivity.
  - unfold _start_posture_polling, timeout_add, _on_close.
    pose proof (is_fresh ({[0%nat]} ∪ sources d)) as Hfresh.
    set (id := fresh ({[0%nat]} ∪ sources d)) in *.
    cbn [fst snd _posture_poll_id set_posture_poll_id].
    rewrite decide_False by (intros Heq; apply Hfresh; rewrite Heq; set_solver).
    cbn. split; [|reflexivity].
    apply set_eq. intros x. rewrite elem_of_difference, elem_of_union, elem_of_singleton.
    split.
    + intros [[->|Hx] Hne]; [contradiction|exact Hx].
    + intros Hx. split; [by right|]. intros ->. apply Hfresh.
      apply elem_of_union. by right.
Qed.

(** ** Events that only read *)

Lemma handle_status_event (e : event) (st : State) :
  status_event e = true ->
  _services (handle e st).1 = _services st.1 /\
  _chatbot (handle e st).1 = _chatbot st.1 /\
  written (handle e st).2 = written st.2 /\
  enable_animations (handle e st).2 = enable_animations st.2 /\
  enabled_extensions (handle e st).2 = enabled_extensions st.2 /\
  disabled_extensions (handle e st).2 = disabled_extensions st.2.
Proof.
  destruct st as [w d]. destruct e; try discriminate; intros _; event_shape w d;
    repeat split; reflexivity.
Qed.

(** X11: checking never changes a setting.  A session made only of status
    refreshes, recalibrations, timeouts and the closing of the window
    leaves both configurations and the desktop settings as they were and
    calls no save, whatever the service, the bus and [systemctl] answer. *)
Theorem status_events_change_no_setting (events : list event) (st : State) :
  forallb status_event events = true ->
  _services (session events st).1 = _services st.1 /\
  _chatbot (session events st).1 = _chatbot st.1 /\
  written (session events st).2 = written st.2 /\
  enable_animations (session events st).2 = enable_animations st.2 /\
  enabled_extensions (session events st).2 = enabled_extensions st.2 /\
  disabled_extensions (session events st).2 = disabled_extensions st.2.
Proof.
  revert st. induction events as [|e events IH]; intros st Hall.
  - repeat split; reflexivity.
  - simpl in Hall. apply andb_true_iff in Hall as [He Hall].
    unfold session. simpl.
    destruct (IH (handle e st) Hall) as (H1 & H2 & H3 & H4 & H5 & H6).
    destruct (handle_status_event e st He) as (G1 & G2 & G3 & G4 & G5 & G6).
    unfold session in H1, H2, H3, H4, H5, H6.
    repeat split; congruence.
Qed.

Lemma status_events_change_no_setting_witness :
  written
    (session [TimeoutFired (Reply "good" float_1_7); RefreshClicked (Completed "active");
              RecalibrateClicked CallFailed; TimeoutFired CallRaised; CloseRequest]
       (_start_posture_polling (default_window, empty_desktop))).2
  = [].
Proof.
  refine (proj1 (proj2 (proj2
    (status_events_change_no_setting
       [TimeoutFired (Reply "good" float_1_7); RefreshClicked (Completed "active");
        RecalibrateClicked CallFailed; TimeoutFired CallRaised; CloseRequest]
       (_start_posture_polling (default_window, empty_desktop)) _)))).
  reflexivity.
Defined.

(** ** The posture switch and the status of the service *)

Lemma handle_dbus (e : event) (st : State) : _dbus (handle e st).1 = _dbus st.1.
Proof. destruct st as [w d]. destruct e; event_shape w d; reflexivity. Qed.

Lemma handle_service_running (e : event) (st : State) :
  _service_running (handle e st).1 =
  match e with
  | RefreshClicked r => reports_active r
  | _ => _service_running st.1
  end.
Proof.
  destruct st as [w d]. destruct e;
    try (unfold handle; cbn [fst snd]; apply check_service_status_running);
    event_shape w d; reflexivity.
Qed.

Lemma last_refresh_snoc (events : list event) (e : event) :
  last_refresh (events ++ [e]) =
  match e with RefreshClicked r => Some r | _ => last_refresh events end.
Proof. unfold last_refresh. rewrite foldl_app. reflexivity. Qed.

Lemma session_service_running (events : list event) (st : State) :
  _dbus (session events st).1 = _dbus st.1 /\
  _service_running (session events st).1 =
  match last_refresh events with
  | Some r => reports_active r
  | None => _service_running st.1
  end.
Proof.
  induction events as [|e events [IHd IHr]] using rev_ind; [split; reflexivity|].
  rewrite session_snoc, last_refresh_snoc, handle_dbus, handle_service_running.
  split; [exact IHd|]. destruct e; try exact IHr. reflexivity.
Qed.

(** X12: the posture switch and the bus.  At any point of a session, the
    switch stores the flag and calls the save whatever the bus does, and
    sends one call, [EnableService] or [DisableService] for ["posture"]
    according to the switch, exactly when the save returned, the window has
    a bus connection and the last status query (the one of the
    construction if there was no refresh) printed [active]; otherwise it
    sends nothing.  In particular a save that raises keeps the service
    from being told, although the flag is stored.  How the call ends
    changes nothing. *)
Theorem posture_switch_follows_last_status (fs : filesystem) (dbus : bool)
    (r : run_result) (d0 : Desktop) (st : State) (events : list event)
    (active : bool) (o : write_outcome) (reply reply' : call_end) :
  __init__ fs dbus r d0 = Returned st ->
  let st1 := session events st in
  let result := _on_posture_enable_changed active o reply st1 in
  result.2 =
  (if returned o && dbus && reports_active (default r (last_refresh events))
   then [{| bus_name := POSTURE_BUS_NAME; object_path := POSTURE_MAIN_PATH;
            interface_name := POSTURE_MAIN_INTERFACE;
            method_name := if active then "EnableService" else "DisableService";
            parameters := ["posture"]; timeout_msec := -1 |}]
   else []) /\
  _services result.1.1 !! "posture" = Some (JBool active) /\
  last_save SERVICES_CONFIG_PATH result.1.2 = Some (_services result.1.1, o) /\
  (o = Written ->
   file_content SERVICES_CONFIG_PATH result.1.2 = Some (_services result.1.1)) /\
  (o <> Written -> result.2 = []) /\
  _on_posture_enable_changed active o reply' st1 = result.
Proof.
  intros Hinit st1 result.
  apply init_returned in Hinit as (s & c & text & _ & _ & _ & ->).
  destruct (started_window s c dbus r d0) as (_ & _ & Hdbus0 & Hrun0 & _).
  match goal with
  | st1 := session events ?st0 |- _ =>
      destruct (session_service_running events st0) as [Hdbus Hrun]
  end.
  fold st1 in Hdbus, Hrun. rewrite Hdbus0 in Hdbus. rewrite Hrun0 in Hrun.
  assert (Hknown : _service_running st1.1
                   = reports_active (default r (last_refresh events))).
  { rewrite Hrun. destruct (last_refresh events); reflexivity. }
  assert (Hlast : last_save SERVICES_CONFIG_PATH result.1.2
                  = Some (_services result.1.1, o)).
  { subst result. destruct st1 as [w d].
    rewrite on_posture_enable_changed_state. unfold last_save.
    cbn [fst snd written set_written latest _services set_services].
    rewrite decide_True by reflexivity. reflexivity. }
  assert (Hcalls : result.2 =
    (if returned o && dbus && reports_active (default r (last_refresh events))
     then [{| bus_name := POSTURE_BUS_NAME; object_path := POSTURE_MAIN_PATH;
              interface_name := POSTURE_MAIN_INTERFACE;
              method_name := if active then "EnableService" else "DisableService";
              parameters := ["posture"]; timeout_msec := -1 |}]
     else []) /\
    _on_posture_enable_changed active o reply' st1 = result).
  { subst result. destruct st1 as [w d]. cbn [fst] in Hdbus, Hknown.
    unfold _on_posture_enable_changed.
    cbn [_save_services _save_json _dbus _service_running set_services].
    rewrite Hdbus, Hknown.
    destruct o; cbn [returned negb andb]; try (split; reflexivity).
    destruct (dbus && reports_active (default r (last_refresh events)));
      destruct reply, reply'; split; reflexivity. }
  destruct Hcalls as [Hcalls Hreply].
  split; [exact Hcalls|].
  split.
  { subst result. destruct st1 as [w d]. rewrite on_posture_enable_changed_state.
    apply lookup_insert_eq. }
  split; [exact Hlast|].
  split; [intros ->; by apply last_save_written|].
  split; [|exact Hreply].
  intros Ho. rewrite Hcalls. destruct o; [congruence | reflexivity | reflexivity].
Qed.

Lemma posture_switch_follows_last_status_witness :
  (_on_posture_enable_changed true Written CallFailed
     (session [RefreshClicked (Completed "inactive"); FloatingToggled true Written;
               RefreshClicked (Completed " active
")]
        (_start_posture_polling
           (_check_service_status RunRaised default_window, empty_desktop)))).2
  = [{| bus_name := POSTURE_BUS_NAME; object_path := POSTURE_MAIN_PATH;
        interface_name := POSTURE_MAIN_INTERFACE; method_name := "EnableService";
        parameters := ["posture"]; timeout_msec := -1 |}] /\
  (_on_posture_enable_changed true WriteRaisedBeforeOpen CallFailed
     (session [RefreshClicked (Completed "inactive"); FloatingToggled true Written;
               RefreshClicked (Completed " active
")]
        (_start_posture_polling
           (_check_service_status RunRaised default_window, empty_desktop)))).2
  = [].
Proof.
  split.
  - refine (proj1 (posture_switch_follows_last_status
                     (fun _ => ReadRaised FileNotFoundError) true RunRaised empty_desktop _
                     [RefreshClicked (Completed "inactive"); FloatingToggled true Written;
                      RefreshClicked (Completed " active
")] true Written CallFailed CallReturned _)).
    vm_compute. reflexivity.
  - refine (proj1 (proj2 (proj2 (proj2 (proj2
              (posture_switch_follows_last_status
                 (fun _ => ReadRaised FileNotFoundError) true RunRaised empty_desktop _
                 [RefreshClicked (Completed "inactive"); FloatingToggled true Written;
                  RefreshClicked (Completed " active
")] true WriteRaisedBeforeOpen CallFailed CallReturned _))))) _).
    + vm_compute. reflexivity.
    + discriminate.
Defined.

(** ** Construction of the window *)

Lemma index_getitem (l : list string) (s : string) :
  s ∈ l -> in_range (index l s) l = true /\ getitem l (index l s) = s.
Proof.
  intros Hin. destruct (index_spec l s Hin) as [Hlk Hrange].
  split; [exact Hrange|]. unfold getitem. by apply nth_lookup_Some.
Qed.

Lemma started_rows (services chatbot : dict) (dbus : bool) (r : run_result)
    (d : Desktop) :
  let w0 := rows services chatbot dbus in
  let st := _start_posture_polling
              (_check_service_status r (_update_model_list Silent Silent (w0, d)).1, d) in
  _provider_row st.1 = _provider_row w0 /\
  _model_row st.1
  = {| items := PROVIDERS_models (_current_provider_key w0);
       selected := resolved_position (PROVIDERS_models (_current_provider_key w0))
                     (dict_get chatbot "model" (JStr "")) |}.
Proof.
  intros w0 st. subst st. unfold _start_posture_polling, timeout_add. cbn [fst snd].
  rewrite update_model_list_silent. cbn [fst].
  match goal with
  | |- context [_check_service_status r ?w1] =>
      destruct (check_service_status_shape r w1) as (running & l & ->)
  end.
  split; reflexivity.
Qed.

(** X13: what the constructor leaves.  It calls no save and touches no
    desktop setting; it adds exactly one timeout source, new and not zero,
    and remembers it; the layout row shows the configured layout; the
    provider row shows the configured provider when the registry has it;
    the model row lists the models of the provider shown, with the
    configured model selected if it is one of them and the first one
    otherwise; and the service counts as running exactly when the status
    query printed [active]. *)
Theorem constructed_window (fs : filesystem) (dbus : bool) (r : run_result)
    (d : Desktop) (st : State) :
  __init__ fs dbus r d = Returned st ->
  (written st.2 = written d /\ enable_animations st.2 = enable_animations d /\
   enabled_extensions st.2 = enabled_extensions d /\
   disabled_extensions st.2 = disabled_extensions d) /\
  (exists id, id <> 0%nat /\ (id ∉ sources d) /\
              _posture_poll_id st.1 = Some id /\
              sources st.2 = ({[id]} ∪ sources d)) /\
  layout_shown st.1 /\
  (forall s, _chatbot st.1 !! "provider" = Some (JStr s) -> s ∈ PROVIDERS_keys ->
             _current_provider_key st.1 = s) /\
  items (_model_row st.1) = PROVIDERS_models (_current_provider_key st.1) /\
  selected_item (_model_row st.1)
  = Some (resolved_model (PROVIDERS_models (_current_provider_key st.1))
            (dict_get (_chatbot st.1) "model" (JStr ""))) /\
  _service_running st.1 = reports_active r.
Proof.
  intros Hinit. apply init_returned in Hinit as (s & c & text & _ & _ & _ & ->).
  destruct (started_window s c dbus r d)
    as (Hs & Hc & _ & Hrun & _ & Hlayout & Hw & Han & Hen & Hdis & Hid & Hsrc).
  destruct (started_rows s c dbus r d) as [Hprow Hmrow].
  set (st := _start_posture_polling
               (_check_service_status r
                  (_update_model_list Silent Silent (rows s c dbus, d)).1, d)) in *.
  pose proof (is_fresh ({[0%nat]} ∪ sources d)) as Hfresh.
  set (w0 := rows s c dbus) in *.
  assert (Hkey : _current_provider_key st.1 = _current_provider_key w0).
  { unfold _current_provider_key. by rewrite Hprow. }
  split; [auto|]. split.
  { eexists. split; [|split; [|split; [exact Hid | exact Hsrc]]].
    - intros Heq. apply Hfresh. rewrite Heq. set_solver.
    - intros Hin. apply Hfresh. set_solver. }
  split.
  { unfold layout_shown. rewrite Hlayout, Hs.
    destruct (json_eq_str _ _); split; intros H; congruence. }
  split.
  { intros x Hx Hknown. rewrite Hkey. rewrite Hc in Hx.
    assert (Hget : dict_get c "provider" (JStr "anthropic") = JStr x).
    { unfold dict_get. rewrite Hx. reflexivity. }
    unfold _current_provider_key, w0, rows. cbn [_provider_row]. rewrite Hget.
    unfold json_in. rewrite bool_decide_eq_true_2 by exact Hknown.
    destruct (index_getitem PROVIDERS_keys x Hknown) as [-> ->]. reflexivity. }
  rewrite Hmrow, Hkey, Hc.
  destruct (resolved_position_spec (PROVIDERS_models (_current_provider_key w0))
              (dict_get c "model" (JStr "")) (provider_models_not_nil w0))
    as (Hrange & Hlk & _).
  split; [reflexivity|]. split; [|exact Hrun].
  unfold selected_item. cbn [items selected]. rewrite Hrange. exact Hlk.
Qed.

Lemma constructed_window_witness :
  written (_start_posture_polling
             (_check_service_status RunRaised default_window, empty_desktop)).2 = [].
Proof.
  refine (proj1 (proj1 (constructed_window (fun _ => ReadRaised FileNotFoundError)
                          true RunRaised empty_desktop _ _))).
  vm_compute. reflexivity.
Defined.



(** ** Identity of the loaded dictionaries *)

Lemma load_json_returned (fs : filesystem) (h h' : heap) (path : string)
    (defaults l : nat) (d : dict) :
  h !! defaults = Some d ->
  _load_json fs h path defaults = (Returned l, h') ->
  l = fresh (dom h) /\ exists config, h' = <[l := config]> h.
Proof.
  intros Hd. rewrite (load_json_result fs h path defaults d Hd).
  destruct (fs path) as [e|data].
  - destruct (caught e); [|discriminate]. intros [= <- <-]. eauto.
  - intros [= <- <-]. eauto.
Qed.

(** X15: two loads never share a dictionary.  The dictionaries returned
    by two successive loads have different identities, both new; the
    second load leaves the first dictionary and every older object,
    the defaults among them, as they were. *)
Theorem loads_do_not_alias (fs : filesystem) (h h1 h2 : heap) (path1 path2 : string)
    (defaults1 defaults2 l1 l2 : nat) (d1 d2 : dict) :
  h !! defaults1 = Some d1 -> h !! defaults2 = Some d2 ->
  _load_json fs h path1 defaults1 = (Returned l1, h1) ->
  _load_json fs h1 path2 defaults2 = (Returned l2, h2) ->
  l1 <> l2 /\ h !! l1 = None /\ h !! l2 = None /\
  h2 !! l1 = h1 !! l1 /\ is_Some (h1 !! l1) /\ is_Some (h2 !! l2) /\
  (forall l x, h !! l = Some x -> h2 !! l = Some x).
Proof.
  intros Hd1 Hd2 Hload1 Hload2.
  apply (load_json_returned fs h h1 path1 defaults1 l1 d1 Hd1) in Hload1
    as [Hl1 [c1 Hh1]].
  assert (Hnew1 : h !! l1 = None) by (rewrite Hl1; apply fresh_not_allocated).
  assert (Hd2' : h1 !! defaults2 = Some d2).
  { rewrite Hh1, lookup_insert_ne; [exact Hd2|]. intros <-. congruence. }
  apply (load_json_returned fs h1 h2 path2 defaults2 l2 d2 Hd2') in Hload2
    as [Hl2 [c2 Hh2]].
  assert (Hnew2 : h1 !! l2 = None) by (rewrite Hl2; apply fresh_not_allocated).
  assert (Hne : l1 <> l2).
  { intros <-. rewrite Hh1, lookup_insert_eq in Hnew2. discriminate Hnew2. }
  assert (Hnew2' : h !! l2 = None).
  { rewrite Hh1, lookup_insert_ne in Hnew2 by exact Hne. exact Hnew2. }
  split; [exact Hne|]. split; [exact Hnew1|]. split; [exact Hnew2'|].
  split; [rewrite Hh2, lookup_insert_ne by congruence; reflexivity|].
  split; [rewrite Hh1, lookup_insert_eq; eauto|].
  split; [rewrite Hh2, lookup_insert_eq; eauto|].
  intros l x Hl. rewrite Hh2, Hh1.
  rewrite !lookup_insert_ne; [exact Hl| |]; intros <-; congruence.
Qed.

Lemma loads_do_not_alias_witness :
  fresh (dom module_heap)
  <> fresh (dom (<[fresh (dom module_heap) := DEFAULT_SERVICES_CONFIG]> module_heap)).
Proof.
  refine (proj1 (loads_do_not_alias (fun _ => ReadRaised FileNotFoundError)
                   module_heap
                   (<[fresh (dom module_heap) := DEFAULT_SERVICES_CONFIG]> module_heap)
                   (<[fresh (dom (<[fresh (dom module_heap) := DEFAULT_SERVICES_CONFIG]>
                                    module_heap)) := DEFAULT_CHATBOT_CONFIG]>
                      (<[fresh (dom module_heap) := DEFAULT_SERVICES_CONFIG]> module_heap))
                   SERVICES_CONFIG_PATH CHATBOT_CONFIG_PATH
                   DEFAULT_SERVICES_CONFIG_id DEFAULT_CHATBOT_CONFIG_id _ _
                   DEFAULT_SERVICES_CONFIG DEFAULT_CHATBOT_CONFIG _ _ _ _)).
  - reflexivity.
  - reflexivity.
  - reflexivity.
  - apply (load_json_caught _ _ _ _ DEFAULT_CHATBOT_CONFIG FileNotFoundError);
      reflexivity.
Defined.

(** ** Whitespace around the status *)

Lemma lstrip_all_space (s : string) : all_space s = true -> lstrip s = "".
Proof.
  induction s as [|c s IH]; [reflexivity|]. simpl.
  intros H. apply andb_true_iff in H as [Hc Hs]. rewrite Hc. by apply IH.
Qed.

Lemma lstrip_empty (s : string) : lstrip s = "" -> all_space s = true.
Proof.
  induction s as [|c s IH]; [reflexivity|]. simpl.
  destruct (isspace c); [exact IH | discriminate].
Qed.

Lemma lstrip_app_space (pre s : string) :
  all_space pre = true -> lstrip (pre +:+ s) = lstrip s.
Proof.
  induction pre as [|c pre IH]; [reflexivity|]. simpl.
  intros H. apply andb_true_iff in H as [Hc Hs]. rewrite Hc. by apply IH.
Qed.

Lemma lstrip_app (s t : string) :
  lstrip s <> "" -> lstrip (s +:+ t) = lstrip s +:+ t.
Proof.
  induction s as [|c s IH]; [intros H; by destruct H|]. simpl.
  destruct (isspace c); [exact IH | reflexivity].
Qed.

Lemma rstrip_all_space (s : string) : all_space s = true -> rstrip s = "".
Proof.
  induction s as [|c s IH]; [reflexivity|]. simpl.
  intros H. apply andb_true_iff in H as [Hc Hs]. rewrite (IH Hs), Hc. reflexivity.
Qed.

Lemma rstrip_app_space (s post : string) :
  all_space post = true -> rstrip (s +:+ post) = rstrip s.
Proof.
  intros Hpost. induction s as [|c s IH]; simpl.
  - by apply rstrip_all_space.
  - rewrite IH. reflexivity.
Qed.

Lemma strip_surrounded (pre s post : string) :
  all_space pre = true -> all_space post = true ->
  strip (pre +:+ s +:+ post) = strip s.
Proof.
  intros Hpre Hpost. unfold strip. rewrite lstrip_app_space by exact Hpre.
  destruct (lstrip s) as [|c rest] eqn:Hs.
  - apply lstrip_empty in Hs.
    rewrite lstrip_app_space by exact Hs.
    rewrite (lstrip_all_space post Hpost). reflexivity.
  - rewrite lstrip_app by congruence. rewrite Hs.
    by apply rstrip_app_space.
Qed.

(** X16: the status check does not see surrounding whitespace.  Whatever
    spaces, tabs and line ends precede or follow what [systemctl] prints,
    the label shown and the running flag are the same. *)
Theorem status_check_ignores_surrounding_whitespace (pre stdout post : string)
    (w : Window) :
  all_space pre = true -> all_space post = true ->
  _check_service_status (Completed (pre +:+ stdout +:+ post)) w
  = _check_service_status (Completed stdout) w.
Proof.
  intros Hpre Hpost. unfold _check_service_status.
  by rewrite strip_surrounded.
Qed.

Lemma status_check_ignores_surrounding_whitespace_witness :
  _check_service_status (Completed "  inactive
") default_window
  = _check_service_status (Completed "inactive") default_window.
Proof.
  apply (status_check_ignores_surrounding_whitespace "  " "inactive" "
" default_window); reflexivity.
Defined.

(** ** The level bar and the layout row *)

Lemma zero_in_unit_interval : in_unit_interval float_0_0.
Proof. split; reflexivity. Qed.

Lemma handle_level_bar (e : event) (st : State) :
  in_unit_interval (_posture_level_bar st.1) ->
  in_unit_interval (_posture_level_bar (handle e st).1).
Proof.
  destruct st as [w d]. intros Hbar. destruct e;
    try (event_shape w d; exact Hbar).
  unfold handle, timeout_fires, _poll_posture. cbn [fst snd] in *.
  destruct (_posture_poll_id w) as [id|]; [|exact Hbar].
  destruct (decide _); [|exact Hbar].
  destruct (_dbus w); cbn; [|exact Hbar].
  destruct r as [|status score]; cbn.
  - apply zero_in_unit_interval.
  - apply clamp_bounds.
Qed.

(** X17: the level bar never leaves its range.  From the construction of
    the window on, after any events and whatever scores the posture
    service reports (NaN and the infinities included), the value of the
    level bar is between 0.0 and 1.0. *)
Theorem level_bar_stays_in_range (fs : filesystem) (dbus : bool) (r : run_result)
    (d0 : Desktop) (st : State) (events : list event) :
  __init__ fs dbus r d0 = Returned st ->
  SFleb float_0_0 (_posture_level_bar (session events st).1) = true /\
  SFleb (_posture_level_bar (session events st).1) float_1_0 = true.
Proof.
  intros Hinit. apply init_returned in Hinit as (s & c & text & _ & _ & _ & ->).
  destruct (started_window s c dbus r d0) as (_ & _ & _ & _ & Hbar & _).
  apply (session_invariant (fun st => in_unit_interval (_posture_level_bar st.1))).
  - apply handle_level_bar.
  - rewrite Hbar. apply zero_in_unit_interval.
Qed.

Lemma level_bar_stays_in_range_witness :
  SFleb float_0_0
    (_posture_level_bar
       (session [TimeoutFired (Reply "good" float_1_7);
                 TimeoutFired (Reply "bad" S754_nan);
                 TimeoutFired (Reply "bad" (S754_infinity true))]
          (_start_posture_polling
             (_check_service_status RunRaised default_window, empty_desktop))).1)
  = true.
Proof.
  refine (proj1 (level_bar_stays_in_range (fun _ => ReadRaised FileNotFoundError)
                   true RunRaised empty_desktop _
                   [TimeoutFired (Reply "good" float_1_7);
                    TimeoutFired (Reply "bad" S754_nan);
                    TimeoutFired (Reply "bad" (S754_infinity true))] _)).
  vm_compute. reflexivity.
Defined.

Lemma layout_get_other (s : dict) (k : string) (v : json) :
  k <> "appMenuLayout" ->
  dict_get (<[k := v]> s) "appMenuLayout" (JStr "grid")
  = dict_get s "appMenuLayout" (JStr "grid").
Proof. intros Hne. unfold dict_get. by rewrite lookup_insert_ne. Qed.

Lemma handle_layout_shown (e : event) (st : State) :
  layout_shown st.1 -> layout_shown (handle e st).1.
Proof.
  destruct st as [w d]. unfold layout_shown. intros Hshown.
  destruct e; event_shape w d;
    cbn [fst snd _layout_row _services set_services set_layout_row set_chatbot
         set_model_row set_provider_row set_service_running set_service_label
         set_posture_level_bar set_posture_status_label set_posture_poll_id] in *;
    try exact Hshown;
    try (rewrite layout_get_other by discriminate; exact Hshown).
  - unfold dict_get. rewrite lookup_insert_eq. cbn [default].
    destruct (decide (position = 0%Z)) as [->|Hne]; split; intros H;
      try reflexivity; try congruence. discriminate H.
  - rewrite layout_get_other by (destruct row; discriminate). exact Hshown.
  - unfold dict_get. rewrite lookup_insert_eq. cbn [default].
    destruct active; split; intros H; try reflexivity; discriminate H.
Qed.

(** X18: the layout row always shows the configured layout.  From the
    construction on and after any events, the row is at its first position
    exactly when the layout of the configuration is [grid], also after the
    low-spec switch forced the layout, whether or not the row notified its
    handler then. *)
Theorem layout_row_follows_configuration (fs : filesystem) (dbus : bool)
    (r : run_result) (d0 : Desktop) (st : State) (events : list event) :
  __init__ fs dbus r d0 = Returned st ->
  (_layout_row (session events st).1 = 0%Z <->
   dict_get (_services (session events st).1) "appMenuLayout" (JStr "grid")
   = JStr "grid").
Proof.
  intros Hinit. apply init_returned in Hinit as (s & c & text & _ & _ & _ & ->).
  destruct (started_window s c dbus r d0) as (Hs & _ & _ & _ & _ & Hlayout & _).
  set (st0 := _start_posture_polling
                (_check_service_status r
                   (_update_model_list Silent Silent (rows s c dbus, d0)).1, d0)) in *.
  assert (Hall : layout_shown (session events st0).1).
  { apply (session_invariant (fun st => layout_shown st.1)).
    - apply handle_layout_shown.
    - unfold layout_shown. rewrite Hlayout, Hs.
      destruct (json_eq_str _ _); split; intros H; congruence. }
  unfold layout_shown in Hall. rewrite Hall.
  generalize (dict_get (_services (session events st0).1) "appMenuLayout" (JStr "grid")).
  intros v. destruct v as [| | | |x| |]; unfold json_eq_str;
    try (split; intros H; discriminate H).
  rewrite bool_decide_eq_true. split; congruence.
Qed.

Lemma layout_row_follows_configuration_witness :
  _layout_row
    (session [LayoutSelected 1 Written;
              LowspecToggled true SettingsOk ShellOk (Notified WriteRaisedAfterOpen)
                Written;
              LowspecToggled false SettingsRaised ShellRaisedBeforeWrites Silent
                WriteRaisedBeforeOpen]
       (_start_posture_polling
          (_check_service_status RunRaised default_window, empty_desktop))).1 = 0%Z <->
  dict_get
    (_services
       (session [LayoutSelected 1 Written;
                 LowspecToggled true SettingsOk ShellOk (Notified WriteRaisedAfterOpen)
                   Written;
                 LowspecToggled false SettingsRaised ShellRaisedBeforeWrites Silent
                   WriteRaisedBeforeOpen]
          (_start_posture_polling
             (_check_service_status RunRaised default_window, empty_desktop))).1)
    "appMenuLayout" (JStr "grid") = JStr "grid".
Proof.
  apply (layout_row_follows_configuration (fun _ => ReadRaised FileNotFoundError)
           true RunRaised empty_desktop
           (_start_posture_polling
              (_check_service_status RunRaised default_window, empty_desktop))
           [LayoutSelected 1 Written;
            LowspecToggled true SettingsOk ShellOk (Notified WriteRaisedAfterOpen)
              Written;
            LowspecToggled false SettingsRaised ShellRaisedBeforeWrites Silent
              WriteRaisedBeforeOpen]).
  vm_compute. reflexivity.
Defined.

(** ** The API key in the documents saved *)

(** The documents that the saves of one event are given for the chatbot
    file have the key that the event leaves in memory. *)
Lemma handle_calls_api_key (e : event) (st : State) :
  exists calls,
    written (handle e st).2 = (calls ++ written st.2)%list /\
    Forall (λ call, call.1.1 = CHATBOT_CONFIG_PATH ->
                    call.1.2 !! "apiKey" = _chatbot (handle e st).1 !! "apiKey") calls.
Proof.
  rewrite handle_api_key.
  destruct st as [w d].
  destruct e; event_shape w d;
    cbn [fst snd written set_written set_sources set_disabled_extensions
         set_enabled_extensions set_enable_animations];
    try (exists []; split; [reflexivity | apply Forall_nil_2]);
    try (eexists [_]; split; [reflexivity|]; apply Forall_cons; split;
         [|apply Forall_nil_2]; cbn [fst snd];
         first [ discriminate
               | intros _; rewrite ?lookup_insert_ne by done; reflexivity
               | intros _; apply lookup_insert_eq ]).
  - (* low-spec mode *)
    eexists (_ :: _). split; [reflexivity|].
    apply Forall_cons. split; [discriminate|].
    destruct on_set_selected; [apply Forall_nil_2|].
    apply Forall_cons. split; [discriminate | apply Forall_nil_2].
  - (* provider *)
    match goal with
    | Hc : model_stored _ _ ?c, Hall : Forall _ ?calls |- _ =>
        eexists (_ :: calls); split; [reflexivity|];
        apply Forall_cons; split;
        [ intros _; cbn [fst snd]; rewrite lookup_insert_ne by done;
          by eapply lookup_model_stored
        | eapply Forall_impl; [exact Hall|];
          intros call [_ Hstored] _; by eapply lookup_model_stored ]
    end.
Qed.

Lemma state_after_since (path : string) (data doc : dict)
    (calls older : list (string * dict * write_outcome)) :
  state_after path (calls ++ (path, data, Written) :: older) = Holds doc ->
  doc = data \/ exists o, (path, doc, o) ∈ calls.
Proof.
  induction calls as [|[[p x] o] calls IH]; cbn [app state_after].
  - rewrite decide_True by reflexivity. intros [= ->]. by left.
  - destruct (decide (p = path)) as [->|Hne].
    + destruct o.
      * intros [= ->]. right. exists Written. left.
      * intros H. destruct (IH H) as [->|[o' Hin]]; [by left|].
        right. exists o'. by right.
      * discriminate.
    + intros H. destruct (IH H) as [->|[o' Hin]]; [by left|].
      right. exists o'. by right.
Qed.

(** After the key row reported a text, the memory holds it, and so does
    every document given to a save of the chatbot file since. *)
Lemma session_api_key (text : string) (events : list event) (st1 : State) :
  forallb (fun e => negb (api_key_event e)) events = true ->
  _chatbot st1.1 !! "apiKey" = Some (JStr text) ->
  _chatbot (session events st1).1 !! "apiKey" = Some (JStr text) /\
  exists calls,
    written (session events st1).2 = (calls ++ written st1.2)%list /\
    Forall (λ call, call.1.1 = CHATBOT_CONFIG_PATH ->
                    call.1.2 !! "apiKey" = Some (JStr text)) calls.
Proof.
  revert st1. induction events as [|e events IH]; intros st1 Hno Hkey.
  - split; [exact Hkey|]. exists []. split; [reflexivity | apply Forall_nil_2].
  - simpl in Hno. apply andb_true_iff in Hno as [He Hno].
    assert (Hkey1 : _chatbot (handle e st1).1 !! "apiKey" = Some (JStr text)).
    { rewrite handle_api_key. destruct e; try exact Hkey. discriminate He. }
    destruct (IH (handle e st1) Hno Hkey1) as (Hmem & calls & Hlog & Hall).
    destruct (handle_calls_api_key e st1) as (calls1 & Hlog1 & Hall1).
    unfold session in *. cbn [foldl]. split; [exact Hmem|].
    exists (calls ++ calls1)%list. split.
    + rewrite Hlog, Hlog1. by rewrite app_assoc.
    + apply Forall_app. split; [exact Hall|].
      eapply Forall_impl; [exact Hall1|]. intros call H Hpath.
      rewrite (H Hpath). exact Hkey1.
Qed.

(** X19: the API key is stored as typed and nothing else changes it.
    After the key row reported a text, and after any later events other
    than a new text of that row, the configuration in memory holds exactly
    that text, and so does every document given to a save of the chatbot
    file since, the latest of which is the configuration in memory.  If
    the save of the key event ran to its end, every whole document that
    the chatbot file holds afterwards has the text; and if the latest save
    ran to its end, the file holds the configuration in memory. *)
Theorem api_key_is_kept (text : string) (o : write_outcome) (events : list event)
    (st : State) :
  forallb (fun e => negb (api_key_event e)) events = true ->
  let st' := session events (handle (ApiKeyChanged text o) st) in
  _chatbot st'.1 !! "apiKey" = Some (JStr text) /\
  (exists calls,
     written st'.2 = (calls ++ written st.2)%list /\
     Forall (λ call, call.1.1 = CHATBOT_CONFIG_PATH ->
                     call.1.2 !! "apiKey" = Some (JStr text)) calls) /\
  (exists o', last_save CHATBOT_CONFIG_PATH st'.2 = Some (_chatbot st'.1, o')) /\
  (o = Written ->
   forall doc, file_content CHATBOT_CONFIG_PATH st'.2 = Some doc ->
               doc !! "apiKey" = Some (JStr text)) /\
  (saved CHATBOT_CONFIG_PATH st'.2 ->
   file_content CHATBOT_CONFIG_PATH st'.2 = Some (_chatbot st'.1)).
Proof.
  intros Hno st'.
  set (st1 := handle (ApiKeyChanged text o) st) in *.
  assert (Hkey1 : _chatbot st1.1 !! "apiKey" = Some (JStr text)).
  { unfold st1. by rewrite handle_api_key. }
  assert (Hlog1 : written st1.2
                  = (CHATBOT_CONFIG_PATH, _chatbot st1.1, o) :: written st.2).
  { unfold st1. destruct st as [w d]. reflexivity. }
  destruct (session_api_key text events st1 Hno Hkey1) as (Hmem & calls & Hlog & Hall).
  fold st' in Hmem, Hlog.
  assert (Hlast : exists o', last_save CHATBOT_CONFIG_PATH st'.2
                             = Some (_chatbot st'.1, o')).
  { destruct (session_kept events st1) as [_ [[Hsame Hsaves]|Hkept]]; [|exact Hkept].
    fold st' in Hsame, Hsaves. exists o. rewrite Hsame.
    rewrite (proj1 (same_saves _ _ _ Hsaves)).
    unfold last_save. rewrite Hlog1. cbn [latest]. by rewrite decide_True. }
  split; [exact Hmem|]. split.
  { exists (calls ++ [(CHATBOT_CONFIG_PATH, _chatbot st1.1, o)])%list. split.
    - rewrite Hlog, Hlog1. by rewrite <- app_assoc.
    - apply Forall_app. split; [exact Hall|].
      apply Forall_cons. split; [intros _; exact Hkey1 | apply Forall_nil_2]. }
  split; [exact Hlast|]. split.
  - intros -> doc Hdoc. unfold file_content in Hdoc. rewrite Hlog, Hlog1 in Hdoc.
    destruct (state_after CHATBOT_CONFIG_PATH _) as [|doc'|] eqn:Hstate;
      try discriminate Hdoc.
    injection Hdoc as ->.
    apply state_after_since in Hstate as [->|[o' Hin]]; [exact Hkey1|].
    rewrite Forall_forall in Hall. by apply (Hall _ Hin).
  - intros Hsaved. destruct Hlast as [o' Hlast].
    unfold saved in Hsaved. rewrite Hlast in Hsaved. subst o'.
    by apply last_save_written.
Qed.

Lemma api_key_is_kept_witness :
  file_content CHATBOT_CONFIG_PATH
    (session [ModelSelected 2 WriteRaisedBeforeOpen;
              ProviderSelected 1 (Notified WriteRaisedAfterOpen) Silent Written;
              CloseRequest]
       (handle (ApiKeyChanged "sk-123" WriteRaisedBeforeOpen)
          (default_window, empty_desktop))).2
  = Some (_chatbot
            (session [ModelSelected 2 WriteRaisedBeforeOpen;
              ProviderSelected 1 (Notified WriteRaisedAfterOpen) Silent Written;
              CloseRequest]
               (handle (ApiKeyChanged "sk-123" WriteRaisedBeforeOpen)
                  (default_window, empty_desktop))).1) /\
  _chatbot
    (session [ModelSelected 2 WriteRaisedBeforeOpen;
              ProviderSelected 1 (Notified WriteRaisedAfterOpen) Silent Written;
              CloseRequest]
       (handle (ApiKeyChanged "sk-123" WriteRaisedBeforeOpen)
          (default_window, empty_desktop))).1 !! "apiKey" = Some (JStr "sk-123").
Proof.
  pose proof (api_key_is_kept "sk-123" WriteRaisedBeforeOpen
                [ModelSelected 2 WriteRaisedBeforeOpen;
              ProviderSelected 1 (Notified WriteRaisedAfterOpen) Silent Written;
              CloseRequest]
                (default_window, empty_desktop) eq_refl)
    as (Hmem & _ & _ & _ & Hfile).
  split; [apply Hfile; vm_compute; reflexivity | exact Hmem].
Defined.
